(** * Invoice-Extractor worker: authentication and trial-quota gate

    A shallow embedding of [src/worker.ts] (login, session store, trial
    counter, extract guard, router), of the record written by
    [tools/make-user.mjs] and of the request the browser client posts to
    [/api/extract], with the platform primitives the code calls
    (base64, PBKDF2-HMAC-SHA256, URI component coding, [parseInt],
    number printing) written out so that every handler can be evaluated
    on concrete requests.

    Conventions.
    - A JavaScript string is represented by the UTF-8 encoding of its
      text, as a [string] of bytes; strings with unpaired surrogates are
      outside the model.  With this convention [TextEncoder.encode] is the
      identity on the bytes.
    - A byte is a [Z] in [0, 256); a "binary string" (the argument of
      [btoa], the result of [atob]) is a [list Z] of bytes.
    - A JavaScript number that is known to be integral is a [Z]; the
      rounding to the nearest double is written out where the code can
      reach values beyond 2^53 ([parseInt], the trial increment). *)

From Stdlib Require Import ZArith List Ascii String Lia Bool.
From stdpp Require Import base option gmap strings fin_maps.

Open Scope string_scope.
Open Scope list_scope.
Open Scope Z_scope.

(* ===================================================================== *)
(** ** Bytes and strings *)
(* ===================================================================== *)

Definition code (c : ascii) : Z := Z.of_N (N_of_ascii c).
Definition chr (z : Z) : ascii := ascii_of_N (Z.to_N (Z.land z 255)).

Fixpoint bytes_of_string (s : string) : list Z :=
  match s with
  | EmptyString => []
  | String c r => code c :: bytes_of_string r
  end.

Fixpoint string_of_bytes (l : list Z) : string :=
  match l with
  | [] => EmptyString
  | b :: r => String (chr b) (string_of_bytes r)
  end.

Fixpoint string_rev_onto (s acc : string) : string :=
  match s with
  | EmptyString => acc
  | String c r => string_rev_onto r (String c acc)
  end.
Definition string_rev (s : string) : string := string_rev_onto s EmptyString.

(** [sep.join(parts)] *)
Fixpoint join (sep : string) (parts : list string) : string :=
  match parts with
  | [] => EmptyString
  | [p] => p
  | p :: rest => p +:+ sep +:+ join sep rest
  end.

Definition is_digit (c : ascii) : bool := (48 <=? code c) && (code c <=? 57).

(* ===================================================================== *)
(** ** Base64: [btoa] and [atob] *)
(* ===================================================================== *)

Module Base64.

Definition alphabet : string :=
  "ABCDEFGHIJKLMNOPQRSTUVWXYZabcdefghijklmnopqrstuvwxyz0123456789+/".

Definition sextet_char (v : Z) : ascii :=
  match String.get (Z.to_nat (Z.land v 63)) alphabet with
  | Some c => c
  | None => "A"%char
  end.

Definition char_sextet (c : ascii) : option Z :=
  let n := code c in
  if (65 <=? n) && (n <=? 90) then Some (n - 65)
  else if (97 <=? n) && (n <=? 122) then Some (n - 71)
  else if (48 <=? n) && (n <=? 57) then Some (n + 4)
  else if n =? 43 then Some 62
  else if n =? 47 then Some 63
  else None.

(** [btoa(String.fromCharCode(...bytes))]: RFC 4648 with padding. *)
Fixpoint encode (l : list Z) : string :=
  match l with
  | [] => EmptyString
  | [a] =>
      String (sextet_char (Z.shiftr a 2))
        (String (sextet_char (Z.shiftl (Z.land a 3) 4)) "==")
  | [a; b] =>
      String (sextet_char (Z.shiftr a 2))
        (String (sextet_char (Z.lor (Z.shiftl (Z.land a 3) 4) (Z.shiftr b 4)))
           (String (sextet_char (Z.shiftl (Z.land b 15) 2)) "="))
  | a :: b :: c :: rest =>
      String (sextet_char (Z.shiftr a 2))
        (String (sextet_char (Z.lor (Z.shiftl (Z.land a 3) 4) (Z.shiftr b 4)))
           (String (sextet_char (Z.lor (Z.shiftl (Z.land b 15) 2) (Z.shiftr c 6)))
              (String (sextet_char (Z.land c 63)) (encode rest))))
  end.

Definition is_ascii_whitespace (c : ascii) : bool :=
  let n := code c in
  (n =? 9) || (n =? 10) || (n =? 12) || (n =? 13) || (n =? 32).

Fixpoint strip_whitespace (s : string) : string :=
  match s with
  | EmptyString => EmptyString
  | String c r =>
      if is_ascii_whitespace c then strip_whitespace r
      else String c (strip_whitespace r)
  end.

Fixpoint sextets (s : string) : option (list Z) :=
  match s with
  | EmptyString => Some []
  | String c r =>
      match char_sextet c, sextets r with
      | Some v, Some vs => Some (v :: vs)
      | _, _ => None
      end
  end.

Fixpoint bytes_of_sextets (l : list Z) : list Z :=
  match l with
  | a :: b :: c :: d :: rest =>
      Z.lor (Z.shiftl a 2) (Z.shiftr b 4)
      :: Z.lor (Z.shiftl (Z.land b 15) 4) (Z.shiftr c 2)
      :: Z.lor (Z.shiftl (Z.land c 3) 6) d
      :: bytes_of_sextets rest
  | [a; b; c] =>
      [Z.lor (Z.shiftl a 2) (Z.shiftr b 4);
       Z.lor (Z.shiftl (Z.land b 15) 4) (Z.shiftr c 2)]
  | [a; b] => [Z.lor (Z.shiftl a 2) (Z.shiftr b 4)]
  | _ => []
  end.

(** Drop one or two trailing [=] when the length is a multiple of four. *)
Definition strip_padding (s : string) : string :=
  if (Z.of_nat (String.length s) mod 4 =? 0) then
    match string_rev s with
    | String "=" (String "=" r) => string_rev r
    | String "=" r => string_rev r
    | _ => s
    end
  else s.

(** [atob(s)], the forgiving-base64 decode of the HTML standard; [None]
    is the [InvalidCharacterError] it throws. *)
Definition decode (s : string) : option (list Z) :=
  let s1 := strip_padding (strip_whitespace s) in
  if (Z.of_nat (String.length s1) mod 4 =? 1) then None
  else bytes_of_sextets <$> sextets s1.

End Base64.

(* ===================================================================== *)
(** ** SHA-256, HMAC and PBKDF2 (FIPS 180-4, RFC 2104, RFC 8018) *)
(* ===================================================================== *)

Module Sha256.

Definition w32 (x : Z) : Z := Z.land x 4294967295.
Definition add32 (a b : Z) : Z := w32 (a + b).
Definition rotr (n x : Z) : Z := Z.lor (Z.shiftr x n) (w32 (Z.shiftl x (32 - n))).

Definition Ch (x y z : Z) : Z := Z.lxor (Z.land x y) (Z.land (Z.lxor x 4294967295) z).
Definition Maj (x y z : Z) : Z :=
  Z.lxor (Z.lxor (Z.land x y) (Z.land x z)) (Z.land y z).
Definition Sigma0 (x : Z) : Z := Z.lxor (Z.lxor (rotr 2 x) (rotr 13 x)) (rotr 22 x).
Definition Sigma1 (x : Z) : Z := Z.lxor (Z.lxor (rotr 6 x) (rotr 11 x)) (rotr 25 x).
Definition sigma0 (x : Z) : Z := Z.lxor (Z.lxor (rotr 7 x) (rotr 18 x)) (Z.shiftr x 3).
Definition sigma1 (x : Z) : Z := Z.lxor (Z.lxor (rotr 17 x) (rotr 19 x)) (Z.shiftr x 10).

(** The constants of FIPS 180-4, computed from their definition: the
    first thirty-two bits of the fractional parts of the cube roots
    ([K]) and of the square roots ([H0]) of the first primes. *)
Definition is_prime (n : Z) : bool :=
  (2 <=? n)
  && forallb (fun d => negb (n mod Z.of_nat d =? 0)) (seq 2 (Z.to_nat n - 2)).

Definition primes (count : nat) : list Z :=
  firstn count (filter is_prime (map Z.of_nat (seq 2 400))).

(** The largest [r] with [r ^ 3 <= n], built bit by bit below [2 ^ bits]. *)
Fixpoint cube_root (bits : nat) (n r : Z) : Z :=
  match bits with
  | O => r
  | S b =>
      let r' := r + 2 ^ Z.of_nat b in
      cube_root b n (if r' ^ 3 <=? n then r' else r)
  end.

Definition K : list Z :=
  Eval vm_compute in map (fun p => w32 (cube_root 40 (p * 2 ^ 96) 0)) (primes 64).

Definition H0 : list Z :=
  Eval vm_compute in map (fun p => w32 (Z.sqrt (p * 2 ^ 64))) (primes 8).

(** Big-endian bytes of a [n]-byte unsigned integer. *)
Fixpoint be_bytes (n : nat) (x : Z) : list Z :=
  match n with
  | O => []
  | S m => Z.land (Z.shiftr x (8 * Z.of_nat m)) 255 :: be_bytes m x
  end.

Definition pad (msg : list Z) : list Z :=
  let len := Z.of_nat (List.length msg) in
  let zeros := Z.to_nat ((55 - len) mod 64) in
  msg ++ [128] ++ repeat 0 zeros ++ be_bytes 8 (8 * len).

Fixpoint words (fuel : nat) (l : list Z) : list Z :=
  match fuel, l with
  | S f, a :: b :: c :: d :: rest =>
      Z.lor (Z.lor (Z.shiftl a 24) (Z.shiftl b 16)) (Z.lor (Z.shiftl c 8) d)
      :: words f rest
  | _, _ => []
  end.

(** The message schedule, kept as the window of the last sixteen words
    (oldest first); [schedule n w] lists W_t, W_t+1, ... *)
Fixpoint schedule (n : nat) (w : list Z) : list Z :=
  match n, w with
  | S m, w0 :: rest =>
      let w1 := nth 0 rest 0 in
      let w9 := nth 8 rest 0 in
      let w14 := nth 13 rest 0 in
      let next := add32 (add32 (sigma1 w14) w9) (add32 (sigma0 w1) w0) in
      w0 :: schedule m (rest ++ [next])
  | _, _ => []
  end.

Definition round (st : list Z) (kw : Z * Z) : list Z :=
  match st with
  | [a; b; c; d; e; f; g; h] =>
      let t1 := add32 (add32 (add32 h (Sigma1 e)) (add32 (Ch e f g) (fst kw))) (snd kw) in
      let t2 := add32 (Sigma0 a) (Maj a b c) in
      [add32 t1 t2; a; b; c; add32 d t1; e; f; g]
  | _ => st
  end.

Definition compress (st : list Z) (block : list Z) : list Z :=
  let w := schedule 64 (words 16 block) in
  let st' := fold_left round (combine K w) st in
  map (fun p => add32 (fst p) (snd p)) (combine st st').

Fixpoint blocks (fuel : nat) (st : list Z) (l : list Z) : list Z :=
  match fuel with
  | O => st
  | S f =>
      match l with
      | [] => st
      | _ => blocks f (compress st (firstn 64 l)) (skipn 64 l)
      end
  end.

Definition sha256 (msg : list Z) : list Z :=
  let p := pad msg in
  flat_map (be_bytes 4) (blocks (List.length p) H0 p).

Definition xor_bytes (a b : list Z) : list Z :=
  map (fun p => Z.lxor (fst p) (snd p)) (combine a b).

Definition hmac (key msg : list Z) : list Z :=
  let k0 := if (64 <? Z.of_nat (List.length key)) then sha256 key else key in
  let k := k0 ++ repeat 0 (64 - List.length k0)%nat in
  let ipad := map (Z.lxor 54) k in
  let opad := map (Z.lxor 92) k in
  sha256 (opad ++ sha256 (ipad ++ msg)).

(** First (and, for a 32-byte output, only) block of PBKDF2-HMAC-SHA256;
    [c >= 1]. *)
Definition pbkdf2 (password salt : list Z) (c : Z) : list Z :=
  let u1 := hmac password (salt ++ be_bytes 4 1) in
  fst (N.iter (Z.to_N (c - 1))
         (fun tu => let u := hmac password (snd tu) in (xor_bytes (fst tu) u, u))
         (u1, u1)).

End Sha256.

Definition hex_digit (v : Z) : ascii :=
  match String.get (Z.to_nat (Z.land v 15)) "0123456789abcdef" with
  | Some c => c
  | None => "0"%char
  end.
Definition hex (l : list Z) : string :=
  fold_right (fun b acc => String (hex_digit (Z.shiftr b 4)) (String (hex_digit b) acc))
    EmptyString l.

(* ===================================================================== *)
(** ** JavaScript numbers restricted to the values this code computes *)
(* ===================================================================== *)

(** The numbers that reach the worker's arithmetic are [NaN], the two
    infinities and integral doubles. *)
Inductive number : Type :=
  | NaN
  | Finite (z : Z)
  | Infinity (negative : bool).

(** Round an exact integer to the nearest double, ties to even (53-bit
    significand, overflow at 2^1024). *)
Definition round_to_double (z : Z) : number :=
  let m := Z.abs z in
  if m <? 2 ^ 53 then Finite z
  else
    let e := Z.log2 m - 52 in
    let q := Z.shiftr m e in
    let r := Z.land m (Z.ones e) in
    let half := Z.shiftl 1 (e - 1) in
    let q' := if (half <? r) || ((r =? half) && Z.odd q) then q + 1 else q in
    let v := Z.shiftl q' e in
    if 2 ^ 1024 <=? v then Infinity (z <? 0)
    else Finite (Z.sgn z * v).

(** [Number.isFinite(n) ? n : 0] *)
Definition finite_or_zero (n : number) : Z :=
  match n with
  | Finite z => z
  | _ => 0
  end.

(** [a + b] on integral doubles. *)
Definition js_add (a b : Z) : Z := finite_or_zero (round_to_double (a + b)).

(** *** White space ([WhiteSpace] and [LineTerminator] of ECMA-262) in the
    UTF-8 representation. *)

Definition starts_with_bytes (l : list Z) (s : string) : bool :=
  (fix go (l : list Z) (s : string) : bool :=
     match l, s with
     | [], _ => true
     | b :: l', String c r => (code c =? b) && go l' r
     | _ :: _, EmptyString => false
     end) l s.

Definition white_space_chars : list (list Z) :=
  [[9]; [10]; [11]; [12]; [13]; [32];
   [194; 160];                       (* U+00A0 *)
   [225; 154; 128];                  (* U+1680 *)
   [226; 128; 128]; [226; 128; 129]; [226; 128; 130]; [226; 128; 131];
   [226; 128; 132]; [226; 128; 133]; [226; 128; 134]; [226; 128; 135];
   [226; 128; 136]; [226; 128; 137]; [226; 128; 138];   (* U+2000..U+200A *)
   [226; 128; 168]; [226; 128; 169]; (* U+2028, U+2029 *)
   [226; 128; 175];                  (* U+202F *)
   [226; 129; 159];                  (* U+205F *)
   [227; 128; 128];                  (* U+3000 *)
   [239; 187; 191]].                 (* U+FEFF *)

(** Number of bytes of the white-space character [s] starts with, [O] if
    it starts with none. *)
Definition leading_space (chars : list (list Z)) (s : string) : nat :=
  match List.find (fun w => starts_with_bytes w s) chars with
  | Some w => List.length w
  | None => O
  end.

Fixpoint string_drop (n : nat) (s : string) : string :=
  match n, s with
  | S m, String _ r => string_drop m r
  | _, _ => s
  end.

Fixpoint trim_with (chars : list (list Z)) (fuel : nat) (s : string) : string :=
  match fuel with
  | O => s
  | S f =>
      match leading_space chars s with
      | O => s
      | n => trim_with chars f (string_drop n s)
      end
  end.

Definition trimStart (s : string) : string :=
  trim_with white_space_chars (String.length s) s.

(** [s.trim()] *)
Definition trim (s : string) : string :=
  let t := string_rev (trimStart s) in
  string_rev (trim_with (map (@rev Z) white_space_chars) (String.length t) t).

(** *** [parseInt(s, 10)]

    The digits are read exactly and the value is rounded once to the
    nearest double (ECMA-262 lets an engine approximate beyond the
    twentieth significant digit; the correctly rounded value is used
    here).  Negative zero is not distinguished from zero: the worker
    only compares the result, adds one to it and prints the sum. *)

Fixpoint digits_value (acc : Z) (s : string) : Z :=
  match s with
  | String c r => if is_digit c then digits_value (10 * acc + (code c - 48)) r else acc
  | EmptyString => acc
  end.

Definition negate (n : number) : number :=
  match n with
  | NaN => NaN
  | Finite z => Finite (- z)
  | Infinity b => Infinity (negb b)
  end.

Definition parseInt10 (input : string) : number :=
  let s := trimStart input in
  let '(neg, body) :=
    match s with
    | String "-" r => (true, r)
    | String "+" r => (false, r)
    | _ => (false, s)
    end in
  match body with
  | String c _ =>
      if is_digit c then
        let n := round_to_double (digits_value 0 body) in
        if neg then negate n else n
      else NaN
  | EmptyString => NaN
  end.

(** *** [String(n)] for an integral double ([Number::toString], radix 10) *)

Fixpoint decimal_digits (fuel : nat) (n : Z) (acc : string) : string :=
  match fuel with
  | O => acc
  | S f =>
      let acc' := String (chr (48 + n mod 10)) acc in
      if n <? 10 then acc' else decimal_digits f (n / 10) acc'
  end.

Definition decimal (n : Z) : string :=
  decimal_digits (S (Z.to_nat (Z.log2 n))) n EmptyString.

(** Number of decimal digits of [x >= 1]. *)
Definition digit_count (x : Z) : Z := Z.of_nat (String.length (decimal x)).

(** For a positive integral double [x], the shortest digit string [s] of
    [k] digits and the exponent [n] with [s * 10^(n-k)] rounding to [x]
    (the closest such [s] when there are two). *)
Definition shortest_at (x n k : Z) : option Z :=
  let p := 10 ^ (n - k) in
  let lo := x / p in
  let ok s := (10 ^ (k - 1) <=? s) && (s <? 10 ^ k)
              && match round_to_double (s * p) with
                 | Finite v => v =? x
                 | _ => false
                 end in
  match ok lo, ok (lo + 1) with
  | true, true => if (x - lo * p <=? (lo + 1) * p - x) then Some lo else Some (lo + 1)
  | true, false => Some lo
  | false, true => Some (lo + 1)
  | false, false => None
  end.

Fixpoint shortest_from (fuel : nat) (x d k : Z) : Z * Z * Z :=
  match fuel with
  | O => (x, d, d)
  | S f =>
      match shortest_at x d k, shortest_at x (d + 1) k with
      | Some s, _ => (s, d, k)
      | None, Some s => (s, d + 1, k)
      | None, None => shortest_from f x d (k + 1)
      end
  end.

Definition number_to_string_pos (x : Z) : string :=
  let d := digit_count x in
  let '(s, n, k) := shortest_from 17 x d 1 in
  let ds := decimal s in
  if n <=? 21 then ds +:+ string_of_bytes (repeat 48 (Z.to_nat (n - k)))
  else
    match ds with
    | String c EmptyString => String c ("e+" +:+ decimal (n - 1))
    | String c r => String c ("." +:+ r +:+ "e+" +:+ decimal (n - 1))
    | EmptyString => EmptyString
    end.

Definition number_to_string (z : Z) : string :=
  if z =? 0 then "0"
  else if z <? 0 then "-" +:+ number_to_string_pos (- z)
  else number_to_string_pos z.

(* ===================================================================== *)
(** ** [encodeURIComponent] and [decodeURIComponent] *)
(* ===================================================================== *)

Module URI.

Definition unreserved (c : ascii) : bool :=
  let n := code c in
  ((65 <=? n) && (n <=? 90)) || ((97 <=? n) && (n <=? 122)) || is_digit c
  || (n =? 45) || (n =? 95) || (n =? 46) || (n =? 33) || (n =? 126)
  || (n =? 42) || (n =? 39) || (n =? 40) || (n =? 41).

Definition HEX (v : Z) : ascii :=
  match String.get (Z.to_nat (Z.land v 15)) "0123456789ABCDEF" with
  | Some c => c
  | None => "0"%char
  end.

(** Every byte of the UTF-8 form that is not unreserved is escaped. *)
Fixpoint encode (s : string) : string :=
  match s with
  | EmptyString => EmptyString
  | String c r =>
      if unreserved c then String c (encode r)
      else String "%" (String (HEX (Z.shiftr (code c) 4)) (String (HEX (code c)) (encode r)))
  end.

Definition hex_value (c : ascii) : option Z :=
  let n := code c in
  if is_digit c then Some (n - 48)
  else if (65 <=? n) && (n <=? 70) then Some (n - 55)
  else if (97 <=? n) && (n <=? 102) then Some (n - 87)
  else None.

(** One escape [%XX] at the head of [s]: its octet and the rest. *)
Definition octet (s : string) : option (Z * string) :=
  match s with
  | String "%" (String h (String l r)) =>
      match hex_value h, hex_value l with
      | Some a, Some b => Some (16 * a + b, r)
      | _, _ => None
      end
  | _ => None
  end.

Fixpoint octets (n : nat) (s : string) : option (list Z * string) :=
  match n with
  | O => Some ([], s)
  | S m =>
      match octet s with
      | Some (b, r) =>
          match octets m r with
          | Some (bs, r') => Some (b :: bs, r')
          | None => None
          end
      | None => None
      end
  end.

(** Length of the UTF-8 sequence announced by a lead byte >= 0x80. *)
Definition sequence_length (b : Z) : nat :=
  if Z.land b 224 =? 192 then 2%nat
  else if Z.land b 240 =? 224 then 3%nat
  else if Z.land b 248 =? 240 then 4%nat
  else O.

Definition is_continuation (b : Z) : bool := Z.land b 192 =? 128.

(** The octets are the UTF-8 encoding of one code point: shortest form,
    no surrogate, at most U+10FFFF. *)
Definition valid_utf8 (l : list Z) : bool :=
  match l with
  | [a; b] =>
      is_continuation b && (128 <=? Z.lor (Z.shiftl (Z.land a 31) 6) (Z.land b 63))
  | [a; b; c] =>
      let cp := Z.lor (Z.shiftl (Z.land a 15) 12)
                  (Z.lor (Z.shiftl (Z.land b 63) 6) (Z.land c 63)) in
      is_continuation b && is_continuation c && (2048 <=? cp)
      && negb ((55296 <=? cp) && (cp <=? 57343))
  | [a; b; c; d] =>
      let cp := Z.lor (Z.shiftl (Z.land a 7) 18)
                  (Z.lor (Z.shiftl (Z.land b 63) 12)
                     (Z.lor (Z.shiftl (Z.land c 63) 6) (Z.land d 63))) in
      is_continuation b && is_continuation c && is_continuation d
      && (65536 <=? cp) && (cp <=? 1114111)
  | _ => false
  end.

(** [None] is the [URIError] thrown on a malformed escape. *)
Fixpoint decode_fuel (fuel : nat) (s : string) : option string :=
  match fuel with
  | O => Some EmptyString
  | S f =>
      match s with
      | EmptyString => Some EmptyString
      | String "%" _ =>
          match octet s with
          | None => None
          | Some (b, r) =>
              if b <? 128 then String (chr b) <$> decode_fuel f r
              else
                match sequence_length b with
                | O => None
                | S n =>
                    match octets n r with
                    | None => None
                    | Some (bs, r') =>
                        if valid_utf8 (b :: bs)
                        then String.append (string_of_bytes (b :: bs)) <$> decode_fuel f r'
                        else None
                    end
                end
          end
      | String c r => String c <$> decode_fuel f r
      end
  end.

Definition decode (s : string) : option string := decode_fuel (String.length s) s.

End URI.

(* ===================================================================== *)
(** ** JSON values of request bodies *)
(* ===================================================================== *)

(** A parsed JSON value.  [JNumber z] is the double nearest to [z];
    fractional numbers are outside the model. *)
Set Warnings "-register-all".
Inductive json : Type :=
  | JNull
  | JBool (b : bool)
  | JNumber (z : Z)
  | JString (s : string)
  | JArray (items : list json)
  | JObject (fields : list (string * json)).
Set Warnings "register-all".

Fixpoint assoc {A} (k : string) (l : list (string * A)) : option A :=
  match l with
  | [] => None
  | (k', v) :: r => if String.eqb k k' then Some v else assoc k r
  end.

(** ECMA-262 [ToBoolean]; [None] is [undefined]. *)
Definition truthy (v : option json) : bool :=
  match v with
  | None | Some JNull => false
  | Some (JBool b) => b
  | Some (JNumber z) => negb (z =? 0)
  | Some (JString s) => negb (String.eqb s "")
  | Some (JArray _) | Some (JObject _) => true
  end.

Definition number_image (n : number) : string :=
  match n with
  | NaN => "NaN"
  | Finite z => number_to_string z
  | Infinity false => "Infinity"
  | Infinity true => "-Infinity"
  end.

(** ECMA-262 [ToString] of a parsed JSON value; [None] is the [TypeError]
    raised for an object whose own [toString] entry shadows the method. *)
Fixpoint ToString (j : json) : option string :=
  match j with
  | JNull => Some "null"
  | JBool true => Some "true"
  | JBool false => Some "false"
  | JNumber z => Some (number_image (round_to_double z))
  | JString s => Some s
  | JArray items =>
      join "," <$>
        mapM (fun x => match x with
                       | JNull => Some EmptyString
                       | _ => ToString x
                       end) items
  | JObject fields =>
      match assoc "toString" fields with
      | None => Some "[object Object]"
      | Some _ => None
      end
  end.

(* ===================================================================== *)
(** ** The runtime: clock, entropy, KV namespace, upstream API *)
(* ===================================================================== *)

(** Errors raised by the platform rather than by [throw] statements of the
    worker; their message texts are the engine's. *)
Inductive engine_error : Type :=
  | JsonSyntaxError          (* req.json() on a body that is not JSON *)
  | PropertyOfNull           (* body.username with body === null *)
  | NotAFunction             (* x.trim() where x has no trim method *)
  | CannotConvertToPrimitive (* ToString of an object shadowing toString *)
  | MalformedURI             (* decodeURIComponent *)
  | InvalidBase64            (* atob *)
  | IterationsNotULong       (* deriveBits: iterations is not an unsigned long *)
  | IterationsZero           (* deriveBits: iterations is 0 *)
  | IterationsNotSupported   (* deriveBits: more iterations than the runtime allows *)
  | FormDataTypeError.       (* req.formData() on a body that is not a form *)

Definition engine_name (k : engine_error) : string :=
  match k with
  | JsonSyntaxError => "SyntaxError"
  | MalformedURI => "URIError"
  | InvalidBase64 => "InvalidCharacterError"
  | IterationsZero => "OperationError"
  | IterationsNotSupported => "NotSupportedError"
  | _ => "TypeError"
  end.

(** A thrown error object, reduced to its [name] and [message]. *)
Record exn : Type := Error { exn_name : string; exn_message : string }.

(** What [extractWithGPT] passes to the Responses API: the key of the
    [Authorization] header, the images and the document text (the prompt
    is fixed and the text is truncated to 10000 code units). *)
Record UpstreamCall : Type := {
  call_api_key : string;
  call_images : list string;
  call_text : string
}.

(** What follows the [fetch]: the JSON that [extractWithGPT] returns, or
    the error it throws (a non-2xx status, a network failure, a reply
    that is not JSON). *)
Inductive UpstreamReply : Type :=
  | Extracted (result : json)
  | UpstreamFailed (e : exn).

(** The platform as one request sees it.  [Date_now] is a time value in
    milliseconds (integral and below 8.64e15, so the arithmetic on it is
    exact); [random_byte i] is the i-th byte [crypto.getRandomValues]
    delivers; [Date_parse] is the engine's date parser;
    [pbkdf2_max_iterations] is the largest iteration count its PBKDF2
    accepts, if it has a cap (workerd has one, browsers do not). *)
Record Runtime : Type := {
  Date_now : Z;
  random_byte : nat -> Z;
  Date_parse : string -> number;
  pbkdf2_max_iterations : option Z;
  fetch_responses : UpstreamCall -> UpstreamReply;
  engine_message : engine_error -> string
}.

(** *** Documents of the KV namespace

    The namespace holds JSON documents of two shapes.  A field is [None]
    when the document has no such property ([undefined] when read); a
    field that is present has the type the worker's casts declare. *)

(** [user:<username>]: the fields [handleLogin] reads, and the further
    fields [tools/make-user.mjs] writes. *)
Record UserDoc : Type := {
  doc_username : option string;
  doc_salt : option string;
  doc_hash : option string;
  doc_iterations : option Z;
  doc_expires : option string;
  doc_roles : option (list string);
  doc_role : option string;
  doc_quota : option (Z * Z);
  doc_status : option string
}.

(** [session:<token>] *)
Record SessionDoc : Type := {
  sess_username : string;
  sess_exp : Z;
  sess_roles : option (list string)
}.

Inductive Document : Type :=
  | UserRecord (d : UserDoc)
  | SessionRecord (s : SessionDoc).

(** Property reads on a document, whatever its shape. *)
Definition get_roles (d : Document) : option (list string) :=
  match d with
  | UserRecord u => doc_roles u
  | SessionRecord s => sess_roles s
  end.
Definition get_salt (d : Document) : option string :=
  match d with UserRecord u => doc_salt u | SessionRecord _ => None end.
Definition get_hash (d : Document) : option string :=
  match d with UserRecord u => doc_hash u | SessionRecord _ => None end.
Definition get_iterations (d : Document) : option Z :=
  match d with UserRecord u => doc_iterations u | SessionRecord _ => None end.
Definition get_expires (d : Document) : option string :=
  match d with UserRecord u => doc_expires u | SessionRecord _ => None end.

(** A key of the namespace: the document and, when it was written with
    [expirationTtl], the epoch second at which the store may purge it. *)
Record KVEntry : Type := {
  kv_document : Document;
  kv_expiration : option Z
}.

Abbreviation KVNamespace := (gmap string KVEntry).

(** The store is free to drop a key once its expiration has passed. *)
Definition kv_live (now_s : Z) (e : KVEntry) : bool :=
  match kv_expiration e with
  | Some t => now_s <? t
  | None => true
  end.
Definition kv_purge (now_s : Z) (kv : KVNamespace) : KVNamespace :=
  filter (fun p => kv_live now_s (snd p) = true) kv.

(** The mutable world of a request: the contents of [env.USERS] and the
    calls made to the upstream API so far. *)
Record World : Type := {
  USERS : KVNamespace;
  upstream_calls : list UpstreamCall
}.

(** *** The monad of handlers: state and exceptions *)

Inductive result (A : Type) : Type :=
  | Return (a : A)
  | Throw (e : exn).
Arguments Return {A} a.
Arguments Throw {A} e.

Definition M (A : Type) : Type := World -> result A * World.

Definition ret {A} (a : A) : M A := fun w => (Return a, w).
Definition throw {A} (e : exn) : M A := fun w => (Throw e, w).
Definition bind {A B} (m : M A) (k : A -> M B) : M B :=
  fun w =>
    match m w with
    | (Return a, w') => k a w'
    | (Throw e, w') => (Throw e, w')
    end.
(** [try { m } catch (e) { h(e) }] *)
Definition try_catch {A} (m : M A) (h : exn -> M A) : M A :=
  fun w =>
    match m w with
    | (Return a, w') => (Return a, w')
    | (Throw e, w') => h e w'
    end.

Declare Scope worker_scope.
Delimit Scope worker_scope with worker.
Notation "'let*' x ':=' m 'in' k" := (bind m (fun x => k))
  (at level 10, x pattern, m at level 100, k at level 200) : worker_scope.
Notation "m ';;' k" := (bind m (fun _ => k))
  (at level 100, k at level 200, right associativity) : worker_scope.
Open Scope worker_scope.

(** [env.USERS.get(key, "json")], [put] and [delete].  The operations
    are taken to succeed: no outage, keys within the limits of the store.
    [get] returns whatever the store still holds; purging is the store's
    own move ([kv_purge]). *)
Definition kv_get (key : string) : M (option Document) :=
  fun w => (Return (kv_document <$> USERS w !! key), w).
Definition kv_put (key : string) (d : Document) (expiration : option Z) : M unit :=
  fun w =>
    (Return tt,
     {| USERS := <[key := {| kv_document := d; kv_expiration := expiration |}]> (USERS w);
        upstream_calls := upstream_calls w |}).
Definition kv_delete (key : string) : M unit :=
  fun w =>
    (Return tt, {| USERS := delete key (USERS w); upstream_calls := upstream_calls w |}).
Definition record_call (c : UpstreamCall) : M unit :=
  fun w => (Return tt, {| USERS := USERS w; upstream_calls := upstream_calls w ++ [c] |}).

(* ===================================================================== *)
(** ** [src/worker.ts] *)
(* ===================================================================== *)

Record Env : Type := {
  ALLOWED_ORIGIN : string;
  OPENAI_API_KEY : string
  (* USERS: the namespace bound here is the [USERS] component of [World] *)
}.

Inductive FormValue : Type :=
  | FormString (s : string)
  | FormFile.

(** A request as the handlers read it: [req.method], the path of
    [req.url], [req.headers.get("Cookie")], the outcome of [req.json()]
    ([None] when it rejects) and the entries of [req.formData()] ([None]
    when it rejects). *)
Record Request : Type := {
  method : string;
  pathname : string;
  cookie_header : option string;
  json_body : option json;
  form_data : option (list (string * FormValue))
}.

Inductive Body : Type :=
  | NoBody
  | Text (s : string)
  | Json (j : json).

Record Response : Type := {
  status : Z;
  headers : gmap string string;
  body : Body
}.

Section Worker.

Context (rt : Runtime).

Definition raise {A} (k : engine_error) : M A :=
  throw (Error (engine_name k) (engine_message rt k)).

Definition or_throw {A} (k : engine_error) (o : option A) : M A :=
  match o with
  | Some a => ret a
  | None => raise k
  end.

(** *** 0) Small utilities *)

Definition JSON_HEADER : gmap string string :=
  {[ "content-type" := "application/json; charset=utf-8" ]}.

Definition cors (env : Env) : gmap string string :=
  list_to_map
    [("Access-Control-Allow-Origin", ALLOWED_ORIGIN env);
     ("Access-Control-Allow-Credentials", "true");
     ("Access-Control-Allow-Headers", "Content-Type, Authorization, X-Requested-With");
     ("Access-Control-Allow-Methods", "POST, OPTIONS");
     ("Access-Control-Max-Age", "86400");
     ("Vary", "Origin")].

(** [{ ...a, ...b }]: the entries of [b] win. *)
Definition spread (a b : gmap string string) : gmap string string := b ∪ a.

Definition ok (body : json) (env : Env) (extraHeaders : gmap string string) : Response :=
  {| status := 200;
     headers := spread (spread JSON_HEADER (cors env)) extraHeaders;
     body := Json body |}.

Definition bad (body : json) (env : Env) (status : Z) : Response :=
  {| status := status;
     headers := spread JSON_HEADER (cors env);
     body := Json body |}.

(** The regular expression of [getCookie]: [name=] at the start of the
    header or after a semicolon and a space, followed by the captured run
    of characters other than a semicolon.  The capture of the leftmost
    match is returned; [name] has no regular expression operators. *)
Fixpoint strip_prefix (p s : string) : option string :=
  match p, s with
  | EmptyString, _ => Some s
  | String a p', String b s' => if Ascii.eqb a b then strip_prefix p' s' else None
  | String _ _, EmptyString => None
  end.

Fixpoint until_semicolon (s : string) : string :=
  match s with
  | EmptyString => EmptyString
  | String c r => if Ascii.eqb c ";" then EmptyString else String c (until_semicolon r)
  end.

Fixpoint match_after_separator (name s : string) : option string :=
  match strip_prefix ("; " +:+ name +:+ "=") s with
  | Some rest => Some (until_semicolon rest)
  | None =>
      match s with
      | EmptyString => None
      | String _ r => match_after_separator name r
      end
  end.

Definition cookie_match (name raw : string) : option string :=
  match strip_prefix (name +:+ "=") raw with
  | Some rest => Some (until_semicolon rest)
  | None => match_after_separator name raw
  end.

Definition getCookie (req : Request) (name : string) : M (option string) :=
  let raw := default EmptyString (cookie_header req) in
  match cookie_match name raw with
  | Some m => let* v := or_throw MalformedURI (URI.decode m) in ret (Some v)
  | None => ret None
  end.

Record CookieOptions : Type := {
  maxAge : option Z;
  path : option string;
  httpOnly : bool;
  sameSite : option string;
  secure : option bool
}.

Definition setCookie (name val : string) (opts : CookieOptions) : string :=
  let parts := [name +:+ "=" +:+ URI.encode val] in
  let parts :=
    match maxAge opts with
    | Some a => parts ++ ["Max-Age=" +:+ number_to_string a]
    | None => parts
    end in
  let parts := parts ++ ["Path=" +:+ default "/" (path opts)] in
  let parts := if httpOnly opts then parts ++ ["HttpOnly"] else parts in
  let parts := parts ++ ["SameSite=" +:+ default "None" (sameSite opts)] in
  let parts :=
    match secure opts with
    | Some false => parts
    | _ => parts ++ ["Secure"]
    end in
  join "; " parts.

(** [iterations] as the [EnforceRange] unsigned long of [Pbkdf2Params]. *)
Definition pbkdf2_iterations (iterations : option Z) : M Z :=
  match iterations with
  | None => raise IterationsNotULong
  | Some n =>
      if (n <? 0) || (4294967295 <? n) then raise IterationsNotULong
      else if n =? 0 then raise IterationsZero
      else
        match pbkdf2_max_iterations rt with
        | Some cap => if cap <? n then raise IterationsNotSupported else ret n
        | None => ret n
        end
  end.

Definition hashPasswordPBKDF2 (password : json) (saltB64 : option string)
    (iterations : option Z) : M string :=
  let* salt := or_throw InvalidBase64 (Base64.decode (default "undefined" saltB64)) in
  let* pw := or_throw CannotConvertToPrimitive (ToString password) in
  let* n := pbkdf2_iterations iterations in
  let bits := Sha256.pbkdf2 (bytes_of_string pw) salt n in
  ret (Base64.encode bits).

Definition getRandomValues (n : nat) : list Z :=
  map (fun i => random_byte rt i mod 256) (seq 0 n).

(** [s.replace(/=+$/, "")] *)
Fixpoint drop_equals (s : string) : string :=
  match s with
  | String "=" r => drop_equals r
  | _ => s
  end.
Definition strip_trailing_equals (s : string) : string :=
  string_rev (drop_equals (string_rev s)).

Definition b64Random (bytes : nat) : string :=
  strip_trailing_equals (Base64.encode (getRandomValues bytes)).

(** *** 1) Session and trial helpers *)

Definition SESSION_PREFIX : string := "session:".
Definition SESSION_TTL_SECONDS : Z := 60 * 60 * 24 * 30.
Definition TRIAL_LIMIT : Z := 3.
Definition TRIAL_COOKIE : string := "trial".
Definition SESSION_COOKIE : string := "sess".

(** [Math.floor(Date.now() / 1000)] *)
Definition now_seconds : Z := Date_now rt / 1000.

Definition getSession (env : Env) (token : option string) : M (option Document) :=
  match token with
  | None | Some EmptyString => ret None
  | Some t => kv_get (SESSION_PREFIX +:+ t)
  end.

Definition createSession (env : Env) (username : string) (roles : list string)
    : M (string * Z) :=
  let token := b64Random 24 in
  let exp := now_seconds + SESSION_TTL_SECONDS in
  kv_put (SESSION_PREFIX +:+ token)
    (SessionRecord {| sess_username := username; sess_exp := exp; sess_roles := Some roles |})
    (Some (now_seconds + SESSION_TTL_SECONDS));;
  ret (token, exp).

Definition destroySession (env : Env) (token : option string) : M unit :=
  match token with
  | None | Some EmptyString => ret tt
  | Some t => kv_delete (SESSION_PREFIX +:+ t)
  end.

Definition readTrialCookie (req : Request) : M Z :=
  let* v := getCookie req TRIAL_COOKIE in
  let n := parseInt10 (match v with
                       | None | Some EmptyString => "0"
                       | Some s => s
                       end) in
  ret (finite_or_zero n).

Definition trialExceeded (n : Z) : bool := TRIAL_LIMIT <=? n.

(** *** 2) Auth: login / logout *)

(** [body.name] on the parsed body; the fields of an object are its own
    properties, each name once. *)
Definition get_property (body : json) (name : string) : M (option json) :=
  match body with
  | JNull => raise PropertyOfNull
  | JObject fields => ret (assoc name fields)
  | _ => ret None
  end.

(** [v || ""] *)
Definition or_empty (v : option json) : json :=
  match v with
  | Some j => if truthy v then j else JString EmptyString
  | None => JString EmptyString
  end.

(** [v.trim()] *)
Definition call_trim (v : json) : M string :=
  match v with
  | JString s => ret (trim s)
  | _ => raise NotAFunction
  end.

Definition error_body (code : string) : json := JObject [("error", JString code)].

(** [doc.expires && new Date(doc.expires).getTime() < Date.now()] *)
Definition account_expired (doc : Document) : bool :=
  match get_expires doc with
  | None | Some EmptyString => false
  | Some s =>
      match Date_parse rt s with
      | Finite t => t <? Date_now rt
      | Infinity negative => negative
      | NaN => false
      end
  end.

(** [derived !== doc.hash] *)
Definition hash_differs (derived : string) (doc : Document) : bool :=
  match get_hash doc with
  | Some h => negb (String.eqb derived h)
  | None => true
  end.

Definition session_cookie_options : CookieOptions :=
  {| maxAge := Some SESSION_TTL_SECONDS; path := None; httpOnly := true;
     sameSite := Some "None"; secure := Some true |}.
Definition clear_cookie_options : CookieOptions :=
  {| maxAge := Some 0; path := None; httpOnly := true;
     sameSite := Some "None"; secure := Some true |}.

(** The [try] block of [handleLogin]. *)
Definition login_attempt (req : Request) (env : Env) : M Response :=
  let* body := or_throw JsonSyntaxError (json_body req) in
  let* u := get_property body "username" in
  let* username := call_trim (or_empty u) in
  let* p := get_property body "password" in
  let password := or_empty p in
  if String.eqb username "" || negb (truthy (Some password)) then
    ret (bad (error_body "username and password are required") env 400)
  else
    let* doc := kv_get ("user:" +:+ username) in
    match doc with
    | None => ret (bad (error_body "invalid_credentials") env 401)
    | Some doc =>
        if account_expired doc then
          ret (bad (error_body "account_expired") env 403)
        else
          let* derived :=
            hashPasswordPBKDF2 password (get_salt doc) (get_iterations doc) in
          if hash_differs derived doc then
            ret (bad (error_body "invalid_credentials") env 401)
          else
            let* session := createSession env username (default [] (get_roles doc)) in
            let cookie := setCookie SESSION_COOKIE (fst session) session_cookie_options in
            let clearTrial := setCookie TRIAL_COOKIE "0" clear_cookie_options in
            ret (ok (JObject [("ok", JBool true); ("username", JString username)]) env
                   {[ "Set-Cookie" := cookie +:+ ", " +:+ clearTrial ]})
    end.

Definition handleLogin (req : Request) (env : Env) : M Response :=
  try_catch (login_attempt req env)
    (fun e =>
       ret (bad (error_body (if String.eqb (exn_message e) "" then "bad_request"
                             else exn_message e)) env 400)).

Definition handleLogout (req : Request) (env : Env) : M Response :=
  let* token := getCookie req SESSION_COOKIE in
  destroySession env token;;
  let clear := setCookie SESSION_COOKIE "" clear_cookie_options in
  ret (ok (JObject [("ok", JBool true)]) env {[ "Set-Cookie" := clear ]}).

(** *** 3) Guard for /api/extract *)

Inductive AuthResult : Type :=
  | session (username : string) (roles : list string)
  | trial (count : Z).

(** The record [guardExtract] resolves to: [{ allowed: true, mode,
    headers? }] or [{ allowed: false, error }]. *)
Inductive Guard : Type :=
  | Allowed (mode : AuthResult) (headers : option (gmap string string))
  | Denied (error : Response).

Definition allowed (g : Guard) : bool :=
  match g with
  | Allowed _ _ => true
  | Denied _ => false
  end.

(** [sess && sess.exp > Math.floor(Date.now() / 1000)]: the session
    document when the test passes.  A document without [exp] fails it,
    since [undefined > n] is false. *)
Definition live_session (sess : option Document) : option SessionDoc :=
  match sess with
  | Some (SessionRecord s) => if now_seconds <? sess_exp s then Some s else None
  | _ => None
  end.

Definition trial_cookie_options : CookieOptions :=
  {| maxAge := Some (60 * 60 * 24 * 7); path := None; httpOnly := true;
     sameSite := Some "None"; secure := Some true |}.

Definition guardExtract (req : Request) (env : Env) : M Guard :=
  let* sessToken := getCookie req SESSION_COOKIE in
  let* sess := getSession env sessToken in
  match live_session sess with
  | Some s => ret (Allowed (session (sess_username s) (default [] (sess_roles s))) None)
  | None =>
      let* used := readTrialCookie req in
      if trialExceeded used then
        let hint := "Trial limit reached. Please login to continue." in
        ret (Denied (bad (JObject [("error", JString "trial_exhausted");
                                   ("hint", JString hint)]) env 429))
      else
        let newCount := js_add used 1 in
        let cookie := setCookie TRIAL_COOKIE (number_to_string newCount) trial_cookie_options in
        ret (Allowed (trial newCount) (Some {[ "Set-Cookie" := cookie ]}))
  end.

(** *** 4) Multipart parsing helpers for extract *)

(** [form.get("doc_text") || ""]: a string, or the [File] a client may
    have sent under that name. *)
Inductive DocText : Type :=
  | DocString (s : string)
  | DocFile.

(** The loop over [form.entries()]: the string values sent under
    [images_dataurl[]], in order. *)
Definition form_images (form : list (string * FormValue)) : list string :=
  omap (fun kv => match kv with
                  | (key, FormString value) =>
                      if String.eqb key "images_dataurl[]" then Some value else None
                  | (_, FormFile) => None
                  end) form.

Definition parseFormData (request : Request) : M (list string * DocText) :=
  let* form := or_throw FormDataTypeError (form_data request) in
  let imgs := form_images form in
  let docText :=
    match assoc "doc_text" form with
    | Some (FormString s) => DocString s
    | Some FormFile => DocFile
    | None => DocString EmptyString
    end in
  ret (imgs, docText).

(** *** 5) GPT extraction call *)

Definition extractWithGPT (env : Env) (imgs : list string) (docText : DocText) : M json :=
  let* text :=
    match docText with
    | DocString s => ret s
    | DocFile => raise NotAFunction        (* parts.docText?.trim() *)
    end in
  let call := {| call_api_key := OPENAI_API_KEY env; call_images := imgs; call_text := text |} in
  record_call call;;
  match fetch_responses rt call with
  | Extracted j => ret j
  | UpstreamFailed e => throw e
  end.

(** *** 6) /api/extract handler *)

Definition is_trial (g : Guard) : bool :=
  match g with
  | Allowed (trial _) _ => true
  | _ => false
  end.

Definition handleExtract (req : Request) (env : Env) : M Response :=
  let* guard := guardExtract req env in
  match guard with
  | Denied error => ret error
  | Allowed _ guard_headers =>
      let extraHeaders := default ∅ guard_headers in
      let* parts := parseFormData req in
      let imgs := fst parts in
      if is_trial guard && (1 <? Z.of_nat (List.length imgs)) then
        ret (bad (error_body "trial_one_page_only") env 403)
      else if 10 <? Z.of_nat (List.length imgs) then
        ret (bad (error_body "too_many_pages") env 400)
      else
        let* json := extractWithGPT env imgs (snd parts) in
        ret {| status := 200;
               headers := spread (spread JSON_HEADER (cors env)) extraHeaders;
               body := Json json |}
  end.

(** *** 7) Router *)

(** [String(err?.message || err)] *)
Definition error_detail (e : exn) : string :=
  if String.eqb (exn_message e) "" then exn_name e else exn_message e.

Definition fetch (req : Request) (env : Env) : M Response :=
  if String.eqb (method req) "OPTIONS" then
    ret {| status := 204; headers := cors env; body := NoBody |}
  else if String.eqb (pathname req) "/" then
    ret {| status := 405; headers := cors env; body := Text "Use POST /api/extract" |}
  else
    try_catch
      (if String.eqb (pathname req) "/api/login" && String.eqb (method req) "POST" then
         handleLogin req env
       else if String.eqb (pathname req) "/api/logout" && String.eqb (method req) "POST" then
         handleLogout req env
       else if String.eqb (pathname req) "/api/extract" && String.eqb (method req) "POST" then
         handleExtract req env
       else ret (bad (error_body "not_found") env 404))
      (fun err =>
         ret (bad (JObject [("error", JString "server_error");
                            ("detail", JString (error_detail err))]) env 500)).

End Worker.

(* ===================================================================== *)
(** ** [tools/make-user.mjs] *)
(* ===================================================================== *)

Module MakeUser.

(** PBKDF2 params *)
Definition iterations : Z := 120000.
Definition digest : string := "sha256".

(** [pbkdf2Sync(password, salt, iterations, keyLen, digest)] with
    [keyLen = 32]. *)
Definition derived (password : string) (salt : list Z) : list Z :=
  Sha256.pbkdf2 (bytes_of_string password) salt iterations.

(** The record the tool prints, for the command-line arguments
    [username], [password], [--role], [--max_pages], [--max_files],
    [--expires] and the sixteen bytes drawn by [randomBytes(16)]. *)
Definition rec (username password role : string) (max_pages max_files : Z)
    (expires : string) (salt : list Z) : UserDoc :=
  {| doc_username := Some username;
     doc_salt := None;
     doc_hash :=
       Some ("pbkdf2$" +:+ digest +:+ "$" +:+ number_to_string iterations +:+ "$"
             +:+ Base64.encode salt +:+ "$" +:+ Base64.encode (derived password salt));
     doc_iterations := None;
     doc_expires := Some expires;
     doc_roles := None;
     doc_role := Some role;
     doc_quota := Some (max_pages, max_files);
     doc_status := Some "active" |}.

(** [wrangler kv:key put --binding=USERS user:<username> <json>] *)
Definition store (username : string) (r : UserDoc) (kv : KVNamespace) : KVNamespace :=
  <["user:" +:+ username := {| kv_document := UserRecord r; kv_expiration := None |}]> kv.

End MakeUser.

(* ===================================================================== *)
(** ** The browser client of [/api/extract] *)
(* ===================================================================== *)

Module Client.

Definition MAX_PAGES : Z := 10.

(** [pdfToImages(file)]: the pages [1 .. Math.min(pdf.numPages,
    MAX_PAGES)], each rendered to a JPEG data URL.  The rendering is the
    work of pdf.js and of the canvas: [render p] stands for the data URL
    it yields for page [p]. *)
Definition pdfToImages (numPages : Z) (render : Z -> string) : list string :=
  let pages := Z.min numPages MAX_PAGES in
  map (fun p => render (Z.of_nat p)) (seq 1 (Z.to_nat pages)).

(** The file chosen by the user, as the click handler tells the kinds
    apart: a PDF with its page count, an image with its compressed data
    URL, a [.docx] with its raw text. *)
Inductive Upload : Type :=
  | Pdf (numPages : Z) (render : Z -> string)
  | Image (dataUrl : string)
  | Docx (text : string).

(** [payload] of the click handler: [{ imagesDataUrls, docText }]. *)
Definition payload (file : Upload) : list string * string :=
  match file with
  | Pdf numPages render => (pdfToImages numPages render, EmptyString)
  | Image dataUrl => ([dataUrl], EmptyString)
  | Docx text => ([], text)
  end.

(** The [FormData] that [postToWorker] fills. *)
Definition form (imagesDataUrls : list string) (docText : string)
    : list (string * FormValue) :=
  map (fun d => ("images_dataurl[]", FormString d)) imagesDataUrls
  ++ (if negb (String.eqb docText "") && negb (String.eqb (trim docText) "")
      then [("doc_text", FormString (trim docText))]
      else []).

(** The multipart/form-data encoding of a string value: a carriage
    return not followed by a line feed, and a line feed not preceded by a
    carriage return, are sent as the pair. *)
Fixpoint normalize_newlines (s : string) : string :=
  match s with
  | EmptyString => EmptyString
  | String c r =>
      if Ascii.eqb c "013" then
        String "013" (String "010"
          match r with
          | String d r' => if Ascii.eqb d "010" then normalize_newlines r'
                           else normalize_newlines r
          | EmptyString => EmptyString
          end)
      else if Ascii.eqb c "010" then String "013" (String "010" (normalize_newlines r))
      else String c (normalize_newlines r)
  end.

(** The entries as the worker's [formData()] reads them from the body.
    The two names the client uses hold no character the encoding
    changes. *)
Definition encoded (entries : list (string * FormValue)) : list (string * FormValue) :=
  map (fun kv => (fst kv,
                  match snd kv with
                  | FormString v => FormString (normalize_newlines v)
                  | FormFile => FormFile
                  end)) entries.

(** The request of [postToWorker]:
    [fetch(WORKER_ENDPOINT + "/api/extract", { method: "POST", body: form })],
    with the [Cookie] header the browser attaches, if any. *)
Definition postToWorker (cookie : option string) (parts : list string * string) : Request :=
  {| method := "POST";
     pathname := "/api/extract";
     cookie_header := cookie;
     json_body := None;
     form_data := Some (encoded (form (fst parts) (snd parts))) |}.

End Client.

(* ===================================================================== *)
(** ** A concrete runtime for evaluating the handlers *)
(* ===================================================================== *)

Module Demo.

(** [Date.parse] on the date-only form [YYYY-MM-DD] (UTC midnight of a
    valid calendar date); other strings are not dates for this runtime. *)
Definition two_digits (a b : ascii) : option Z :=
  if is_digit a && is_digit b then Some (10 * (code a - 48) + (code b - 48)) else None.

Definition days_in_month (y m : Z) : Z :=
  if m =? 2 then
    (if ((y mod 4 =? 0) && negb (y mod 100 =? 0)) || (y mod 400 =? 0) then 29 else 28)
  else if (m =? 4) || (m =? 6) || (m =? 9) || (m =? 11) then 30
  else 31.

Definition days_from_civil (y m d : Z) : Z :=
  let y' := if m <=? 2 then y - 1 else y in
  let era := y' / 400 in
  let yoe := y' - era * 400 in
  let mp := (m + 9) mod 12 in
  let doy := (153 * mp + 2) / 5 + d - 1 in
  let doe := yoe * 365 + yoe / 4 - yoe / 100 + doy in
  era * 146097 + doe - 719468.

Definition parse_date (s : string) : number :=
  match s with
  | String y1 (String y2 (String y3 (String y4
      (String "-" (String m1 (String m2 (String "-" (String d1 (String d2 EmptyString))))))))) =>
      match two_digits y1 y2, two_digits y3 y4, two_digits m1 m2, two_digits d1 d2 with
      | Some a, Some b, Some m, Some d =>
          let y := 100 * a + b in
          if (1 <=? m) && (m <=? 12) && (1 <=? d) && (d <=? days_in_month y m)
          then Finite (days_from_civil y m d * 86400000)
          else NaN
      | _, _, _, _ => NaN
      end
  | _ => NaN
  end.

(** Message texts for this runtime; the theorems are stated for an
    arbitrary [engine_message]. *)
Definition messages (k : engine_error) : string :=
  match k with
  | JsonSyntaxError => "Unexpected token in JSON"
  | PropertyOfNull => "Cannot read properties of null"
  | NotAFunction => "trim is not a function"
  | CannotConvertToPrimitive => "Cannot convert object to primitive value"
  | MalformedURI => "URI malformed"
  | InvalidBase64 => "atob() called with invalid base64-encoded data."
  | IterationsNotULong => "Value is outside the range of unsigned long"
  | IterationsZero => "PBKDF2 requires a positive iteration count"
  | IterationsNotSupported => "Pbkdf2 failed: iteration counts above 100000 are not supported"
  | FormDataTypeError => "Unrecognized Content-Type header value"
  end.

Definition extraction : json :=
  JObject [("seller", JObject []); ("invoice", JObject []); ("taxes", JArray []);
           ("amounts", JObject [])].

(** 2026-11-01T00:00:00Z, with an upstream API that answers. *)
Definition runtime : Runtime :=
  {| Date_now := 1793491200000;
     random_byte := fun i => 37 * Z.of_nat i + 11;
     Date_parse := parse_date;
     pbkdf2_max_iterations := Some 100000;
     fetch_responses := fun _ => Extracted extraction;
     engine_message := messages |}.

(** The same instant, with an upstream API that answers 503. *)
Definition runtime_upstream_down : Runtime :=
  {| Date_now := 1793491200000;
     random_byte := fun i => 37 * Z.of_nat i + 11;
     Date_parse := parse_date;
     pbkdf2_max_iterations := Some 100000;
     fetch_responses :=
       fun _ => UpstreamFailed (Error "Error" "OpenAI error: 503 upstream unavailable");
     engine_message := messages |}.

(** Thirty days later to the second: 2026-12-01T00:00:00Z. *)
Definition runtime_thirty_days_later : Runtime :=
  {| Date_now := 1796083200000;
     random_byte := fun i => 91 * Z.of_nat i + 5;
     Date_parse := parse_date;
     pbkdf2_max_iterations := Some 100000;
     fetch_responses := fun _ => Extracted extraction;
     engine_message := messages |}.

Definition env : Env :=
  {| ALLOWED_ORIGIN := "https://deep7285.github.io"; OPENAI_API_KEY := "sk-test" |}.

Definition empty_world : World := {| USERS := ∅; upstream_calls := [] |}.

Definition post (path : string) (cookie : option string) (body : option json)
    (form : option (list (string * FormValue))) : Request :=
  {| method := "POST"; pathname := path; cookie_header := cookie;
     json_body := body; form_data := form |}.

Definition login_request (username password : string) : Request :=
  post "/api/login" None
    (Some (JObject [("username", JString username); ("password", JString password)])) None.

Definition extract_request (cookie : option string) (images : nat) : Request :=
  post "/api/extract" cookie None
    (Some (repeat ("images_dataurl[]", FormString "data:image/jpeg;base64,AAAA") images)).

End Demo.

(* ===================================================================== *)
(** ** Vocabulary of the statements *)
(* ===================================================================== *)

Section Vocabulary.

Context (rt : Runtime) (env : Env).

(** What [v || "0"] hands to [parseInt]. *)
Definition or_zero (v : option string) : string :=
  match v with
  | None | Some EmptyString => "0"
  | Some s => s
  end.

(** The session the guard finds for a request: the outcome of the first
    three lines of [guardExtract].  [Return None] is the unauthenticated
    caller (no cookie, unknown token, or session past its expiry). *)
Definition session_of (req : Request) (w : World) : result (option SessionDoc) :=
  match getCookie rt req SESSION_COOKIE w with
  | (Return token, _) =>
      match getSession env token w with
      | (Return sess, _) => Return (live_session rt sess)
      | (Throw e, _) => Throw e
      end
  | (Throw e, _) => Throw e
  end.

Definition trial_exhausted : Response :=
  bad (JObject [("error", JString "trial_exhausted");
                ("hint", JString "Trial limit reached. Please login to continue.")]) env 429.

Definition trial_cookie (count : Z) : string :=
  setCookie TRIAL_COOKIE (number_to_string count) trial_cookie_options.

Definition success (result : json) (extraHeaders : gmap string string) : Response :=
  {| status := 200;
     headers := spread (spread JSON_HEADER (cors env)) extraHeaders;
     body := Json result |}.

(** [handleExtract] once the guard has let the request in. *)
Definition after_guard (req : Request) (guard : Guard) (w : World) : result Response * World :=
  match form_data req with
  | None => (Throw (Error (engine_name FormDataTypeError) (engine_message rt FormDataTypeError)), w)
  | Some form =>
      if is_trial guard && (1 <? Z.of_nat (List.length (form_images form))) then
        (Return (bad (error_body "trial_one_page_only") env 403), w)
      else if 10 <? Z.of_nat (List.length (form_images form)) then
        (Return (bad (error_body "too_many_pages") env 400), w)
      else
        match guard with
        | Denied error => (Return error, w)
        | Allowed _ guard_headers =>
            match extractWithGPT rt env (form_images form)
                    match assoc "doc_text" form with
                    | Some (FormString s) => DocString s
                    | Some FormFile => DocFile
                    | None => DocString EmptyString
                    end w with
            | (Return j, w') => (Return (success j (default ∅ guard_headers)), w')
            | (Throw e, w') => (Throw e, w')
            end
        end
  end.

Definition server_error (e : exn) : Response :=
  bad (JObject [("error", JString "server_error"); ("detail", JString (error_detail e))]) env 500.

(** The runtime's PBKDF2 accepts [n] iterations. *)
Definition iterations_supported (n : Z) : Prop :=
  match pbkdf2_max_iterations rt with
  | Some cap => n <= cap
  | None => True
  end.

(** The body of a well-formed login request: an object whose [username]
    and [password] are strings, both non-empty once the name is trimmed. *)
Definition credentials (req : Request) (u p : string) : Prop :=
  exists fields,
    json_body req = Some (JObject fields)
    /\ assoc "username" fields = Some (JString u)
    /\ assoc "password" fields = Some (JString p)
    /\ trim u <> EmptyString /\ p <> EmptyString.

(** The response of a successful login for the session [token]. *)
Definition logged_in (username token : string) : Response :=
  ok (JObject [("ok", JBool true); ("username", JString username)]) env
    {[ "Set-Cookie" :=
         setCookie SESSION_COOKIE token session_cookie_options
         +:+ ", " +:+ setCookie TRIAL_COOKIE "0" clear_cookie_options ]}.

(** The [catch] clause of [handleLogin]. *)
Definition bad_request (e : exn) : Response :=
  bad (error_body (if String.eqb (exn_message e) "" then "bad_request" else exn_message e))
    env 400.

(** A computation is quiet at [w] when it throws or refuses without
    changing the world and without setting a cookie. *)
Definition quiet (m : M Response) (w : World) : Prop :=
  match m w with
  | (Return resp, w') =>
      status resp <> 200 -> w' = w /\ headers resp !! "Set-Cookie" = None
  | (Throw _, w') => w' = w
  end.

(** [d] with its [status] property replaced. *)
Definition with_status (st : option string) (d : UserDoc) : UserDoc :=
  {| doc_username := doc_username d; doc_salt := doc_salt d; doc_hash := doc_hash d;
     doc_iterations := doc_iterations d; doc_expires := doc_expires d;
     doc_roles := doc_roles d; doc_role := doc_role d; doc_quota := doc_quota d;
     doc_status := st |}.

End Vocabulary.

(** [form.get("doc_text") || ""] when it is a string; [None] when the
    client sent a file under that name. *)
Definition form_text (form : list (string * FormValue)) : option string :=
  match assoc "doc_text" form with
  | Some (FormString s) => Some s
  | Some FormFile => None
  | None => Some EmptyString
  end.


(** Characters of a base64 token. *)
Definition base64_char (c : ascii) : bool :=
  match Base64.char_sextet c with
  | Some _ => true
  | None => Ascii.eqb c "="
  end.

Fixpoint all_chars (P : ascii -> bool) (s : string) : bool :=
  match s with
  | EmptyString => true
  | String c r => P c && all_chars P r
  end.

(** *** Concrete accounts *)

Module Accounts.

(** A record in the shape [handleLogin] reads, for the password
    ["password"] with salt ["salt"] and one iteration, marked disabled. *)
Definition bob : UserDoc :=
  {| doc_username := Some "bob";
     doc_salt := Some "c2FsdA==";
     doc_hash := Some "Eg+2z/z4syxD5yJSVsT4N6hlSMkszDVICAWYfLcL4Xs=";
     doc_iterations := Some 1;
     doc_expires := None;
     doc_roles := None;
     doc_role := None;
     doc_quota := None;
     doc_status := Some "disabled" |}.

(** [node tools/make-user.mjs alice s3cret], with the salt bytes 1..16. *)
Definition alice : UserDoc :=
  MakeUser.rec "alice" "s3cret" "user" 10 100 "2099-12-31"
    [1; 2; 3; 4; 5; 6; 7; 8; 9; 10; 11; 12; 13; 14; 15; 16].

(** The store after provisioning [alice] with the tool. *)
Definition provisioned : World :=
  {| USERS := MakeUser.store "alice" alice ∅; upstream_calls := [] |}.

(** A store holding [bob]'s record. *)
Definition world : World :=
  {| USERS := MakeUser.store "bob" bob ∅; upstream_calls := [] |}.

Definition bob_token : string := "CzBVep/E6Q4zWH2ix+wRNluApcrvFDle".

Definition bob_session : SessionDoc :=
  {| sess_username := "bob"; sess_exp := 1796083200; sess_roles := Some [] |}.

End Accounts.

(* ===================================================================== *)
(** ** Vocabulary of the further properties *)
(* ===================================================================== *)

Section Shapes.

Context (rt : Runtime) (env : Env).

(** The cross-origin headers of [cors(env)], as a response carries them. *)
Definition has_cors (resp : Response) : Prop :=
  headers resp !! "Access-Control-Allow-Origin" = Some (ALLOWED_ORIGIN env)
  /\ headers resp !! "Access-Control-Allow-Credentials" = Some "true"
  /\ headers resp !! "Access-Control-Allow-Methods" = Some "POST, OPTIONS"
  /\ headers resp !! "Vary" = Some "Origin".

(** The responses the handlers build: [bad(...)], or a 200 through
    [ok(...)] (or the literal of [handleExtract]) with no extra header or
    with a [Set-Cookie]. *)
Definition handler_response (resp : Response) : Prop :=
  (exists b st, resp = bad b env st)
  \/ (exists j, resp = success env j ∅)
  \/ (exists j c, resp = success env j {[ "Set-Cookie" := c ]}).

(** One of the three routes of the router. *)
Definition routed (req : Request) : bool :=
  String.eqb (method req) "POST"
  && (String.eqb (pathname req) "/api/login"
      || String.eqb (pathname req) "/api/logout"
      || String.eqb (pathname req) "/api/extract").

(** The world after [destroySession] for a cookie value. *)
Definition without_session (token : option string) (w : World) : World :=
  match token with
  | None | Some EmptyString => w
  | Some t =>
      {| USERS := delete (SESSION_PREFIX +:+ t) (USERS w);
         upstream_calls := upstream_calls w |}
  end.

(** The response of [handleLogout]. *)
Definition logged_out : Response :=
  ok (JObject [("ok", JBool true)]) env
    {[ "Set-Cookie" := setCookie SESSION_COOKIE "" clear_cookie_options ]}.

End Shapes.

(** The body of a login request that gets as far as the store: an
    object whose [username] is a string, not blank once trimmed, and
    whose [password] is any truthy value. *)
Definition login_body (req : Request) (u : string) (password : json) : Prop :=
  exists fields,
    json_body req = Some (JObject fields)
    /\ assoc "username" fields = Some (JString u)
    /\ assoc "password" fields = Some password
    /\ trim u <> EmptyString /\ truthy (Some password) = true.

(** The sextets [btoa] writes for a list of bytes, and the padding it
    appends to them. *)
Fixpoint encode_sextets (l : list Z) : list Z :=
  match l with
  | [] => []
  | [a] => [Z.shiftr a 2; Z.shiftl (Z.land a 3) 4]
  | [a; b] =>
      [Z.shiftr a 2; Z.lor (Z.shiftl (Z.land a 3) 4) (Z.shiftr b 4);
       Z.shiftl (Z.land b 15) 2]
  | a :: b :: c :: rest =>
      Z.shiftr a 2
      :: Z.lor (Z.shiftl (Z.land a 3) 4) (Z.shiftr b 4)
      :: Z.lor (Z.shiftl (Z.land b 15) 2) (Z.shiftr c 6)
      :: Z.land c 63
      :: encode_sextets rest
  end.

Fixpoint sextet_string (vs : list Z) : string :=
  match vs with
  | [] => EmptyString
  | v :: r => String (Base64.sextet_char v) (sextet_string r)
  end.

Fixpoint padding (l : list Z) : string :=
  match l with
  | [] => EmptyString
  | [_] => "=="
  | [_; _] => "="
  | _ :: _ :: _ :: rest => padding rest
  end.

Definition is_byte (b : Z) : Prop := 0 <= b < 256.

Definition all_bytes (P : Z -> bool) : bool :=
  forallb (fun n => P (Z.of_nat n)) (seq 0 256).

(** A character of the base64 alphabet proper, the padding excluded. *)
Definition alphabet_char (c : ascii) : bool :=
  match Base64.char_sextet c with
  | Some _ => true
  | None => false
  end.

(** A string without carriage return or line feed, as a data URL is. *)
Definition no_line_break (c : ascii) : bool :=
  negb (Ascii.eqb c "013") && negb (Ascii.eqb c "010").

(** Characters of the values the worker writes into cookies. *)
Definition is_ascii (c : ascii) : bool := code c <? 128.

Definition not_semicolon (c : ascii) : bool := negb (Ascii.eqb c ";").

(** The [cookie-octet] of RFC 6265: a visible US-ASCII character other
    than the double quote, the comma, the semicolon and the backslash. *)
Definition cookie_octet (c : ascii) : bool :=
  let n := code c in
  (n =? 33) || ((35 <=? n) && (n <=? 43)) || ((45 <=? n) && (n <=? 58))
  || ((60 <=? n) && (n <=? 91)) || ((93 <=? n) && (n <=? 126)).

(** The pair [name=value] as [setCookie] writes it, and as a browser
    sends it back. *)
Definition cookie_pair (name val : string) : string :=
  name +:+ "=" +:+ URI.encode val.

(** Requests, records and stores for evaluating the further properties. *)
Module Fixtures.

Definition salt : list Z := [1; 2; 3; 4; 5; 6; 7; 8; 9; 10; 11; 12; 13; 14; 15; 16].

(** [bob]'s record with an [expires] date that has passed. *)
Definition carol : UserDoc :=
  {| doc_username := Some "carol";
     doc_salt := doc_salt Accounts.bob;
     doc_hash := doc_hash Accounts.bob;
     doc_iterations := doc_iterations Accounts.bob;
     doc_expires := Some "2020-01-01";
     doc_roles := None;
     doc_role := None;
     doc_quota := None;
     doc_status := Some "active" |}.

Definition carol_entry : KVEntry := {| kv_document := UserRecord carol; kv_expiration := None |}.

Definition expired_world : World :=
  {| USERS := MakeUser.store "carol" carol ∅; upstream_calls := [] |}.

(** The record the tool printed for [alice], completed by hand with the
    [salt] and [iterations] properties the worker reads. *)
Definition alice_completed : UserDoc :=
  {| doc_username := doc_username Accounts.alice;
     doc_salt := Some (Base64.encode salt);
     doc_hash := doc_hash Accounts.alice;
     doc_iterations := Some MakeUser.iterations;
     doc_expires := doc_expires Accounts.alice;
     doc_roles := None;
     doc_role := doc_role Accounts.alice;
     doc_quota := doc_quota Accounts.alice;
     doc_status := doc_status Accounts.alice |}.

Definition alice_entry : KVEntry :=
  {| kv_document := UserRecord alice_completed; kv_expiration := None |}.

Definition completed_world : World :=
  {| USERS := MakeUser.store "alice" alice_completed ∅; upstream_calls := [] |}.

(** The store after [bob] has logged in. *)
Definition bob_logged_in : World :=
  snd (createSession Demo.runtime Demo.env "bob" [] Accounts.world).

Definition bob_cookie : string := cookie_pair SESSION_COOKIE Accounts.bob_token.

Definition get_login : Request :=
  {| method := "GET"; pathname := "/api/login"; cookie_header := None;
     json_body := None; form_data := None |}.

(** The preflight a browser sends before a cross-origin extraction. *)
Definition preflight : Request :=
  {| method := "OPTIONS"; pathname := "/api/extract"; cookie_header := None;
     json_body := None; form_data := None |}.

(** A login whose password is the JSON number 12345. *)
Definition numeric_login (username : string) : Request :=
  Demo.post "/api/login" None
    (Some (JObject [("username", JString username); ("password", JNumber 12345)])) None.

Definition empty_extract : Request := Demo.post "/api/extract" None None (Some []).

End Fixtures.

(* ===================================================================== *)
(** * Properties *)
(* ===================================================================== *)

(** ** Checks of the primitives against published values *)

Example sha256_constants :
  nth 0 Sha256.K 0 = 1116352408 /\ nth 63 Sha256.K 0 = 3329325298
  /\ nth 0 Sha256.H0 0 = 1779033703 /\ nth 7 Sha256.H0 0 = 1541459225
  /\ List.length Sha256.K = 64%nat /\ List.length Sha256.H0 = 8%nat.
Proof. vm_compute. repeat split; reflexivity. Qed.

Example sha256_abc :
  hex (Sha256.sha256 (bytes_of_string "abc"))
  = "ba7816bf8f01cfea414140de5dae2223b00361a396177a9cb410ff61f20015ad".
Proof. vm_compute. reflexivity. Qed.

Example pbkdf2_rfc7914_c1 :
  hex (Sha256.pbkdf2 (bytes_of_string "password") (bytes_of_string "salt") 1)
  = "120fb6cffcf8b32c43e7225256c4f837a86548c92ccc35480805987cb70be17b".
Proof. vm_compute. reflexivity. Qed.

Example pbkdf2_rfc7914_c2 :
  hex (Sha256.pbkdf2 (bytes_of_string "password") (bytes_of_string "salt") 2)
  = "ae4d0c95af6b46d32d0adff928f06dd02a303f8ef3c251dfd6e2d85a95474c43".
Proof. vm_compute. reflexivity. Qed.

Example btoa_examples :
  Base64.encode (bytes_of_string "hello") = "aGVsbG8="
  /\ Base64.decode "aGVsbG8=" = Some (bytes_of_string "hello")
  /\ Base64.decode "aGVs bG8" = Some (bytes_of_string "hello")
  /\ Base64.decode "undefined" = None.
Proof. vm_compute. repeat split; reflexivity. Qed.

Example round_to_double_examples :
  round_to_double (2 ^ 53 + 1) = Finite (2 ^ 53)
  /\ round_to_double (2 ^ 53 + 3) = Finite (2 ^ 53 + 4)
  /\ round_to_double (- 2 ^ 54 + 1) = Finite (- 2 ^ 54)
  /\ round_to_double (2 ^ 1024) = Infinity false
  /\ js_add (- 2 ^ 54) 1 = - 2 ^ 54
  /\ js_add 2 1 = 3.
Proof. vm_compute. repeat split; reflexivity. Qed.

Example parseInt10_examples :
  parseInt10 "0" = Finite 0
  /\ parseInt10 "  42abc" = Finite 42
  /\ parseInt10 "-5" = Finite (-5)
  /\ parseInt10 "abc" = NaN
  /\ parseInt10 "" = NaN
  /\ parseInt10 "+" = NaN
  /\ parseInt10 "9007199254740993" = Finite 9007199254740992.
Proof. vm_compute. repeat split; reflexivity. Qed.

Example number_to_string_examples :
  number_to_string 0 = "0"
  /\ number_to_string 3 = "3"
  /\ number_to_string (-4) = "-4"
  /\ number_to_string 1200 = "1200"
  /\ number_to_string (- 2 ^ 54) = "-18014398509481984"
  /\ number_to_string (2 ^ 64) = "18446744073709552000"
  /\ number_to_string (10 ^ 21) = "1e+21"
  /\ number_to_string (2 ^ 70) = "1.1805916207174113e+21".
Proof. vm_compute. repeat split; reflexivity. Qed.

Example trim_examples :
  trim "  alice " = "alice"
  /\ trim (String (chr 194) (String (chr 160) "bob")) = "bob"
  /\ trim "a b" = "a b"
  /\ trim "   " = "".
Proof. vm_compute. repeat split; reflexivity. Qed.

Example uri_examples :
  URI.encode "a+b/c=" = "a%2Bb%2Fc%3D"
  /\ URI.decode "a%2Bb%2Fc%3D" = Some "a+b/c="
  /\ URI.decode "%E2%82%AC" = Some (string_of_bytes [226; 130; 172])
  /\ URI.decode "%" = None
  /\ URI.decode "%zz" = None
  /\ URI.decode "%C0%80" = None
  /\ URI.decode "%ED%A0%80" = None
  /\ URI.decode "%80" = None.
Proof. vm_compute. repeat split; reflexivity. Qed.

Example parse_date_examples :
  Demo.parse_date "2099-12-31" = Finite 4102358400000
  /\ Demo.parse_date "1970-01-01" = Finite 0
  /\ Demo.parse_date "2026-11-01" = Finite 1793491200000
  /\ Demo.parse_date "2023-02-30" = NaN
  /\ Demo.parse_date "tomorrow" = NaN.
Proof. vm_compute. repeat split; reflexivity. Qed.

(** ** Arithmetic of the trial counter *)

Lemma round_to_double_small (z : Z) :
  Z.abs z < 2 ^ 53 -> round_to_double z = Finite z.
Proof.
  intros H. unfold round_to_double.
  destruct (Z.ltb_spec (Z.abs z) (2 ^ 53)); [reflexivity | lia].
Qed.

Lemma js_add_exact (a b : Z) : Z.abs (a + b) < 2 ^ 53 -> js_add a b = a + b.
Proof. intros H. unfold js_add. now rewrite round_to_double_small. Qed.


Lemma round_to_double_nonpos (z : Z) :
  z <= 0 -> finite_or_zero (round_to_double z) <= 0.
Proof.
  intros Hz. unfold round_to_double.
  destruct (Z.abs z <? 2 ^ 53) eqn:Hsmall; [exact Hz |].
  set (e := Z.log2 (Z.abs z) - 52).
  set (q := Z.shiftr (Z.abs z) e).
  match goal with
  | |- context [if ?c then q + 1 else q] => set (q' := if c then q + 1 else q)
  end.
  destruct (2 ^ 1024 <=? Z.shiftl q' e); [simpl; lia |].
  simpl.
  assert (Hq : 0 <= q) by (apply Z.shiftr_nonneg; lia).
  assert (Hq' : 0 <= q') by (subst q'; case (_ || _); lia).
  assert (0 <= Z.shiftl q' e) by (apply Z.shiftl_nonneg; exact Hq').
  destruct (Z.sgn_spec z) as [[? ->] | [[? ->] | [? ->]]]; nia.
Qed.


Lemma code_nonneg (c : ascii) : 0 <= code c.
Proof. unfold code. lia. Qed.




(** ** Decimal digits, written and read back *)













(** ** The trial counter *)

Section TrialCounter.

Context (rt : Runtime).

Lemma readTrialCookie_unfold (req : Request) (w : World) :
  readTrialCookie rt req w =
    match getCookie rt req TRIAL_COOKIE w with
    | (Return v, w') => (Return (finite_or_zero (parseInt10 (or_zero v))), w')
    | (Throw e, w') => (Throw e, w')
    end.
Proof. unfold readTrialCookie, bind. destruct (getCookie _ _ _ _) as [[v | e] w']; reflexivity. Qed.

Lemma getCookie_unfold (req : Request) (name : string) (w : World) :
  getCookie rt req name w =
    match cookie_match name (default EmptyString (cookie_header req)) with
    | None => (Return None, w)
    | Some m =>
        match URI.decode m with
        | Some v => (Return (Some v), w)
        | None => (Throw (Error (engine_name MalformedURI) (engine_message rt MalformedURI)), w)
        end
    end.
Proof.
  unfold getCookie. destruct (cookie_match _ _) as [m |]; [| reflexivity].
  unfold bind, or_throw. destruct (URI.decode m); reflexivity.
Qed.

(** [getCookie] only reads: it leaves the world as it found it. *)
Lemma getCookie_world (req : Request) (name : string) (w : World) :
  snd (getCookie rt req name w) = w.
Proof.
  rewrite getCookie_unfold.
  destruct (cookie_match _ _) as [m |]; [destruct (URI.decode m) |]; reflexivity.
Qed.


End TrialCounter.


(** C6.  [trialExceeded] holds exactly from the limit 3 on; an absent
    trial cookie reads as 0; three increments from 0 give 3, which is
    exceeded, while 0, 1 and 2 are not.  Through the guard: a caller
    without session who sends back each cookie it was given is let in
    with counts 1, 2 and 3 and then refused. *)
Theorem C6_trial_exceeded_from_three (rt : Runtime) (env : Env) (w : World) (req : Request) :
  let send (cookie : option string) : Request :=
    {| method := method req; pathname := pathname req; cookie_header := cookie;
       json_body := json_body req; form_data := form_data req |} in
  let granted (n : Z) (cookie : string) : result Guard * World :=
    (Return (Allowed (trial n) (Some {[ "Set-Cookie" := cookie ]})), w) in
  (forall n : Z, trialExceeded n = true <-> 3 <= n)
  /\ readTrialCookie rt (send None) w = (Return 0, w)
  /\ js_add (js_add (js_add 0 1) 1) 1 = 3
  /\ trialExceeded (js_add (js_add (js_add 0 1) 1) 1) = true
  /\ trialExceeded 0 = false /\ trialExceeded 1 = false /\ trialExceeded 2 = false
  /\ guardExtract rt (send None) env w
     = granted 1 "trial=1; Max-Age=604800; Path=/; HttpOnly; SameSite=None; Secure"
  /\ guardExtract rt (send (Some "trial=1")) env w
     = granted 2 "trial=2; Max-Age=604800; Path=/; HttpOnly; SameSite=None; Secure"
  /\ guardExtract rt (send (Some "trial=2")) env w
     = granted 3 "trial=3; Max-Age=604800; Path=/; HttpOnly; SameSite=None; Secure"
  /\ guardExtract rt (send (Some "trial=3")) env w
     = (Return (Denied (bad (JObject [("error", JString "trial_exhausted");
                                      ("hint", JString "Trial limit reached. Please login to continue.")])
                          env 429)), w).
Proof.
  cbv zeta. split.
  { intros n. unfold trialExceeded, TRIAL_LIMIT. apply Z.leb_le. }
  repeat split; vm_compute; reflexivity.
Qed.

(** ** The extract gate *)

Section ExtractGate.

Context (rt : Runtime) (env : Env).

Lemma getSession_unfold (token : option string) (w : World) :
  getSession env token w =
    (Return match token with
            | None | Some EmptyString => None
            | Some t => kv_document <$> USERS w !! (SESSION_PREFIX +:+ t)
            end, w).
Proof. destruct token as [[| c t] |]; reflexivity. Qed.

Lemma guardExtract_unfold (req : Request) (w : World) :
  guardExtract rt req env w =
    match session_of rt env req w with
    | Throw e => (Throw e, w)
    | Return (Some s) =>
        (Return (Allowed (session (sess_username s) (default [] (sess_roles s))) None), w)
    | Return None =>
        match readTrialCookie rt req w with
        | (Throw e, _) => (Throw e, w)
        | (Return used, _) =>
            if trialExceeded used then (Return (Denied (trial_exhausted env)), w)
            else (Return (Allowed (trial (js_add used 1))
                            (Some {[ "Set-Cookie" := trial_cookie (js_add used 1) ]})), w)
        end
    end.
Proof.
  unfold guardExtract, session_of, bind.
  pose proof (getCookie_world rt req SESSION_COOKIE w) as Hw.
  destruct (getCookie rt req SESSION_COOKIE w) as [[token | e] w1]; simpl in Hw; subst w1;
    [| reflexivity].
  rewrite getSession_unfold.
  destruct (live_session rt _) as [s |]; [reflexivity |].
  pose proof (getCookie_world rt req TRIAL_COOKIE w) as Hw.
  rewrite readTrialCookie_unfold.
  destruct (getCookie rt req TRIAL_COOKIE w) as [[v | e] w1]; simpl in Hw; subst w1;
    [| reflexivity].
  destruct (trialExceeded _); reflexivity.
Qed.

(** The guard only reads. *)
Lemma guardExtract_world (req : Request) (w : World) :
  snd (guardExtract rt req env w) = w.
Proof.
  rewrite guardExtract_unfold.
  destruct (session_of rt env req w) as [[s |] | e]; try reflexivity.
  destruct (readTrialCookie rt req w) as [[used | e] w1]; [| reflexivity].
  destruct (trialExceeded used); reflexivity.
Qed.

Lemma handleExtract_unfold (req : Request) (w : World) :
  handleExtract rt req env w =
    match guardExtract rt req env w with
    | (Throw e, _) => (Throw e, w)
    | (Return (Denied error), _) => (Return error, w)
    | (Return (Allowed mode guard_headers), _) =>
        after_guard rt env req (Allowed mode guard_headers) w
    end.
Proof.
  unfold handleExtract, bind, after_guard, success.
  pose proof (guardExtract_world req w) as Hw.
  destruct (guardExtract rt req env w) as [[[mode hs | error] | e] w1]; simpl in Hw; subst w1;
    try reflexivity.
  unfold parseFormData, bind, or_throw.
  destruct (form_data req) as [form |]; [| reflexivity].
  cbn [ret fst snd].
  destruct (is_trial _ && _); [reflexivity |].
  destruct (10 <? _); [reflexivity |].
  destruct (extractWithGPT _ _ _ _ _) as [[j | e] w']; reflexivity.
Qed.

(** A refused request touches nothing: neither the store nor the
    upstream API. *)
Lemma bad_no_cookie (b : json) (st : Z) : headers (bad b env st) !! "Set-Cookie" = None.
Proof. vm_compute. reflexivity. Qed.

Lemma success_cookie (j : json) (c : string) :
  headers (success env j {[ "Set-Cookie" := c ]}) !! "Set-Cookie" = Some c.
Proof. vm_compute. reflexivity. Qed.

End ExtractGate.

Section ExtractClaims.

Context (rt : Runtime) (env : Env).




Lemma trial_cookie_text (n : Z) :
  trial_cookie n =
    "trial=" +:+ URI.encode (number_to_string n)
    +:+ "; Max-Age=604800; Path=/; HttpOnly; SameSite=None; Secure".
Proof. reflexivity. Qed.

Lemma fetch_extract (req : Request) (w : World) :
  method req = "POST" -> pathname req = "/api/extract" ->
  fetch rt req env w =
    match handleExtract rt req env w with
    | (Return resp, w') => (Return resp, w')
    | (Throw e, w') => (Return (server_error env e), w')
    end.
Proof.
  intros Hm Hp. unfold fetch, try_catch. rewrite Hm, Hp. cbn [String.eqb Ascii.eqb Bool.eqb andb].
  destruct (handleExtract rt req env w) as [[resp | e] w']; reflexivity.
Qed.

(** C8 (as amended).  An extract request decided in trial mode always
    gets a response.  The request passes when the count read is below 3,
    the form is readable and holds at most one image and no file as
    text: the upstream API is then called once, and when it answers, the
    response is the 200 with the extraction and the trial cookie
    re-issued with the count [used + 1] as the runtime adds (exactly
    [used + 1] for every passing count from -2^53 on) and [Max-Age]
    604800, seven days.  Every other response carries no [Set-Cookie] at
    all:
    the 429 from count 3 on, the 403 for two or more images, and the 500
    sent when the form cannot be read, when the text is a file, or when
    the upstream call fails. *)
Theorem C8_trial_token_only_on_success (req : Request) (w : World) (used : Z) :
  method req = "POST" -> pathname req = "/api/extract" ->
  session_of rt env req w = Return None ->
  readTrialCookie rt req w = (Return used, w) ->
  let cookie := trial_cookie (js_add used 1) in
  (forall form text,
     used < 3 ->
     form_data req = Some form ->
     Z.of_nat (List.length (form_images form)) <= 1 ->
     form_text form = Some text ->
     let call := {| call_api_key := OPENAI_API_KEY env;
                    call_images := form_images form;
                    call_text := text |} in
     let w' := {| USERS := USERS w; upstream_calls := upstream_calls w ++ [call] |} in
     match fetch_responses rt call with
     | Extracted j =>
         fetch rt req env w = (Return (success env j {[ "Set-Cookie" := cookie ]}), w')
         /\ status (success env j {[ "Set-Cookie" := cookie ]}) = 200
         /\ headers (success env j {[ "Set-Cookie" := cookie ]}) !! "Set-Cookie" = Some cookie
     | UpstreamFailed e =>
         fetch rt req env w = (Return (server_error env e), w')
         /\ headers (server_error env e) !! "Set-Cookie" = None
     end)
  /\ cookie = "trial=" +:+ URI.encode (number_to_string (js_add used 1))
              +:+ "; Max-Age=604800; Path=/; HttpOnly; SameSite=None; Secure"
  /\ (- 2 ^ 53 <= used < 3 -> js_add used 1 = used + 1)
  /\ (3 <= used -> fetch rt req env w = (Return (trial_exhausted env), w))
  /\ (forall form,
        used < 3 -> form_data req = Some form ->
        2 <= Z.of_nat (List.length (form_images form)) ->
        fetch rt req env w = (Return (bad (error_body "trial_one_page_only") env 403), w))
  /\ (used < 3 -> form_data req = None ->
      fetch rt req env w
      = (Return (server_error env (Error "TypeError" (engine_message rt FormDataTypeError))), w))
  /\ (forall form,
        used < 3 -> form_data req = Some form ->
        Z.of_nat (List.length (form_images form)) <= 1 ->
        form_text form = None ->
        fetch rt req env w
        = (Return (server_error env (Error "TypeError" (engine_message rt NotAFunction))), w))
  /\ exists resp w',
       fetch rt req env w = (Return resp, w')
       /\ (status resp = 200 -> headers resp !! "Set-Cookie" = Some cookie)
       /\ (status resp <> 200 ->
           headers resp !! "Set-Cookie" = None
           /\ (status resp = 429 \/ status resp = 403 \/ status resp = 500)).
Proof.
  intros Hm Hp Hsess Hread cookie.
  rewrite (fetch_extract req w Hm Hp), handleExtract_unfold, guardExtract_unfold, Hsess, Hread.
  unfold trialExceeded, TRIAL_LIMIT.
  split; [| split; [apply trial_cookie_text | split; [intros Hbig; apply js_add_exact; lia |]]].
  { intros form text Hlow Hform Hone Htext. cbv zeta.
    destruct (Z.leb_spec 3 used); [lia |].
    unfold after_guard. rewrite Hform. cbn [is_trial andb].
    destruct (Z.ltb_spec 1 (Z.of_nat (List.length (form_images form)))); [lia |].
    destruct (Z.ltb_spec 10 (Z.of_nat (List.length (form_images form)))); [lia |].
    unfold form_text in Htext.
    assert (Hdoc : match assoc "doc_text" form with
                   | Some (FormString s) => DocString s
                   | Some FormFile => DocFile
                   | None => DocString EmptyString
                   end = DocString text).
    { destruct (assoc "doc_text" form) as [[s |] |]; congruence. }
    rewrite Hdoc. unfold extractWithGPT, bind, record_call. cbn [ret fst snd].
    destruct (fetch_responses rt _) as [j | e]; cbn [ret throw fst snd].
    - split; [reflexivity | split; [reflexivity | apply success_cookie]].
    - split; [reflexivity | apply bad_no_cookie]. }
  split.
  { intros Hex. destruct (Z.leb_spec 3 used); [reflexivity | lia]. }
  split.
  { intros form Hlow Hform Hmany. destruct (Z.leb_spec 3 used); [lia |].
    unfold after_guard. rewrite Hform. cbn [is_trial andb].
    destruct (Z.ltb_spec 1 (Z.of_nat (List.length (form_images form)))); [reflexivity | lia]. }
  split.
  { intros Hlow Hform. destruct (Z.leb_spec 3 used); [lia |].
    unfold after_guard. rewrite Hform. reflexivity. }
  split.
  { intros form Hlow Hform Hone Htext. destruct (Z.leb_spec 3 used); [lia |].
    unfold after_guard. rewrite Hform. cbn [is_trial andb].
    destruct (Z.ltb_spec 1 (Z.of_nat (List.length (form_images form)))); [lia |].
    destruct (Z.ltb_spec 10 (Z.of_nat (List.length (form_images form)))); [lia |].
    unfold form_text in Htext.
    destruct (assoc "doc_text" form) as [[s |] |]; try discriminate Htext.
    reflexivity. }
  destruct (Z.leb_spec 3 used) as [Hex | Hlow].
  { eexists _, _. split; [reflexivity |].
    split; [intros Hst; discriminate Hst |].
    intros _. split; [apply bad_no_cookie | now left]. }
  unfold after_guard.
  destruct (form_data req) as [form |].
  2: { eexists _, _. split; [reflexivity |].
       split; [intros Hst; discriminate Hst |].
       intros _. split; [apply bad_no_cookie | now right; right]. }
  cbn [is_trial andb].
  destruct (Z.ltb_spec 1 (Z.of_nat (List.length (form_images form)))) as [Hmany | Hone].
  { eexists _, _. split; [reflexivity |].
    split; [intros Hst; discriminate Hst |].
    intros _. split; [apply bad_no_cookie | now right; left]. }
  destruct (Z.ltb_spec 10 (Z.of_nat (List.length (form_images form)))); [lia |].
  destruct (extractWithGPT _ _ _ _ _) as [[j | e] w'].
  - eexists _, _. split; [reflexivity |].
    split; [| intros Hst; exfalso; apply Hst; reflexivity].
    intros _. apply success_cookie.
  - eexists _, _. split; [reflexivity |].
    split; [intros Hst; discriminate Hst |].
    intros _. split; [apply bad_no_cookie | now right; right].
Qed.

End ExtractClaims.





(** C8, the claim as stated fails: a first anonymous request with one
    image is let in by the guard in trial mode, with the cookie for count
    1 prepared, and reaches the upstream API; when that call fails the
    response is a 500 that carries no trial cookie. *)
Lemma C8_allowed_without_token :
  let req := Demo.extract_request None 1 in
  guardExtract Demo.runtime_upstream_down req Demo.env Demo.empty_world
  = (Return (Allowed (trial 1)
               (Some {[ "Set-Cookie" :=
                        "trial=1; Max-Age=604800; Path=/; HttpOnly; SameSite=None; Secure" ]})),
     Demo.empty_world)
  /\ exists resp w',
       fetch Demo.runtime_upstream_down req Demo.env Demo.empty_world = (Return resp, w')
       /\ status resp = 500
       /\ headers resp !! "Set-Cookie" = None
       /\ List.length (upstream_calls w') = 1%nat.
Proof.
  split; [vm_compute; reflexivity |].
  eexists _, _. split; [vm_compute; reflexivity |].
  vm_compute. repeat split; reflexivity.
Qed.

(** The count is incremented in double arithmetic: from -2^54 the
    re-issued cookie repeats the count it was sent. *)
Example C8_increment_rounds :
  exists resp w',
    fetch Demo.runtime (Demo.extract_request (Some "trial=-18014398509481984") 1)
      Demo.env Demo.empty_world = (Return resp, w')
    /\ status resp = 200
    /\ headers resp !! "Set-Cookie"
       = Some "trial=-18014398509481984; Max-Age=604800; Path=/; HttpOnly; SameSite=None; Secure".
Proof.
  eexists _, _. split; [vm_compute; reflexivity |].
  vm_compute. repeat split; reflexivity.
Qed.

(** C8 (as amended) on an anonymous request echoing the cookie for
    count 1: the extraction succeeds, and the 200 re-issues the cookie
    with count 2. *)
Lemma C8_trial_token_witness :
  let cookie := "trial=2; Max-Age=604800; Path=/; HttpOnly; SameSite=None; Secure" in
  let resp := success Demo.env Demo.extraction {[ "Set-Cookie" := cookie ]} in
  fetch Demo.runtime (Demo.extract_request (Some "trial=1") 1) Demo.env Demo.empty_world
  = (Return resp,
     {| USERS := ∅;
        upstream_calls :=
          [{| call_api_key := "sk-test";
              call_images := ["data:image/jpeg;base64,AAAA"];
              call_text := EmptyString |}] |})
  /\ status resp = 200
  /\ headers resp !! "Set-Cookie" = Some cookie.
Proof.
  assert (Hone : Z.of_nat
                   (List.length
                      (form_images [("images_dataurl[]",
                                     FormString "data:image/jpeg;base64,AAAA")])) <= 1)
    by (simpl; lia).
  exact (proj1 (C8_trial_token_only_on_success Demo.runtime Demo.env
                  (Demo.extract_request (Some "trial=1") 1) Demo.empty_world 1
                  eq_refl eq_refl eq_refl eq_refl)
           [("images_dataurl[]", FormString "data:image/jpeg;base64,AAAA")] EmptyString
           ltac:(lia) eq_refl Hone eq_refl).
Defined.

(** ** Login *)

Section Login.

Context (rt : Runtime) (env : Env).

Lemma hashPasswordPBKDF2_world (password : json) (salt : option string)
    (iterations : option Z) (w : World) :
  snd (hashPasswordPBKDF2 rt password salt iterations w) = w.
Proof.
  unfold hashPasswordPBKDF2, bind, or_throw, pbkdf2_iterations, raise, throw, ret.
  destruct (Base64.decode _); [| reflexivity].
  destruct (ToString password); [| reflexivity].
  destruct iterations as [n |]; [| reflexivity].
  destruct (_ || _); [reflexivity |].
  destruct (n =? 0); [reflexivity |].
  destruct (pbkdf2_max_iterations rt) as [cap |]; [| reflexivity].
  destruct (cap <? n); reflexivity.
Qed.

Lemma createSession_unfold (username : string) (roles : list string) (w : World) :
  createSession rt env username roles w =
    (Return (b64Random rt 24, now_seconds rt + SESSION_TTL_SECONDS),
     {| USERS :=
          <[SESSION_PREFIX +:+ b64Random rt 24 :=
              {| kv_document :=
                   SessionRecord {| sess_username := username;
                                    sess_exp := now_seconds rt + SESSION_TTL_SECONDS;
                                    sess_roles := Some roles |};
                 kv_expiration := Some (now_seconds rt + SESSION_TTL_SECONDS) |}]> (USERS w);
        upstream_calls := upstream_calls w |}).
Proof. reflexivity. Qed.

Lemma handleLogin_credentials (req : Request) (w : World) (u p : string) :
  credentials req u p ->
  handleLogin rt req env w =
    match USERS w !! ("user:" +:+ trim u) with
    | None => (Return (bad (error_body "invalid_credentials") env 401), w)
    | Some entry =>
        let doc := kv_document entry in
        if account_expired rt doc then
          (Return (bad (error_body "account_expired") env 403), w)
        else
          match hashPasswordPBKDF2 rt (JString p) (get_salt doc) (get_iterations doc) w with
          | (Throw e, _) => (Return (bad_request env e), w)
          | (Return derived, _) =>
              if hash_differs derived doc then
                (Return (bad (error_body "invalid_credentials") env 401), w)
              else
                (Return (logged_in env (trim u) (b64Random rt 24)),
                 snd (createSession rt env (trim u) (default [] (get_roles doc)) w))
          end
    end.
Proof.
  intros (fields & Hbody & Hu & Hp & Hname & Hpw).
  unfold handleLogin, login_attempt, try_catch, bind. rewrite Hbody.
  cbn [or_throw ret get_property].
  rewrite Hu, Hp.
  assert (Hor : forall s, s <> EmptyString -> or_empty (Some (JString s)) = JString s).
  { intros [| c s] Hs; [congruence | reflexivity]. }
  assert (Hu' : or_empty (Some (JString u)) = JString u).
  { apply Hor. intros ->. apply Hname. reflexivity. }
  rewrite Hu', (Hor p Hpw). cbn [call_trim ret].
  destruct (String.eqb_spec (trim u) "") as [? | _]; [congruence |].
  assert (Htruthy : truthy (Some (JString p)) = true).
  { destruct p; [congruence | reflexivity]. }
  rewrite Htruthy. cbn [negb orb].
  unfold kv_get. cbn [fst snd].
  destruct (USERS w !! ("user:" +:+ trim u)) as [entry |]; [| reflexivity].
  cbn [fmap option_fmap option_map].
  destruct (account_expired rt (kv_document entry)); [reflexivity |].
  pose proof (hashPasswordPBKDF2_world (JString p) (get_salt (kv_document entry))
                (get_iterations (kv_document entry)) w) as Hw.
  destruct (hashPasswordPBKDF2 _ _ _ _ _) as [[derived | e] w1]; cbn [snd] in Hw; subst w1;
    [| reflexivity].
  destruct (hash_differs derived (kv_document entry)); reflexivity.
Qed.

End Login.

Section LoginClaims.

Context (rt : Runtime) (env : Env).

Lemma bad_request_no_cookie (e : exn) : headers (bad_request env e) !! "Set-Cookie" = None.
Proof. apply bad_no_cookie. Qed.

Lemma quiet_bad (b : json) (st : Z) (w : World) : quiet (ret (bad b env st)) w.
Proof. intros _. split; [reflexivity | apply bad_no_cookie]. Qed.

Lemma quiet_bind {A} (m : M A) (k : A -> M Response) (w : World) :
  snd (m w) = w ->
  (forall a, fst (m w) = Return a -> quiet (k a) w) ->
  quiet (bind m k) w.
Proof.
  unfold quiet, bind. destruct (m w) as [[a | e] w1]; cbn [fst snd]; intros -> Hk.
  - exact (Hk a eq_refl).
  - reflexivity.
Qed.

Lemma or_throw_world {A} (k : engine_error) (o : option A) (w : World) :
  snd (or_throw rt k o w) = w.
Proof. destruct o; reflexivity. Qed.

Lemma get_property_world (b : json) (name : string) (w : World) :
  snd (get_property rt b name w) = w.
Proof. destruct b; reflexivity. Qed.

Lemma call_trim_world (v : json) (w : World) : snd (call_trim rt v w) = w.
Proof. destruct v; reflexivity. Qed.

(** The [try] block either throws before touching the store, or refuses
    without touching it, or succeeds. *)
Lemma login_attempt_spec (req : Request) (w : World) : quiet (login_attempt rt req env) w.
Proof.
  unfold login_attempt.
  apply quiet_bind; [apply or_throw_world | intros body _].
  apply quiet_bind; [apply get_property_world | intros u _].
  apply quiet_bind; [apply call_trim_world | intros username _].
  apply quiet_bind; [apply get_property_world | intros p _].
  destruct (_ || _); [apply quiet_bad |].
  apply quiet_bind; [reflexivity | intros doc _].
  destruct doc as [doc |]; [| apply quiet_bad].
  destruct (account_expired rt doc); [apply quiet_bad |].
  apply quiet_bind; [apply hashPasswordPBKDF2_world | intros derived _].
  destruct (hash_differs derived doc); [apply quiet_bad |].
  unfold quiet, bind. rewrite createSession_unfold.
  intros Hst. exfalso. apply Hst. reflexivity.
Qed.

(** C10.  Every login request is answered, and an answer other than 200
    leaves the store (and the rest of the world) exactly as it was and
    carries no [Set-Cookie] header. *)
Theorem C10_failed_login_changes_nothing (req : Request) (w : World) :
  exists resp w',
    handleLogin rt req env w = (Return resp, w')
    /\ (status resp <> 200 -> w' = w /\ headers resp !! "Set-Cookie" = None).
Proof.
  pose proof (login_attempt_spec req w) as Hattempt.
  unfold quiet in Hattempt. unfold handleLogin, try_catch.
  destruct (login_attempt rt req env w) as [[resp | e] w'].
  - exists resp, w'. split; [reflexivity | exact Hattempt].
  - subst w'. eexists _, _. split; [reflexivity |].
    intros _. split; [reflexivity | apply bad_no_cookie].
Qed.

End LoginClaims.

Section Credentials.

Context (rt : Runtime) (env : Env).

(** A record the worker can verify against: the salt is base64 and the
    iteration count a positive unsigned long the runtime accepts. *)
Lemma hashPasswordPBKDF2_runs (p salt64 : string) (salt : list Z) (n : Z) (w : World) :
  Base64.decode salt64 = Some salt ->
  1 <= n <= 4294967295 ->
  iterations_supported rt n ->
  hashPasswordPBKDF2 rt (JString p) (Some salt64) (Some n) w
  = (Return (Base64.encode (Sha256.pbkdf2 (bytes_of_string p) salt n)), w).
Proof.
  intros Hsalt Hn Hcap. unfold hashPasswordPBKDF2, bind, or_throw, pbkdf2_iterations.
  cbn [stdpp.option.from_option id]. rewrite Hsalt. cbn [ret ToString].
  destruct (Z.ltb_spec n 0); [lia |].
  destruct (Z.ltb_spec 4294967295 n); [lia |].
  destruct (Z.eqb_spec n 0); [lia |].
  unfold iterations_supported in Hcap.
  destruct (pbkdf2_max_iterations rt) as [cap |]; [| reflexivity].
  destruct (Z.ltb_spec cap n); [lia | reflexivity].
Qed.

(** Without a [salt] property the derivation stops at [atob]. *)
Lemma hashPasswordPBKDF2_without_salt (password : json) (iterations : option Z) (w : World) :
  hashPasswordPBKDF2 rt password None iterations w
  = (Throw (Error "InvalidCharacterError" (engine_message rt InvalidBase64)), w).
Proof. reflexivity. Qed.

(** On records the worker can verify, the two failures are alike: a
    login naming a user without credential record and a login naming an
    existing, non-expired account with a password whose derived key
    differs from the stored hash get the same response, 401 with the body
    [{error: "invalid_credentials"}] and the same headers, and neither
    changes the world. *)
Lemma login_failures_alike_when_verifiable (req1 req2 : Request) (w : World)
    (u1 p1 u2 p2 salt64 : string) (entry : KVEntry) (salt : list Z) (n : Z) :
  credentials req1 u1 p1 ->
  USERS w !! ("user:" +:+ trim u1) = None ->
  credentials req2 u2 p2 ->
  USERS w !! ("user:" +:+ trim u2) = Some entry ->
  account_expired rt (kv_document entry) = false ->
  get_salt (kv_document entry) = Some salt64 ->
  Base64.decode salt64 = Some salt ->
  get_iterations (kv_document entry) = Some n ->
  1 <= n <= 4294967295 ->
  iterations_supported rt n ->
  get_hash (kv_document entry)
    <> Some (Base64.encode (Sha256.pbkdf2 (bytes_of_string p2) salt n)) ->
  exists resp,
    handleLogin rt req1 env w = (Return resp, w)
    /\ handleLogin rt req2 env w = (Return resp, w)
    /\ status resp = 401
    /\ body resp = Json (JObject [("error", JString "invalid_credentials")]).
Proof.
  intros Hc1 Hnone Hc2 Hsome Hlive Hsalt Hdec Hit Hn Hcap Hwrong.
  exists (bad (error_body "invalid_credentials") env 401).
  rewrite (handleLogin_credentials rt env req1 w u1 p1 Hc1), Hnone.
  rewrite (handleLogin_credentials rt env req2 w u2 p2 Hc2), Hsome.
  cbv zeta.
  rewrite Hlive, Hsalt, Hit, (hashPasswordPBKDF2_runs p2 salt64 salt n w Hdec Hn Hcap).
  assert (Hdiff : hash_differs (Base64.encode (Sha256.pbkdf2 (bytes_of_string p2) salt n))
                    (kv_document entry) = true).
  { unfold hash_differs. destruct (get_hash (kv_document entry)) as [h |]; [| reflexivity].
    destruct (String.eqb_spec (Base64.encode (Sha256.pbkdf2 (bytes_of_string p2) salt n)) h);
      [congruence | reflexivity]. }
  rewrite Hdiff. repeat split; reflexivity.
Qed.

(** C2 (as amended).  [handleLogin] does not read the [status] property:
    for a non-expired record whose [salt], [iterations] (a count the
    runtime's PBKDF2 accepts) and [hash] verify the password, the login
    returns 200, writes the session record and sends the [Set-Cookie]
    header whatever [status] holds, ["disabled"] included. *)
Theorem C2_status_is_not_consulted (req : Request) (w : World) (u p salt64 : string)
    (d : UserDoc) (st : option string) (expiration : option Z) (salt : list Z) (n : Z) :
  credentials req u p ->
  USERS w !! ("user:" +:+ trim u)
    = Some {| kv_document := UserRecord (with_status st d); kv_expiration := expiration |} ->
  account_expired rt (UserRecord d) = false ->
  doc_salt d = Some salt64 ->
  Base64.decode salt64 = Some salt ->
  doc_iterations d = Some n ->
  1 <= n <= 4294967295 ->
  iterations_supported rt n ->
  doc_hash d = Some (Base64.encode (Sha256.pbkdf2 (bytes_of_string p) salt n)) ->
  handleLogin rt req env w
  = (Return (logged_in env (trim u) (b64Random rt 24)),
     snd (createSession rt env (trim u) (default [] (doc_roles d)) w))
  /\ status (logged_in env (trim u) (b64Random rt 24)) = 200.
Proof.
  intros Hc Hentry Hlive Hsalt Hdec Hit Hn Hcap Hhash.
  split; [| reflexivity].
  rewrite (handleLogin_credentials rt env req w u p Hc), Hentry.
  cbv zeta. cbn [kv_document].
  change (account_expired rt (UserRecord (with_status st d)))
    with (account_expired rt (UserRecord d)).
  rewrite Hlive. cbn [get_salt get_iterations with_status doc_salt doc_iterations].
  rewrite Hsalt, Hit, (hashPasswordPBKDF2_runs p salt64 salt n w Hdec Hn Hcap).
  unfold hash_differs. cbn [get_hash with_status doc_hash]. rewrite Hhash.
  rewrite String.eqb_refl. reflexivity.
Qed.

(** C1, what the code does with the tool's records.  The record written
    by [tools/make-user.mjs] has no [salt] and no [iterations] property
    (both are folded into its [hash] string), so for every such record
    and every well-formed login naming it, whatever the password,
    [handleLogin] stops at [atob(undefined)]: the answer is 400 (or 403
    when the account has expired), never 200, and no session is written. *)
Theorem C1_tool_record_never_logs_in (req : Request) (w : World) (u p : string)
    (username password role expires : string) (max_pages max_files : Z) (salt : list Z)
    (expiration : option Z) :
  credentials req u p ->
  USERS w !! ("user:" +:+ trim u)
    = Some {| kv_document :=
                UserRecord (MakeUser.rec username password role max_pages max_files expires salt);
              kv_expiration := expiration |} ->
  exists resp,
    handleLogin rt req env w = (Return resp, w)
    /\ status resp <> 200
    /\ headers resp !! "Set-Cookie" = None
    /\ resp =
         if account_expired rt
              (UserRecord (MakeUser.rec username password role max_pages max_files expires salt))
         then bad (error_body "account_expired") env 403
         else bad_request env (Error "InvalidCharacterError" (engine_message rt InvalidBase64)).
Proof.
  intros Hc Hentry.
  rewrite (handleLogin_credentials rt env req w u p Hc), Hentry.
  cbv zeta. cbn [kv_document].
  destruct (account_expired rt _).
  - eexists. split; [reflexivity |]. split; [discriminate |]. split; [apply bad_no_cookie | reflexivity].
  - cbn [get_salt MakeUser.rec doc_salt].
    rewrite hashPasswordPBKDF2_without_salt.
    eexists. split; [reflexivity |]. split; [discriminate |].
    split; [apply bad_no_cookie | reflexivity].
Qed.

(** C9, what the code does with the tool's records.  For an account
    provisioned by [tools/make-user.mjs] and not expired, a well-formed
    login with any password, a wrong one included, is answered 400 with
    the message of the error [atob] threw, while a login naming a user
    without record is answered 401 [invalid_credentials]: the two
    responses differ in status and in body. *)
Theorem C9_tool_account_tells_itself_apart (req1 req2 : Request) (w : World)
    (u1 p1 u2 p2 : string) (username password role expires : string)
    (max_pages max_files : Z) (salt : list Z) (expiration : option Z) :
  credentials req1 u1 p1 ->
  USERS w !! ("user:" +:+ trim u1) = None ->
  credentials req2 u2 p2 ->
  USERS w !! ("user:" +:+ trim u2)
    = Some {| kv_document :=
                UserRecord (MakeUser.rec username password role max_pages max_files expires salt);
              kv_expiration := expiration |} ->
  account_expired rt
    (UserRecord (MakeUser.rec username password role max_pages max_files expires salt)) = false ->
  exists resp1 resp2,
    handleLogin rt req1 env w = (Return resp1, w)
    /\ handleLogin rt req2 env w = (Return resp2, w)
    /\ status resp1 = 401
    /\ body resp1 = Json (JObject [("error", JString "invalid_credentials")])
    /\ status resp2 = 400
    /\ resp2 = bad_request env (Error "InvalidCharacterError" (engine_message rt InvalidBase64))
    /\ resp1 <> resp2.
Proof.
  intros Hc1 Hnone Hc2 Hentry Hlive.
  rewrite (handleLogin_credentials rt env req1 w u1 p1 Hc1), Hnone.
  rewrite (handleLogin_credentials rt env req2 w u2 p2 Hc2), Hentry.
  cbv zeta. cbn [kv_document]. rewrite Hlive.
  cbn [get_salt MakeUser.rec doc_salt]. rewrite hashPasswordPBKDF2_without_salt.
  eexists _, _. repeat split. discriminate.
Qed.

End Credentials.

(** ** Sessions *)

Lemma sextet_char_not_equals (v : Z) : Base64.sextet_char v <> "="%char.
Proof.
  unfold Base64.sextet_char.
  generalize (Z.to_nat (Z.land v 63)). intros n.
  do 64 (destruct n as [| n]; [intros H; vm_compute in H; discriminate H |]).
  intros H. vm_compute in H. discriminate H.
Qed.

Lemma drop_equals_other (c : ascii) (r : string) :
  c <> "="%char -> drop_equals (String c r) = String c r.
Proof.
  intros Hc. destruct c as [[] [] [] [] [] [] [] []]; try reflexivity.
  exfalso. apply Hc. reflexivity.
Qed.

(** Twenty-four random bytes encode to thirty-two base64 characters
    without padding, so the token is that encoding, and is not empty. *)
Lemma b64Random_24 (rt : Runtime) :
  b64Random rt 24 = Base64.encode (getRandomValues rt 24)
  /\ exists c r, b64Random rt 24 = String c r.
Proof.
  assert (Heq : b64Random rt 24 = Base64.encode (getRandomValues rt 24)).
  { unfold b64Random, strip_trailing_equals, getRandomValues.
    cbn [seq map Base64.encode string_rev string_rev_onto].
    rewrite drop_equals_other by apply sextet_char_not_equals.
    reflexivity. }
  split; [exact Heq |].
  rewrite Heq. unfold getRandomValues. cbn [seq map Base64.encode]. eauto.
Qed.

(** *** The session cookie, sent back

    The token is made of base64 characters; [setCookie] escapes it and
    [getCookie] finds and unescapes it again. *)

Lemma sextet_char_base64 (v : Z) : base64_char (Base64.sextet_char v) = true.
Proof.
  unfold Base64.sextet_char.
  generalize (Z.to_nat (Z.land v 63)). intros n.
  do 64 (destruct n as [| n]; [vm_compute; reflexivity |]).
  vm_compute. reflexivity.
Qed.

Lemma list_triple_ind (P : list Z -> Prop) :
  P [] -> (forall a, P [a]) -> (forall a b, P [a; b]) ->
  (forall a b c r, P r -> P (a :: b :: c :: r)) ->
  forall l, P l.
Proof.
  intros H0 H1 H2 H3. fix IH 1.
  intros [| a [| b [| c r]]]; [exact H0 | apply H1 | apply H2 | apply H3, IH].
Qed.

Lemma encode_base64 (l : list Z) : all_chars base64_char (Base64.encode l) = true.
Proof.
  induction l as [| a | a b | a b c r IH] using list_triple_ind;
    cbn [Base64.encode all_chars]; rewrite ?sextet_char_base64, ?IH; reflexivity.
Qed.

Lemma uri_encode_cons (c : ascii) (r : string) :
  URI.encode (String c r) = URI.encode (String c EmptyString) +:+ URI.encode r.
Proof. cbn [URI.encode]. destruct (URI.unreserved c); reflexivity. Qed.

Lemma append_String (c : ascii) (p q : string) : String c p +:+ q = String c (p +:+ q).
Proof. reflexivity. Qed.

Lemma append_Empty (q : string) : EmptyString +:+ q = q.
Proof. reflexivity. Qed.

(** Evaluate the escape of the character at the head of the goal. *)
Ltac escape_head :=
  rewrite uri_encode_cons;
  match goal with
  | |- context [URI.encode (String ?c EmptyString)] =>
      let e := eval vm_compute in (URI.encode (String c EmptyString)) in
      change (URI.encode (String c EmptyString)) with e
  end;
  rewrite !append_String, append_Empty.

Lemma uri_roundtrip (s : string) :
  all_chars base64_char s = true ->
  forall fuel, (String.length (URI.encode s) <= fuel)%nat ->
               URI.decode_fuel fuel (URI.encode s) = Some s.
Proof.
  induction s as [| c r IH]; intros Hall fuel Hlen.
  - destruct fuel; reflexivity.
  - cbn [all_chars] in Hall. apply andb_prop in Hall as [Hc Hr].
    specialize (IH Hr). revert Hlen.
    destruct c as [[] [] [] [] [] [] [] []]; try discriminate Hc;
      escape_head; cbn [String.length]; intros Hlen;
      (destruct fuel as [| fuel]; [lia |]);
      simpl; rewrite IH by lia; reflexivity.
Qed.

Lemma uri_no_semicolon (s : string) :
  all_chars base64_char s = true -> until_semicolon (URI.encode s) = URI.encode s.
Proof.
  induction s as [| c r IH]; intros Hall; [reflexivity |].
  cbn [all_chars] in Hall. apply andb_prop in Hall as [Hc Hr].
  specialize (IH Hr).
  destruct c as [[] [] [] [] [] [] [] []]; try discriminate Hc;
    escape_head; cbn [until_semicolon Ascii.eqb Bool.eqb]; rewrite IH; reflexivity.
Qed.

(** A request whose [Cookie] header is the pair [setCookie] wrote for
    the token presents that token. *)
Lemma getCookie_session_cookie (rt : Runtime) (req : Request) (w : World) (t : string) :
  all_chars base64_char t = true ->
  cookie_header req = Some (SESSION_COOKIE +:+ "=" +:+ URI.encode t) ->
  getCookie rt req SESSION_COOKIE w = (Return (Some t), w).
Proof.
  intros Hall Hheader. rewrite getCookie_unfold, Hheader.
  change (cookie_match SESSION_COOKIE
            (default EmptyString (Some (SESSION_COOKIE +:+ "=" +:+ URI.encode t))))
    with (Some (until_semicolon (URI.encode t))).
  rewrite (uri_no_semicolon t Hall).
  unfold URI.decode. rewrite (uri_roundtrip t Hall) by lia. reflexivity.
Qed.

Lemma b64Random_24_base64 (rt : Runtime) : all_chars base64_char (b64Random rt 24) = true.
Proof. rewrite (proj1 (b64Random_24 rt)). apply encode_base64. Qed.

Section Sessions.

Context (rt0 rt : Runtime) (env : Env).

(** C7.  [createSession] at the instant of [rt0] stores the record under
    [session:<token>] with [exp] thirty days ahead.  For any later world
    that still holds this entry and any request presenting the token:
    [getSession] returns the record; at every instant before [exp]
    (in milliseconds: [Date.now() < 1000 * exp]) the guard authorizes the
    request as that user with those roles, and the store may not have
    purged the entry yet; from [exp] on the guard finds no session, even
    though the record is still in the store. *)
Theorem C7_session_live_until_expiry (w0 w : World) (req : Request)
    (username : string) (roles : list string) :
  let token := b64Random rt0 24 in
  let exp := Date_now rt0 / 1000 + 2592000 in
  let record := {| sess_username := username; sess_exp := exp; sess_roles := Some roles |} in
  let entry := {| kv_document := SessionRecord record; kv_expiration := Some exp |} in
  USERS w !! (SESSION_PREFIX +:+ token) = Some entry ->
  getCookie rt req SESSION_COOKIE w = (Return (Some token), w) ->
  createSession rt0 env username roles w0
  = (Return (token, exp),
     {| USERS := <[SESSION_PREFIX +:+ token := entry]> (USERS w0);
        upstream_calls := upstream_calls w0 |})
  /\ USERS (snd (createSession rt0 env username roles w0)) !! (SESSION_PREFIX +:+ token)
     = Some entry
  /\ getSession env (Some token) w = (Return (Some (SessionRecord record)), w)
  /\ (Date_now rt < 1000 * exp ->
      guardExtract rt req env w = (Return (Allowed (session username roles) None), w)
      /\ kv_purge (now_seconds rt) (USERS w) !! (SESSION_PREFIX +:+ token) = Some entry)
  /\ (1000 * exp <= Date_now rt ->
      session_of rt env req w = Return None
      /\ forall u r h, fst (guardExtract rt req env w) <> Return (Allowed (session u r) h)).
Proof.
  intros token exp record entry Hentry Hcookie.
  assert (Hget : getSession env (Some token) w = (Return (Some (SessionRecord record)), w)).
  { rewrite getSession_unfold.
    destruct (proj2 (b64Random_24 rt0)) as (c & r & Htok).
    fold token in Htok. rewrite Htok, <- Htok, Hentry. reflexivity. }
  assert (Hsess : session_of rt env req w = Return (live_session rt (Some (SessionRecord record)))).
  { unfold session_of. rewrite Hcookie, Hget. reflexivity. }
  split; [reflexivity |]. split; [apply lookup_insert_eq |]. split; [exact Hget |]. split.
  - intros Hbefore.
    assert (Hlt : now_seconds rt < exp).
    { unfold now_seconds. apply Z.div_lt_upper_bound; lia. }
    split.
    + rewrite guardExtract_unfold, Hsess. cbn [live_session sess_exp record].
      destruct (Z.ltb_spec (now_seconds rt) exp); [reflexivity | lia].
    + unfold kv_purge. apply map_lookup_filter_Some. split; [exact Hentry |].
      cbn [snd kv_live kv_expiration entry]. apply Z.ltb_lt. exact Hlt.
  - intros Hafter.
    assert (Hge : exp <= now_seconds rt).
    { unfold now_seconds. apply Z.div_le_lower_bound; lia. }
    assert (Hnone : session_of rt env req w = Return None).
    { rewrite Hsess. cbn [live_session sess_exp record].
      destruct (Z.ltb_spec (now_seconds rt) exp); [lia | reflexivity]. }
    split; [exact Hnone |].
    intros u r h. rewrite guardExtract_unfold, Hnone.
    destruct (readTrialCookie rt req w) as [[used | e] w1]; [| discriminate].
    destruct (trialExceeded used); discriminate.
Qed.

(** X24.  End to end: a request that sends back the session cookie
    exactly as [setCookie] wrote it is authorized against the store
    [createSession] left, at every instant before the expiry. *)
Corollary echoed_session_cookie_is_authorized (w0 : World) (req : Request)
    (username : string) (roles : list string) :
  cookie_header req = Some (SESSION_COOKIE +:+ "=" +:+ URI.encode (b64Random rt0 24)) ->
  Date_now rt < 1000 * (Date_now rt0 / 1000 + 2592000) ->
  guardExtract rt req env (snd (createSession rt0 env username roles w0))
  = (Return (Allowed (session username roles) None),
     snd (createSession rt0 env username roles w0)).
Proof.
  intros Hheader Hbefore.
  set (w := snd (createSession rt0 env username roles w0)).
  assert (Hcookie : getCookie rt req SESSION_COOKIE w = (Return (Some (b64Random rt0 24)), w))
    by (apply getCookie_session_cookie; [apply b64Random_24_base64 | exact Hheader]).
  assert (Hlt : now_seconds rt < Date_now rt0 / 1000 + 2592000)
    by (unfold now_seconds; apply Z.div_lt_upper_bound; lia).
  rewrite guardExtract_unfold. unfold session_of. rewrite Hcookie, getSession_unfold.
  destruct (proj2 (b64Random_24 rt0)) as (c & r & Htok).
  rewrite Htok, <- Htok.
  subst w. rewrite createSession_unfold. cbn [snd USERS].
  rewrite lookup_insert_eq. cbn [fmap option_fmap option_map kv_document live_session sess_exp].
  change (now_seconds rt0 + SESSION_TTL_SECONDS) with (Date_now rt0 / 1000 + 2592000).
  destruct (Z.ltb_spec (now_seconds rt) (Date_now rt0 / 1000 + 2592000)); [reflexivity | lia].
Qed.

End Sessions.

Lemma credentials_of_login_request (u p : string) :
  trim u <> EmptyString -> p <> EmptyString -> credentials (Demo.login_request u p) u p.
Proof.
  intros Hu Hp. exists [("username", JString u); ("password", JString p)].
  repeat split; [exact Hu | exact Hp].
Qed.

Lemma lookup_alice :
  USERS Accounts.provisioned !! ("user:" +:+ trim "alice")
  = Some {| kv_document := UserRecord Accounts.alice; kv_expiration := None |}.
Proof. apply lookup_insert_eq. Qed.

Lemma lookup_bob :
  USERS Accounts.world !! ("user:" +:+ trim "bob")
  = Some {| kv_document := UserRecord Accounts.bob; kv_expiration := None |}.
Proof. apply lookup_insert_eq. Qed.

(** C1 on a concrete account: the login of [alice] with her password is
    answered 400 with the message of [atob], and the world is unchanged. *)
Lemma C1_alice_cannot_log_in :
  handleLogin Demo.runtime (Demo.login_request "alice" "s3cret") Demo.env Accounts.provisioned
  = (Return (bad (error_body "atob() called with invalid base64-encoded data.") Demo.env 400),
     Accounts.provisioned).
Proof.
  destruct (C1_tool_record_never_logs_in Demo.runtime Demo.env
              (Demo.login_request "alice" "s3cret") Accounts.provisioned "alice" "s3cret"
              "alice" "s3cret" "user" "2099-12-31" 10 100
              [1; 2; 3; 4; 5; 6; 7; 8; 9; 10; 11; 12; 13; 14; 15; 16] None)
    as (resp & Hlogin & _ & _ & Hresp).
  - apply credentials_of_login_request; vm_compute; discriminate.
  - exact lookup_alice.
  - rewrite Hlogin, Hresp. reflexivity.
Defined.

(** C2, the claim as stated fails: [bob]'s record is marked disabled, and
    his login with the right password returns 200, sets the session
    cookie and writes the session. *)
Lemma C2_disabled_account_logs_in :
  doc_status Accounts.bob = Some "disabled"
  /\ exists resp w',
       handleLogin Demo.runtime (Demo.login_request "bob" "password") Demo.env Accounts.world
       = (Return resp, w')
       /\ status resp = 200
       /\ body resp = Json (JObject [("ok", JBool true); ("username", JString "bob")])
       /\ headers resp !! "Set-Cookie"
          = Some ("sess=CzBVep%2FE6Q4zWH2ix%2BwRNluApcrvFDle; Max-Age=2592000; Path=/; "
                  +:+ "HttpOnly; SameSite=None; Secure, "
                  +:+ "trial=0; Max-Age=0; Path=/; HttpOnly; SameSite=None; Secure")
       /\ kv_document <$> USERS w' !! (SESSION_PREFIX +:+ Accounts.bob_token)
          = Some (SessionRecord Accounts.bob_session).
Proof.
  split; [reflexivity |].
  rewrite (handleLogin_credentials Demo.runtime Demo.env _ _ "bob" "password")
    by (apply credentials_of_login_request; vm_compute; discriminate).
  rewrite lookup_bob.
  eexists _, _. split; [vm_compute; reflexivity |].
  vm_compute. repeat split; reflexivity.
Qed.

(** C2 (as amended) on [bob]'s record. *)
Lemma C2_status_witness :
  handleLogin Demo.runtime (Demo.login_request "bob" "password") Demo.env Accounts.world
  = (Return (logged_in Demo.env (trim "bob") (b64Random Demo.runtime 24)),
     snd (createSession Demo.runtime Demo.env (trim "bob") (default [] (doc_roles Accounts.bob))
            Accounts.world))
  /\ status (logged_in Demo.env (trim "bob") (b64Random Demo.runtime 24)) = 200.
Proof.
  apply (C2_status_is_not_consulted Demo.runtime Demo.env
           (Demo.login_request "bob" "password") Accounts.world "bob" "password" "c2FsdA=="
           Accounts.bob (Some "disabled") None (bytes_of_string "salt") 1).
  - apply credentials_of_login_request; vm_compute; discriminate.
  - exact lookup_bob.
  - reflexivity.
  - reflexivity.
  - vm_compute. reflexivity.
  - reflexivity.
  - lia.
  - vm_compute. discriminate.
  - vm_compute. reflexivity.
Defined.

Example login_failures_alike_for_bob :
  exists resp,
    handleLogin Demo.runtime (Demo.login_request "nobody" "password") Demo.env Accounts.world
    = (Return resp, Accounts.world)
    /\ handleLogin Demo.runtime (Demo.login_request "bob" "wrong") Demo.env Accounts.world
       = (Return resp, Accounts.world)
    /\ status resp = 401
    /\ body resp = Json (JObject [("error", JString "invalid_credentials")]).
Proof.
  apply (login_failures_alike_when_verifiable Demo.runtime Demo.env
           (Demo.login_request "nobody" "password") (Demo.login_request "bob" "wrong")
           Accounts.world "nobody" "password" "bob" "wrong" "c2FsdA=="
           {| kv_document := UserRecord Accounts.bob; kv_expiration := None |}
           (bytes_of_string "salt") 1).
  - apply credentials_of_login_request; vm_compute; discriminate.
  - vm_compute. reflexivity.
  - apply credentials_of_login_request; vm_compute; discriminate.
  - exact lookup_bob.
  - reflexivity.
  - reflexivity.
  - vm_compute. reflexivity.
  - reflexivity.
  - lia.
  - vm_compute. discriminate.
  - vm_compute. discriminate.
Qed.

(** C9 on concrete accounts: [alice], provisioned by the tool, is told
    apart from a user who does not exist. *)
Lemma C9_alice_told_apart :
  exists resp1 resp2,
    handleLogin Demo.runtime (Demo.login_request "nobody" "wrong") Demo.env Accounts.provisioned
    = (Return resp1, Accounts.provisioned)
    /\ handleLogin Demo.runtime (Demo.login_request "alice" "wrong") Demo.env
         Accounts.provisioned
       = (Return resp2, Accounts.provisioned)
    /\ status resp1 = 401
    /\ body resp1 = Json (JObject [("error", JString "invalid_credentials")])
    /\ status resp2 = 400
    /\ body resp2
       = Json (JObject [("error", JString "atob() called with invalid base64-encoded data.")]).
Proof.
  destruct (C9_tool_account_tells_itself_apart Demo.runtime Demo.env
              (Demo.login_request "nobody" "wrong") (Demo.login_request "alice" "wrong")
              Accounts.provisioned "nobody" "wrong" "alice" "wrong"
              "alice" "s3cret" "user" "2099-12-31" 10 100
              [1; 2; 3; 4; 5; 6; 7; 8; 9; 10; 11; 12; 13; 14; 15; 16] None)
    as (resp1 & resp2 & H1 & H2 & Hs1 & Hb1 & Hs2 & Hr2 & _).
  - apply credentials_of_login_request; vm_compute; discriminate.
  - unfold Accounts.provisioned, MakeUser.store. cbn [USERS].
    rewrite lookup_insert_ne by (vm_compute; discriminate). apply lookup_empty.
  - apply credentials_of_login_request; vm_compute; discriminate.
  - exact lookup_alice.
  - reflexivity.
  - exists resp1, resp2. repeat split; try assumption.
    rewrite Hr2. reflexivity.
Defined.

(** C10 on [bob]'s login with a wrong password. *)
Lemma C10_failed_login_witness :
  exists resp w',
    handleLogin Demo.runtime (Demo.login_request "bob" "wrong") Demo.env Accounts.world
    = (Return resp, w')
    /\ status resp = 401
    /\ w' = Accounts.world
    /\ headers resp !! "Set-Cookie" = None.
Proof.
  destruct (C10_failed_login_changes_nothing Demo.runtime Demo.env
              (Demo.login_request "bob" "wrong") Accounts.world)
    as (resp & w' & Hlogin & Hquiet).
  assert (Hrun : handleLogin Demo.runtime (Demo.login_request "bob" "wrong") Demo.env
                   Accounts.world
                 = (Return (bad (error_body "invalid_credentials") Demo.env 401),
                    Accounts.world))
    by (vm_compute; reflexivity).
  rewrite Hrun in Hlogin. injection Hlogin as Hresp Hw. subst resp w'.
  eexists _, _. split; [exact Hrun |]. split; [reflexivity |].
  apply Hquiet. discriminate.
Defined.

(** C7 on a session created for [bob]: a request echoing the session
    cookie is authorized at the instant of creation and finds no session
    thirty days later, with the record still in the store. *)
Lemma C7_session_witness :
  let w := snd (createSession Demo.runtime Demo.env "bob" [] Accounts.world) in
  let req := Demo.extract_request (Some "sess=CzBVep%2FE6Q4zWH2ix%2BwRNluApcrvFDle") 1 in
  guardExtract Demo.runtime req Demo.env w = (Return (Allowed (session "bob" []) None), w)
  /\ session_of Demo.runtime_thirty_days_later Demo.env req w = Return None.
Proof.
  intros w req. split.
  - refine (proj1 (proj1 (proj2 (proj2 (proj2
             (C7_session_live_until_expiry Demo.runtime Demo.runtime Demo.env
                Accounts.world w req "bob" [] _ _)))) _)).
    + vm_compute. reflexivity.
    + vm_compute. reflexivity.
    + vm_compute. reflexivity.
  - refine (proj1 (proj2 (proj2 (proj2 (proj2
             (C7_session_live_until_expiry Demo.runtime Demo.runtime_thirty_days_later Demo.env
                Accounts.world w req "bob" [] _ _)))) _)).
    + vm_compute. reflexivity.
    + vm_compute. reflexivity.
    + vm_compute. discriminate.
Defined.

(* ===================================================================== *)
(** * Further properties of the worker *)
(* ===================================================================== *)

(** ** What each handler does to the world *)

Section Effects.

Context (rt : Runtime) (env : Env).

(** Sequencing after a computation that only reads. *)
Lemma bind_reads {A B} (m : M A) (k : A -> M B) (w : World)
    (Q : result B * World -> Prop) :
  snd (m w) = w ->
  (forall e, fst (m w) = Throw e -> Q (Throw e, w)) ->
  (forall a, fst (m w) = Return a -> Q (k a w)) ->
  Q (bind m k w).
Proof.
  unfold bind. destruct (m w) as [[a | e] w1]; cbn [fst snd]; intros -> Hthrow Hret.
  - exact (Hret a eq_refl).
  - exact (Hthrow e eq_refl).
Qed.

(** Every login is answered: by a refusal that leaves the world alone,
    or by the success response for the session just written. *)
Lemma handleLogin_outcome (req : Request) (w : World) :
  exists resp w',
    handleLogin rt req env w = (Return resp, w')
    /\ ((exists b st, resp = bad b env st /\ (st = 400 \/ st = 401 \/ st = 403) /\ w' = w)
        \/ (exists u roles,
              resp = logged_in env u (b64Random rt 24)
              /\ w' = snd (createSession rt env u roles w))).
Proof.
  set (Q := fun rw : result Response * World =>
              match rw with
              | (Return resp, w') =>
                  (exists b st,
                     resp = bad b env st /\ (st = 400 \/ st = 401 \/ st = 403) /\ w' = w)
                  \/ (exists u roles,
                        resp = logged_in env u (b64Random rt 24)
                        /\ w' = snd (createSession rt env u roles w))
              | (Throw _, w') => w' = w
              end).
  assert (Hbad : forall b st, st = 400 \/ st = 401 \/ st = 403 -> Q (ret (bad b env st) w))
    by (intros b st Hst; left; eauto).
  assert (Hattempt : Q (login_attempt rt req env w)).
  { unfold login_attempt.
    apply bind_reads; [apply or_throw_world | reflexivity | intros body _].
    apply bind_reads; [apply get_property_world | reflexivity | intros u _].
    apply bind_reads; [apply call_trim_world | reflexivity | intros username _].
    apply bind_reads; [apply get_property_world | reflexivity | intros p _].
    destruct (_ || _); [apply Hbad; auto |].
    apply bind_reads; [reflexivity | reflexivity | intros doc _].
    destruct doc as [doc |]; [| apply Hbad; auto].
    destruct (account_expired rt doc); [apply Hbad; auto |].
    apply bind_reads; [apply hashPasswordPBKDF2_world | reflexivity | intros derived _].
    destruct (hash_differs derived doc); [apply Hbad; auto |].
    unfold bind. rewrite createSession_unfold. right.
    exists username, (default [] (get_roles doc)). split; reflexivity. }
  unfold handleLogin, try_catch. subst Q.
  destruct (login_attempt rt req env w) as [[resp | e] w'].
  - exists resp, w'. split; [reflexivity | exact Hattempt].
  - cbn beta iota in Hattempt. subst w'. eexists _, _. split; [reflexivity |].
    left. eauto 10.
Qed.

Lemma handleLogout_unfold (req : Request) (w : World) :
  handleLogout rt req env w =
    match getCookie rt req SESSION_COOKIE w with
    | (Return token, _) => (Return (logged_out env), without_session token w)
    | (Throw e, _) => (Throw e, w)
    end.
Proof.
  unfold handleLogout, bind.
  pose proof (getCookie_world rt req SESSION_COOKIE w) as Hw.
  destruct (getCookie rt req SESSION_COOKIE w) as [[token | e] w1]; cbn [snd] in Hw; subst w1;
    [| reflexivity].
  destruct token as [[| c t] |]; reflexivity.
Qed.

(** [extractWithGPT] makes at most one call, and writes nothing. *)
Lemma extractWithGPT_world (imgs : list string) (docText : DocText) (w : World) :
  USERS (snd (extractWithGPT rt env imgs docText w)) = USERS w
  /\ (snd (extractWithGPT rt env imgs docText w) = w
      \/ exists text,
           docText = DocString text
           /\ upstream_calls (snd (extractWithGPT rt env imgs docText w))
              = upstream_calls w
                ++ [{| call_api_key := OPENAI_API_KEY env; call_images := imgs;
                       call_text := text |}]).
Proof.
  unfold extractWithGPT, bind, record_call.
  destruct docText as [text |]; cbn [ret raise throw fst snd]; [| split; [reflexivity | now left]].
  destruct (fetch_responses rt _); cbn [ret throw fst snd USERS upstream_calls];
    (split; [reflexivity | right; exists text; split; reflexivity]).
Qed.

(** [handleExtract] never writes to the store and makes at most one
    upstream call; what it returns is a handler response. *)
Lemma handleExtract_outcome (req : Request) (w : World) :
  USERS (snd (handleExtract rt req env w)) = USERS w
  /\ (upstream_calls (snd (handleExtract rt req env w)) = upstream_calls w
      \/ exists call,
           upstream_calls (snd (handleExtract rt req env w)) = upstream_calls w ++ [call])
  /\ (forall resp, fst (handleExtract rt req env w) = Return resp -> handler_response env resp).
Proof.
  rewrite handleExtract_unfold, guardExtract_unfold.
  assert (Hafter : forall mode hs,
            hs = None \/ (exists c, hs = Some {[ "Set-Cookie" := c ]}) ->
            USERS (snd (after_guard rt env req (Allowed mode hs) w)) = USERS w
            /\ (upstream_calls (snd (after_guard rt env req (Allowed mode hs) w))
                = upstream_calls w
                \/ exists call,
                     upstream_calls (snd (after_guard rt env req (Allowed mode hs) w))
                     = upstream_calls w ++ [call])
            /\ (forall resp, fst (after_guard rt env req (Allowed mode hs) w) = Return resp ->
                 handler_response env resp)).
  { intros mode hs Hhs. unfold after_guard.
    destruct (form_data req) as [form |];
      [| split; [reflexivity | split; [now left | discriminate]]].
    destruct (_ && _).
    { split; [reflexivity | split; [now left |]].
      intros resp [= <-]. left. eauto. }
    destruct (10 <? _).
    { split; [reflexivity | split; [now left |]].
      intros resp [= <-]. left. eauto. }
    match goal with
    | |- context [extractWithGPT rt env ?i ?d w] =>
        destruct (extractWithGPT_world i d w) as [Hkv Hcalls];
        destruct (extractWithGPT rt env i d w) as [[j | e] w'] eqn:Hrun
    end; cbn [fst snd] in *.
    - split; [exact Hkv | split].
      + destruct Hcalls as [-> | (text & _ & ->)]; [now left | right; eauto].
      + intros resp [= <-]. right.
        destruct Hhs as [-> | [c ->]]; [left | right]; eauto.
    - split; [exact Hkv | split; [| discriminate]].
      destruct Hcalls as [-> | (text & _ & ->)]; [now left | right; eauto]. }
  destruct (session_of rt env req w) as [[s |] | e].
  - apply Hafter. now left.
  - destruct (readTrialCookie rt req w) as [[used | e] w1];
      [| split; [reflexivity | split; [now left | discriminate]]].
    destruct (trialExceeded used).
    + split; [reflexivity | split; [now left |]].
      intros resp [= <-]. left. unfold trial_exhausted. eauto.
    + apply Hafter. right. eauto.
  - split; [reflexivity | split; [now left | discriminate]].
Qed.

Lemma handler_response_cors (resp : Response) : handler_response env resp -> has_cors env resp.
Proof.
  intros [(b & st & ->) | [(j & ->) | (j & c & ->)]]; vm_compute; repeat split; reflexivity.
Qed.

End Effects.

(** ** The router *)

Section Router.

Context (rt : Runtime) (env : Env).

(** The router by cases: what is not one of the three routes is answered
    on the spot, a route is run inside the [try]. *)
Lemma fetch_routes (req : Request) (w : World) :
  (routed req = false
   /\ exists st b, fetch rt req env w
                   = (Return {| status := st; headers := cors env; body := b |}, w)
                   /\ (st = 204 \/ st = 405))
  \/ (routed req = false
      /\ fetch rt req env w = (Return (bad (error_body "not_found") env 404), w))
  \/ (method req = "POST"
      /\ exists handler,
           ((pathname req = "/api/login" /\ handler = handleLogin rt req env)
            \/ (pathname req = "/api/logout" /\ handler = handleLogout rt req env)
            \/ (pathname req = "/api/extract" /\ handler = handleExtract rt req env))
           /\ fetch rt req env w
              = match handler w with
                | (Return resp, w') => (Return resp, w')
                | (Throw e, w') => (Return (server_error env e), w')
                end).
Proof.
  unfold fetch, routed, try_catch.
  destruct (String.eqb_spec (method req) "OPTIONS") as [Hm | Hm].
  { left. rewrite Hm. split; [reflexivity |]. eexists _, _. split; [reflexivity | now left]. }
  destruct (String.eqb_spec (pathname req) "/") as [Hp | Hp].
  { left. rewrite Hp. split; [apply andb_false_r |].
    eexists _, _. split; [reflexivity | now right]. }
  destruct (String.eqb_spec (method req) "POST") as [Hpost | Hpost].
  - rewrite !andb_true_r, andb_true_l.
    destruct (String.eqb_spec (pathname req) "/api/login") as [Hl | Hl].
    { right; right. split; [exact Hpost |]. eexists. split; [left; split; [exact Hl | reflexivity] |].
      destruct (handleLogin rt req env w) as [[resp | e] w']; reflexivity. }
    destruct (String.eqb_spec (pathname req) "/api/logout") as [Ho | Ho].
    { right; right. split; [exact Hpost |].
      eexists. split; [right; left; split; [exact Ho | reflexivity] |].
      destruct (handleLogout rt req env w) as [[resp | e] w']; reflexivity. }
    destruct (String.eqb_spec (pathname req) "/api/extract") as [He | He].
    { right; right. split; [exact Hpost |].
      eexists. split; [right; right; split; [exact He | reflexivity] |].
      destruct (handleExtract rt req env w) as [[resp | e] w']; reflexivity. }
    right; left. split; reflexivity.
  - rewrite !andb_false_r. right; left. split; reflexivity.
Qed.

(** X1.  The router answers every request, whatever the handlers do: it
    never throws, and every response it returns, errors included, carries
    the cross-origin headers of [cors(env)] with the configured origin. *)
Theorem fetch_always_answers_with_cors (req : Request) (w : World) :
  exists resp w',
    fetch rt req env w = (Return resp, w') /\ has_cors env resp.
Proof.
  assert (Hbad : forall b st, has_cors env (bad b env st))
    by (intros; apply handler_response_cors; left; eauto).
  destruct (fetch_routes req w)
    as [(_ & st & b & -> & _) | [(_ & ->) | (_ & handler & Hroute & ->)]].
  - eexists _, _. split; [reflexivity |]. vm_compute. repeat split; reflexivity.
  - eexists _, _. split; [reflexivity | apply Hbad].
  - destruct Hroute as [(_ & ->) | [(_ & ->) | (_ & ->)]].
    + destruct (handleLogin_outcome rt env req w) as (resp & w' & -> & Hshape).
      exists resp, w'. split; [reflexivity |].
      destruct Hshape as [(b & st & -> & _ & _) | (u & roles & -> & _)]; [apply Hbad |].
      apply handler_response_cors. right; right. eexists _, _. reflexivity.
    + rewrite handleLogout_unfold.
      destruct (getCookie rt req SESSION_COOKIE w) as [[token | e] w1].
      * eexists _, _. split; [reflexivity |].
        apply handler_response_cors. right; right. eexists _, _. reflexivity.
      * eexists _, _. split; [reflexivity | apply Hbad].
    + destruct (handleExtract_outcome rt env req w) as (_ & _ & Hshape).
      destruct (handleExtract rt req env w) as [[resp | e] w'].
      * exists resp, w'. split; [reflexivity |].
        apply handler_response_cors, Hshape. reflexivity.
      * eexists _, _. split; [reflexivity | apply Hbad].
Qed.

Lemma session_key_prefix (t : string) :
  strip_prefix SESSION_PREFIX (SESSION_PREFIX +:+ t) = Some t.
Proof. reflexivity. Qed.

(** X2.  No request touches a key outside the [session:] prefix: the
    credential records under [user:] are never written, changed or
    deleted by the worker. *)
Theorem fetch_keeps_other_keys (req : Request) (w : World) (key : string) :
  strip_prefix SESSION_PREFIX key = None ->
  USERS (snd (fetch rt req env w)) !! key = USERS w !! key.
Proof.
  intros Hkey.
  assert (Hne : forall t, SESSION_PREFIX +:+ t <> key).
  { intros t <-. rewrite session_key_prefix in Hkey. discriminate. }
  destruct (fetch_routes req w)
    as [(_ & st & b & -> & _) | [(_ & ->) | (_ & handler & Hroute & ->)]];
    [reflexivity | reflexivity |].
  destruct Hroute as [(_ & ->) | [(_ & ->) | (_ & ->)]].
  - destruct (handleLogin_outcome rt env req w) as (resp & w' & -> & Hshape). cbn [snd].
    destruct Hshape as [(b & st & _ & _ & ->) | (u & roles & _ & ->)]; [reflexivity |].
    rewrite createSession_unfold. cbn [snd USERS].
    apply lookup_insert_ne, Hne.
  - rewrite handleLogout_unfold.
    destruct (getCookie rt req SESSION_COOKIE w) as [[token | e] w1]; cbn [snd];
      [| reflexivity].
    destruct token as [[| c t] |]; cbn [without_session USERS]; [reflexivity | | reflexivity].
    apply lookup_delete_ne, Hne.
  - destruct (handleExtract_outcome rt env req w) as (Hkv & _ & _).
    destruct (handleExtract rt req env w) as [[resp | e] w']; cbn [snd] in *; now rewrite Hkv.
Qed.

(** X3.  Only a [POST] to one of the three API paths runs a handler.
    Every other request changes nothing and is answered at once: an
    [OPTIONS] request, whatever its path, with 204 and no body; any other
    request for the root path with 405 and the text "Use POST
    /api/extract"; and anything else with 404 [not_found]. *)
Theorem fetch_unrouted_is_inert (req : Request) (w : World) :
  routed req = false ->
  exists resp,
    fetch rt req env w = (Return resp, w)
    /\ (method req = "OPTIONS" -> status resp = 204 /\ body resp = NoBody)
    /\ (method req <> "OPTIONS" -> pathname req = "/" ->
        status resp = 405 /\ body resp = Text "Use POST /api/extract")
    /\ (method req <> "OPTIONS" -> pathname req <> "/" ->
        resp = bad (error_body "not_found") env 404).
Proof.
  intros Hunrouted.
  unfold fetch.
  destruct (String.eqb_spec (method req) "OPTIONS") as [Hm | Hm].
  { eexists. split; [reflexivity |]. repeat split; try contradiction. }
  destruct (String.eqb_spec (pathname req) "/") as [Hp | Hp].
  { eexists. split; [reflexivity |].
    split; [intros Hm'; contradiction |]. split; [| intros _ Hp'; contradiction].
    intros _ _. split; reflexivity. }
  assert (H404 : try_catch
                   (if String.eqb (pathname req) "/api/login" && String.eqb (method req) "POST"
                    then handleLogin rt req env
                    else if String.eqb (pathname req) "/api/logout"
                            && String.eqb (method req) "POST"
                    then handleLogout rt req env
                    else if String.eqb (pathname req) "/api/extract"
                            && String.eqb (method req) "POST"
                    then handleExtract rt req env
                    else ret (bad (error_body "not_found") env 404))
                   (fun err =>
                      ret (bad (JObject [("error", JString "server_error");
                                         ("detail", JString (error_detail err))]) env 500)) w
                 = (Return (bad (error_body "not_found") env 404), w)).
  { unfold routed in Hunrouted. unfold try_catch.
    destruct (String.eqb (method req) "POST");
      [rewrite andb_true_l in Hunrouted; rewrite !andb_true_r
      | rewrite !andb_false_r; reflexivity].
    apply orb_false_elim in Hunrouted as [Hunrouted He].
    apply orb_false_elim in Hunrouted as [Hl Ho]. rewrite Hl, Ho, He. reflexivity. }
  rewrite H404. eexists. split; [reflexivity |].
  split; [intros Hm'; contradiction |]. split; [intros _ Hp'; contradiction |].
  intros _ _. reflexivity.
Qed.

(** X4.  A request reaches the upstream API at most once, and only as a
    [POST /api/extract] whose guard let it in: the call then carries the
    configured API key and the string images of the form, at most ten of
    them, and the store is left as it was. *)
Theorem fetch_calls_upstream_at_most_once (req : Request) (w : World) :
  upstream_calls (snd (fetch rt req env w)) = upstream_calls w
  \/ (method req = "POST" /\ pathname req = "/api/extract"
      /\ USERS (snd (fetch rt req env w)) = USERS w
      /\ exists form text,
           form_data req = Some form
           /\ Z.of_nat (List.length (form_images form)) <= 10
           /\ upstream_calls (snd (fetch rt req env w))
              = upstream_calls w
                ++ [{| call_api_key := OPENAI_API_KEY env;
                       call_images := form_images form;
                       call_text := text |}]).
Proof.
  destruct (fetch_routes req w)
    as [(_ & st & b & -> & _) | [(_ & ->) | (Hpost & handler & Hroute & ->)]];
    [now left | now left |].
  destruct Hroute as [(_ & ->) | [(_ & ->) | (Hpath & ->)]].
  - left. destruct (handleLogin_outcome rt env req w) as (resp & w' & -> & Hshape). cbn [snd].
    destruct Hshape as [(b & st & _ & _ & ->) | (u & roles & _ & ->)]; [reflexivity |].
    rewrite createSession_unfold. reflexivity.
  - left. rewrite handleLogout_unfold.
    destruct (getCookie rt req SESSION_COOKIE w) as [[token | e] w1]; cbn [snd];
      [| reflexivity].
    destruct token as [[| c t] |]; reflexivity.
  - assert (Hsame : forall (r : result Response * World),
              snd match r with
                  | (Return resp, w') => (Return resp, w')
                  | (Throw e, w') => (Return (server_error env e), w')
                  end = snd r) by (intros [[resp | e] w']; reflexivity).
    rewrite Hsame. clear Hsame.
    rewrite handleExtract_unfold, guardExtract_unfold.
    assert (Hafter : forall guard,
              upstream_calls (snd (after_guard rt env req guard w)) = upstream_calls w
              \/ (USERS (snd (after_guard rt env req guard w)) = USERS w
                  /\ exists form text,
                       form_data req = Some form
                       /\ Z.of_nat (List.length (form_images form)) <= 10
                       /\ upstream_calls (snd (after_guard rt env req guard w))
                          = upstream_calls w
                            ++ [{| call_api_key := OPENAI_API_KEY env;
                                   call_images := form_images form;
                                   call_text := text |}])).
    { intros guard. unfold after_guard.
      destruct (form_data req) as [form |]; [| now left].
      destruct (_ && _); [now left |].
      destruct (Z.ltb_spec 10 (Z.of_nat (List.length (form_images form)))); [now left |].
      destruct guard as [mode hs | error]; [| now left].
      match goal with
      | |- context [extractWithGPT rt env ?i ?d w] =>
          destruct (extractWithGPT_world rt env i d w) as [Hkv Hcalls];
          destruct (extractWithGPT rt env i d w) as [[j | e] w'] eqn:Hrun
      end; cbn [fst snd] in *;
        (destruct Hcalls as [-> | (text & _ & Hcall)];
         [now left | right; split; [exact Hkv |]; exists form, text; auto]). }
    destruct (session_of rt env req w) as [[s |] | e]; [| | now left].
    + destruct (Hafter (Allowed (session (sess_username s) (default [] (sess_roles s))) None))
        as [Hnone | Hcall]; [now left | right; auto].
    + destruct (readTrialCookie rt req w) as [[used | e] w1]; [| now left].
      destruct (trialExceeded used); [now left |].
      match goal with
      | |- context [after_guard rt env req ?g w] =>
          destruct (Hafter g) as [Hnone | Hcall]; [now left | right; auto]
      end.
Qed.

End Router.

(** ** Cookies, written and read back *)

Lemma string_append_assoc (a b c : string) : (a +:+ b) +:+ c = a +:+ (b +:+ c).
Proof. induction a as [| x a IH]; [reflexivity |]. rewrite !append_String, IH. reflexivity. Qed.

Lemma append_Empty_r (a : string) : a +:+ EmptyString = a.
Proof. induction a as [| x a IH]; [reflexivity |]. rewrite append_String, IH. reflexivity. Qed.

Lemma all_chars_app (P : ascii -> bool) (a b : string) :
  all_chars P (a +:+ b) = all_chars P a && all_chars P b.
Proof.
  induction a as [| x a IH]; [reflexivity |].
  rewrite append_String. cbn [all_chars]. rewrite IH. apply andb_assoc.
Qed.

Lemma all_chars_impl (P Q : ascii -> bool) (s : string) :
  (forall c, P c = true -> Q c = true) -> all_chars P s = true -> all_chars Q s = true.
Proof.
  intros HPQ. induction s as [| c r IH]; [reflexivity |].
  cbn [all_chars]. intros [Hc Hr]%andb_prop. rewrite (HPQ c Hc), (IH Hr). reflexivity.
Qed.

Lemma encode_char_cookie_octets (c : ascii) :
  all_chars cookie_octet (URI.encode (String c EmptyString)) = true.
Proof. destruct c as [[] [] [] [] [] [] [] []]; vm_compute; reflexivity. Qed.

Lemma encode_cookie_octets (val : string) : all_chars cookie_octet (URI.encode val) = true.
Proof.
  induction val as [| c r IH]; [reflexivity |].
  rewrite uri_encode_cons, all_chars_app, encode_char_cookie_octets, IH. reflexivity.
Qed.

Lemma cookie_octet_not_semicolon (c : ascii) : cookie_octet c = true -> not_semicolon c = true.
Proof. destruct c as [[] [] [] [] [] [] [] []]; vm_compute; intros H; congruence. Qed.

Lemma encode_no_semicolon (val : string) : all_chars not_semicolon (URI.encode val) = true.
Proof. exact (all_chars_impl _ _ _ cookie_octet_not_semicolon (encode_cookie_octets val)). Qed.

Lemma until_semicolon_app (a rest : string) :
  all_chars not_semicolon a = true ->
  rest = EmptyString \/ (exists r, rest = String ";" r) ->
  until_semicolon (a +:+ rest) = a.
Proof.
  intros Ha Hrest. induction a as [| c a IH].
  - rewrite append_Empty. destruct Hrest as [-> | [r ->]]; reflexivity.
  - cbn [all_chars] in Ha. apply andb_prop in Ha as [Hc Ha].
    rewrite append_String. cbn [until_semicolon].
    unfold not_semicolon in Hc. apply negb_true_iff in Hc. rewrite Hc, (IH Ha). reflexivity.
Qed.

Lemma strip_prefix_app (p s : string) : strip_prefix p (p +:+ s) = Some s.
Proof.
  induction p as [| c p IH]; [destruct s; reflexivity |].
  rewrite append_String. cbn [strip_prefix]. rewrite Ascii.eqb_refl. exact IH.
Qed.

(** The scan for [; name=] passes over a run without semicolon. *)
Lemma match_after_separator_skip (name a y : string) :
  all_chars not_semicolon a = true ->
  match_after_separator name (a +:+ "; " +:+ name +:+ "=" +:+ y) = Some (until_semicolon y).
Proof.
  intros Ha. induction a as [| c a IH].
  - rewrite append_Empty.
    assert (Hhere : strip_prefix ("; " +:+ name +:+ "=") ("; " +:+ name +:+ "=" +:+ y) = Some y).
    { rewrite <- (strip_prefix_app ("; " +:+ name +:+ "=") y) at 1.
      f_equal. rewrite !string_append_assoc. reflexivity. }
    change ("; " +:+ name +:+ "=" +:+ y) with (String ";" (" " +:+ name +:+ "=" +:+ y)) in *.
    cbn [match_after_separator]. rewrite Hhere. reflexivity.
  - cbn [all_chars] in Ha. apply andb_prop in Ha as [Hc Ha].
    rewrite append_String. cbn [match_after_separator].
    change ("; " +:+ name +:+ "=") with (String ";" (" " +:+ name +:+ "=")).
    cbn [strip_prefix].
    unfold not_semicolon in Hc. apply negb_true_iff in Hc.
    rewrite Ascii.eqb_sym, Hc. exact (IH Ha).
Qed.

Lemma uri_roundtrip_ascii (s : string) :
  all_chars is_ascii s = true ->
  forall fuel, (String.length (URI.encode s) <= fuel)%nat ->
               URI.decode_fuel fuel (URI.encode s) = Some s.
Proof.
  induction s as [| c r IH]; intros Hall fuel Hlen.
  - destruct fuel; reflexivity.
  - cbn [all_chars] in Hall. apply andb_prop in Hall as [Hc Hr].
    specialize (IH Hr). revert Hlen.
    destruct c as [[] [] [] [] [] [] [] []]; try discriminate Hc;
      escape_head; cbn [String.length]; intros Hlen;
      (destruct fuel as [| fuel]; [lia |]);
      simpl; rewrite IH by lia; reflexivity.
Qed.

Lemma uri_decode_encode (s : string) :
  all_chars is_ascii s = true -> URI.decode (URI.encode s) = Some s.
Proof. intros Hall. unfold URI.decode. apply uri_roundtrip_ascii; [exact Hall | lia]. Qed.

Section Cookies.

Context (rt : Runtime).

(** The pair at the head of the header. *)
Lemma getCookie_first (req : Request) (w : World) (name val rest : string) :
  all_chars is_ascii val = true ->
  rest = EmptyString \/ (exists r, rest = String ";" r) ->
  cookie_header req = Some (cookie_pair name val +:+ rest) ->
  getCookie rt req name w = (Return (Some val), w).
Proof.
  intros Hval Hrest Hheader. rewrite getCookie_unfold, Hheader.
  cbn [stdpp.option.from_option id default]. unfold cookie_match, cookie_pair.
  replace ((name +:+ "=" +:+ URI.encode val) +:+ rest)
    with ((name +:+ "=") +:+ (URI.encode val +:+ rest))
    by (rewrite !string_append_assoc; reflexivity).
  rewrite strip_prefix_app, (until_semicolon_app _ _ (encode_no_semicolon val) Hrest).
  rewrite (uri_decode_encode val Hval). reflexivity.
Qed.

(** The pair after another cookie that has no semicolon of its own and
    does not start with [name=]. *)
Lemma getCookie_second (req : Request) (w : World) (name val other rest : string) :
  all_chars is_ascii val = true ->
  rest = EmptyString \/ (exists r, rest = String ";" r) ->
  all_chars not_semicolon other = true ->
  (forall tail, strip_prefix (name +:+ "=") (other +:+ tail) = None) ->
  cookie_header req = Some (other +:+ "; " +:+ cookie_pair name val +:+ rest) ->
  getCookie rt req name w = (Return (Some val), w).
Proof.
  intros Hval Hrest Hother Hfirst Hheader. rewrite getCookie_unfold, Hheader.
  cbn [stdpp.option.from_option id default]. unfold cookie_match, cookie_pair.
  rewrite Hfirst.
  replace (other +:+ "; " +:+ (name +:+ "=" +:+ URI.encode val) +:+ rest)
    with (other +:+ "; " +:+ name +:+ "=" +:+ (URI.encode val +:+ rest))
    by (rewrite !string_append_assoc; reflexivity).
  rewrite (match_after_separator_skip _ _ _ Hother).
  rewrite (until_semicolon_app _ _ (encode_no_semicolon val) Hrest).
  rewrite (uri_decode_encode val Hval). reflexivity.
Qed.

(** X5.  Whatever string it is given, [setCookie] writes the pair
    [name=value] followed by a semicolon and the attributes, and the
    written value consists of RFC 6265 cookie octets only: no semicolon,
    comma, space, quote or control character of the value survives the
    escaping, so a value cannot end its pair or add an attribute. *)
Theorem setCookie_writes_one_pair (name val : string) (opts : CookieOptions) :
  all_chars cookie_octet (URI.encode val) = true
  /\ exists attrs,
       setCookie name val opts = cookie_pair name val +:+ "; " +:+ attrs
       /\ until_semicolon (URI.encode val +:+ "; " +:+ attrs) = URI.encode val.
Proof.
  split; [apply encode_cookie_octets |].
  assert (Hcut : forall attrs,
            until_semicolon (URI.encode val +:+ "; " +:+ attrs) = URI.encode val).
  { intros attrs. apply until_semicolon_app; [apply encode_no_semicolon |].
    right. eexists. reflexivity. }
  unfold setCookie, cookie_pair.
  destruct (maxAge opts) as [a |], (httpOnly opts), (secure opts) as [[] |];
    cbn [app join]; eexists; (split; [reflexivity | apply Hcut]).
Qed.

(** X6.  The two cookies of the worker are read back independently:
    when the [Cookie] header carries the session pair and the trial pair
    as [setCookie] wrote them, in either order, [getCookie] returns the
    value each was written with. *)
Theorem cookies_read_back_in_either_order (req : Request) (w : World) (token count : string) :
  all_chars is_ascii token = true ->
  all_chars is_ascii count = true ->
  cookie_header req
    = Some (cookie_pair SESSION_COOKIE token +:+ "; " +:+ cookie_pair TRIAL_COOKIE count)
  \/ cookie_header req
     = Some (cookie_pair TRIAL_COOKIE count +:+ "; " +:+ cookie_pair SESSION_COOKIE token) ->
  getCookie rt req SESSION_COOKIE w = (Return (Some token), w)
  /\ getCookie rt req TRIAL_COOKIE w = (Return (Some count), w).
Proof.
  intros Htoken Hcount [Hheader | Hheader]; split.
  - apply (getCookie_first req w SESSION_COOKIE token
             ("; " +:+ cookie_pair TRIAL_COOKIE count) Htoken);
      [right; eexists; reflexivity | exact Hheader].
  - apply (getCookie_second req w TRIAL_COOKIE count (cookie_pair SESSION_COOKIE token)
             EmptyString Hcount).
    + now left.
    + unfold cookie_pair. rewrite !all_chars_app, encode_no_semicolon. reflexivity.
    + reflexivity.
    + rewrite Hheader, append_Empty_r. reflexivity.
  - apply (getCookie_second req w SESSION_COOKIE token (cookie_pair TRIAL_COOKIE count)
             EmptyString Htoken).
    + now left.
    + unfold cookie_pair. rewrite !all_chars_app, encode_no_semicolon. reflexivity.
    + reflexivity.
    + rewrite Hheader, append_Empty_r. reflexivity.
  - apply (getCookie_first req w TRIAL_COOKIE count
             ("; " +:+ cookie_pair SESSION_COOKIE token) Hcount);
      [right; eexists; reflexivity | exact Hheader].
Qed.

End Cookies.

(** ** Logout *)

Section Logout.

Context (rt : Runtime) (env : Env).

(** X7.  Logout revokes the session on the server, not only in the
    browser: for a request presenting the token [t], the key
    [session:t] is deleted and nothing else changes, the response clears
    the cookie, and from then on a request presenting [t] finds no
    session, at any instant. *)
Theorem logout_revokes_session (req : Request) (w : World) (t : string) :
  t <> EmptyString ->
  getCookie rt req SESSION_COOKIE w = (Return (Some t), w) ->
  exists w',
    handleLogout rt req env w = (Return (logged_out env), w')
    /\ USERS w' = delete (SESSION_PREFIX +:+ t) (USERS w)
    /\ upstream_calls w' = upstream_calls w
    /\ headers (logged_out env) !! "Set-Cookie"
       = Some "sess=; Max-Age=0; Path=/; HttpOnly; SameSite=None; Secure"
    /\ forall (rt' : Runtime) (req' : Request),
         getCookie rt' req' SESSION_COOKIE w' = (Return (Some t), w') ->
         session_of rt' env req' w' = Return None.
Proof.
  intros Ht Hcookie. rewrite handleLogout_unfold, Hcookie.
  destruct t as [| c t]; [congruence |]. cbn [without_session].
  eexists. split; [reflexivity |]. cbn [USERS upstream_calls].
  repeat split.
  intros rt' req' Hcookie'. unfold session_of. rewrite Hcookie', getSession_unfold.
  cbn [USERS]. rewrite lookup_delete_eq. reflexivity.
Qed.

(** X8.  Logging out twice is logging out once: the second run of
    [handleLogout] on the same request returns the same response and
    leaves the world of the first run as it is. *)
Theorem logout_is_idempotent (req : Request) (w : World) :
  handleLogout rt req env (snd (handleLogout rt req env w))
  = (fst (handleLogout rt req env w), snd (handleLogout rt req env w)).
Proof.
  rewrite !handleLogout_unfold.
  rewrite !getCookie_unfold.
  destruct (cookie_match _ _) as [m |]; [| reflexivity].
  destruct (URI.decode m) as [[| c t] |]; cbn [fst snd without_session]; try reflexivity.
  cbn [USERS upstream_calls]. rewrite delete_delete_eq. reflexivity.
Qed.

(** X9.  A session cookie with a malformed percent escape is not
    treated as an absent cookie: [decodeURIComponent] throws, neither
    handler catches, and both [POST /api/logout] and [POST /api/extract]
    are answered by the router's 500 [server_error] with the engine's
    message as detail; nothing is deleted and no call is made. *)
Theorem malformed_session_cookie_is_500 (req : Request) (w : World) (m : string) :
  method req = "POST" ->
  pathname req = "/api/logout" \/ pathname req = "/api/extract" ->
  cookie_match SESSION_COOKIE (default EmptyString (cookie_header req)) = Some m ->
  URI.decode m = None ->
  fetch rt req env w
  = (Return (bad (JObject [("error", JString "server_error");
                           ("detail",
                            JString (error_detail
                                       (Error "URIError" (engine_message rt MalformedURI))))])
               env 500), w).
Proof.
  intros Hpost Hpath Hmatch Hdecode.
  assert (Hcookie : getCookie rt req SESSION_COOKIE w
                    = (Throw (Error "URIError" (engine_message rt MalformedURI)), w))
    by (rewrite getCookie_unfold, Hmatch, Hdecode; reflexivity).
  unfold fetch, try_catch. rewrite Hpost.
  destruct Hpath as [Hpath | Hpath]; rewrite Hpath; cbn [String.eqb Ascii.eqb Bool.eqb andb].
  - rewrite handleLogout_unfold, Hcookie. reflexivity.
  - rewrite handleExtract_unfold, guardExtract_unfold. unfold session_of.
    rewrite Hcookie. reflexivity.
Qed.

End Logout.

(** ** Login *)

Section LoginEdges.

Context (rt : Runtime) (env : Env).

Lemma or_empty_truthy (j : json) : truthy (Some j) = true -> or_empty (Some j) = j.
Proof. intros H. unfold or_empty. rewrite H. reflexivity. Qed.

Lemma or_empty_falsy (v : option json) : truthy v = false -> or_empty v = JString EmptyString.
Proof. intros H. destruct v as [j |]; [| reflexivity]. unfold or_empty. rewrite H. reflexivity. Qed.

Lemma trim_Empty : trim EmptyString = EmptyString.
Proof. reflexivity. Qed.

Lemma truthy_string (s : string) : truthy (Some (JString s)) = negb (String.eqb s "").
Proof. reflexivity. Qed.

(** [handleLogin] on a body that gets as far as the store. *)
Lemma handleLogin_object (req : Request) (w : World) (u : string) (password : json) :
  login_body req u password ->
  handleLogin rt req env w =
    match USERS w !! ("user:" +:+ trim u) with
    | None => (Return (bad (error_body "invalid_credentials") env 401), w)
    | Some entry =>
        let doc := kv_document entry in
        if account_expired rt doc then
          (Return (bad (error_body "account_expired") env 403), w)
        else
          match hashPasswordPBKDF2 rt password (get_salt doc) (get_iterations doc) w with
          | (Throw e, _) => (Return (bad_request env e), w)
          | (Return derived, _) =>
              if hash_differs derived doc then
                (Return (bad (error_body "invalid_credentials") env 401), w)
              else
                (Return (logged_in env (trim u) (b64Random rt 24)),
                 snd (createSession rt env (trim u) (default [] (get_roles doc)) w))
          end
    end.
Proof.
  intros (fields & Hbody & Hu & Hp & Hname & Hpw).
  unfold handleLogin, login_attempt, try_catch, bind. rewrite Hbody.
  cbn [or_throw ret get_property].
  rewrite Hu, Hp.
  assert (Hu' : or_empty (Some (JString u)) = JString u).
  { apply or_empty_truthy. destruct u; [exfalso; apply Hname; reflexivity | reflexivity]. }
  rewrite Hu', (or_empty_truthy password Hpw). cbn [call_trim ret].
  destruct (String.eqb_spec (trim u) "") as [? | _]; [congruence |].
  rewrite Hpw. cbn [negb orb].
  unfold kv_get. cbn [fst snd].
  destruct (USERS w !! ("user:" +:+ trim u)) as [entry |]; [| reflexivity].
  cbn [fmap option_fmap option_map].
  destruct (account_expired rt (kv_document entry)); [reflexivity |].
  pose proof (hashPasswordPBKDF2_world rt password (get_salt (kv_document entry))
                (get_iterations (kv_document entry)) w) as Hw.
  destruct (hashPasswordPBKDF2 _ _ _ _ _) as [[derived | e] w1]; cbn [snd] in Hw; subst w1;
    [| reflexivity].
  destruct (hash_differs derived (kv_document entry)); reflexivity.
Qed.

(** The password enters [hashPasswordPBKDF2] through [TextEncoder], that
    is through its string form. *)
Lemma hashPasswordPBKDF2_text (p1 p2 : json) (salt : option string) (n : option Z) (w : World) :
  ToString p1 = ToString p2 ->
  hashPasswordPBKDF2 rt p1 salt n w = hashPasswordPBKDF2 rt p2 salt n w.
Proof. intros H. unfold hashPasswordPBKDF2. rewrite H. reflexivity. Qed.

(** X10.  An account whose [expires] date lies before [Date.now()] is
    refused with 403 [account_expired] before the password is looked at:
    the answer is the same for every password, right or wrong, and
    whatever the salt, hash and iterations fields hold. *)
Theorem login_expired_account_is_403 (req : Request) (w : World) (u : string)
    (password : json) (entry : KVEntry) (expires : string) (t : Z) :
  login_body req u password ->
  USERS w !! ("user:" +:+ trim u) = Some entry ->
  get_expires (kv_document entry) = Some expires ->
  Date_parse rt expires = Finite t ->
  expires <> EmptyString ->
  t < Date_now rt ->
  handleLogin rt req env w = (Return (bad (error_body "account_expired") env 403), w).
Proof.
  intros Hbody Hentry Hexpires Hparse Hnonempty Hpast.
  rewrite (handleLogin_object req w u password Hbody), Hentry. cbn zeta.
  unfold account_expired. rewrite Hexpires.
  destruct expires as [| c r]; [congruence |]. rewrite Hparse.
  destruct (Z.ltb_spec t (Date_now rt)); [reflexivity | lia].
Qed.

(** X11.  A login whose username is missing, falsy or blank once
    trimmed, or whose password is missing or falsy, is answered 400
    "username and password are required" without a lookup in the
    store. *)
Theorem login_blank_credentials_is_400 (req : Request) (w : World)
    (fields : list (string * json)) :
  json_body req = Some (JObject fields) ->
  truthy (assoc "username" fields) = false
  \/ (exists s, assoc "username" fields = Some (JString s)
                /\ (trim s = EmptyString \/ truthy (assoc "password" fields) = false)) ->
  handleLogin rt req env w
  = (Return (bad (error_body "username and password are required") env 400), w).
Proof.
  intros Hbody Hblank.
  unfold handleLogin, login_attempt, try_catch, bind. rewrite Hbody.
  cbn [or_throw ret get_property].
  destruct Hblank as [Hu | (s & Hu & Hblank)].
  - rewrite (or_empty_falsy _ Hu). cbn [call_trim ret]. rewrite trim_Empty. reflexivity.
  - rewrite Hu.
    assert (Hname : exists x, or_empty (Some (JString s)) = JString x
                              /\ (trim s = EmptyString -> trim x = EmptyString)).
    { destruct s as [| c s]; [exists EmptyString | exists (String c s)]; split; auto. }
    destruct Hname as (x & -> & Hx). cbn [call_trim ret].
    destruct Hblank as [Hs | Hp].
    + rewrite (Hx Hs). reflexivity.
    + rewrite (or_empty_falsy _ Hp). rewrite truthy_string. cbn [String.eqb negb].
      rewrite orb_true_r. reflexivity.
Qed.

(** X12.  The outcome of a login depends on the request only through
    the trimmed username and the string form of the password: white space
    around the name is ignored, and a password sent as a JSON number,
    boolean or array is the password its [ToString] spells. *)
Theorem login_depends_on_trimmed_name_and_password_text (req1 req2 : Request) (w : World)
    (u1 u2 : string) (p1 p2 : json) :
  login_body req1 u1 p1 ->
  login_body req2 u2 p2 ->
  trim u1 = trim u2 ->
  ToString p1 = ToString p2 ->
  handleLogin rt req1 env w = handleLogin rt req2 env w.
Proof.
  intros Hbody1 Hbody2 Hname Htext.
  rewrite (handleLogin_object req1 w u1 p1 Hbody1), (handleLogin_object req2 w u2 p2 Hbody2).
  rewrite Hname.
  destruct (USERS w !! ("user:" +:+ trim u2)) as [entry |]; [| reflexivity].
  cbn zeta. rewrite (hashPasswordPBKDF2_text p1 p2 _ _ w Htext). reflexivity.
Qed.

End LoginEdges.

(** ** What a successful login proves *)

Section LoginSound.

Context (rt : Runtime) (env : Env).

Lemma or_throw_inv {A} (k : engine_error) (o : option A) (w : World) (a : A) :
  fst (or_throw rt k o w) = Return a -> o = Some a.
Proof. destruct o as [x |]; cbn; intros H; [congruence | discriminate H]. Qed.

Lemma get_property_inv (body : json) (name : string) (w : World) (v : option json) :
  fst (get_property rt body name w) = Return v ->
  (exists fields, body = JObject fields /\ v = assoc name fields) \/ v = None.
Proof.
  destruct body; cbn; intros H; try (right; congruence).
  left. eexists. split; [reflexivity | congruence].
Qed.

Lemma call_trim_inv (v : json) (w : World) (s : string) :
  fst (call_trim rt v w) = Return s -> exists x, v = JString x /\ s = trim x.
Proof. destruct v; cbn; intros H; try discriminate H. eexists. split; [reflexivity | congruence]. Qed.

Lemma hashPasswordPBKDF2_inv (password : json) (salt64 : option string) (iterations : option Z)
    (w : World) (derived : string) :
  fst (hashPasswordPBKDF2 rt password salt64 iterations w) = Return derived ->
  exists salt pw n,
    Base64.decode (default "undefined" salt64) = Some salt
    /\ ToString password = Some pw
    /\ iterations = Some n /\ 1 <= n <= 4294967295 /\ iterations_supported rt n
    /\ derived = Base64.encode (Sha256.pbkdf2 (bytes_of_string pw) salt n).
Proof.
  unfold hashPasswordPBKDF2, bind, or_throw, pbkdf2_iterations, iterations_supported.
  destruct (Base64.decode _) as [salt |]; [| discriminate].
  destruct (ToString password) as [pw |]; [| discriminate].
  cbn [ret fst snd].
  destruct iterations as [n |]; [| discriminate].
  destruct (Z.ltb_spec n 0); [discriminate |].
  destruct (Z.ltb_spec 4294967295 n); [discriminate |].
  destruct (Z.eqb_spec n 0); [discriminate |].
  cbn [orb].
  destruct (pbkdf2_max_iterations rt) as [cap |].
  - destruct (Z.ltb_spec cap n); [discriminate |]. cbn. intros [= <-].
    exists salt, pw, n. repeat split; try reflexivity; lia.
  - cbn. intros [= <-]. exists salt, pw, n. repeat split; try reflexivity; lia.
Qed.

(** The inversion of a 200: everything the [try] block checked. *)
Lemma handleLogin_success_inv (req : Request) (w w' : World) (resp : Response) :
  handleLogin rt req env w = (Return resp, w') ->
  status resp = 200 ->
  exists u password pw entry salt n,
    login_body req u password
    /\ ToString password = Some pw
    /\ USERS w !! ("user:" +:+ trim u) = Some entry
    /\ account_expired rt (kv_document entry) = false
    /\ Base64.decode (default "undefined" (get_salt (kv_document entry))) = Some salt
    /\ get_iterations (kv_document entry) = Some n
    /\ 1 <= n <= 4294967295 /\ iterations_supported rt n
    /\ get_hash (kv_document entry)
       = Some (Base64.encode (Sha256.pbkdf2 (bytes_of_string pw) salt n))
    /\ resp = logged_in env (trim u) (b64Random rt 24)
    /\ w' = snd (createSession rt env (trim u) (default [] (get_roles (kv_document entry))) w).
Proof.
  set (Q := fun rw : result Response * World =>
              match rw with
              | (Return resp, w') =>
                  status resp = 200 ->
                  exists u password pw entry salt n,
                    login_body req u password
                    /\ ToString password = Some pw
                    /\ USERS w !! ("user:" +:+ trim u) = Some entry
                    /\ account_expired rt (kv_document entry) = false
                    /\ Base64.decode (default "undefined" (get_salt (kv_document entry)))
                       = Some salt
                    /\ get_iterations (kv_document entry) = Some n
                    /\ 1 <= n <= 4294967295 /\ iterations_supported rt n
                    /\ get_hash (kv_document entry)
                       = Some (Base64.encode (Sha256.pbkdf2 (bytes_of_string pw) salt n))
                    /\ resp = logged_in env (trim u) (b64Random rt 24)
                    /\ w' = snd (createSession rt env (trim u)
                                   (default [] (get_roles (kv_document entry))) w)
              | (Throw _, _) => True
              end).
  assert (Hbad : forall b st, st <> 200 -> Q (ret (bad b env st) w)).
  { intros b st Hst H200. exfalso. apply Hst. exact H200. }
  assert (Hattempt : Q (login_attempt rt req env w)).
  { unfold login_attempt.
    apply bind_reads; [apply or_throw_world | exact (fun _ _ => I) | intros body Hbody].
    apply or_throw_inv in Hbody.
    apply bind_reads; [apply get_property_world | exact (fun _ _ => I) | intros uo Huo].
    apply bind_reads; [apply call_trim_world | exact (fun _ _ => I) | intros username Hname].
    apply bind_reads; [apply get_property_world | exact (fun _ _ => I) | intros po Hpo].
    destruct (String.eqb_spec username "") as [Hblank | Hfilled];
      [apply Hbad; discriminate |].
    destruct (truthy (Some (or_empty po))) eqn:Htruthy; [| apply Hbad; discriminate].
    cbn [negb orb].
    apply call_trim_inv in Hname as (u & Hu & ->).
    (* the body is an object with a string under "username" *)
    assert (Hobject : exists fields,
              body = JObject fields /\ assoc "username" fields = Some (JString u)
              /\ po = assoc "password" fields).
    { destruct (get_property_inv _ _ _ _ Huo) as [(fields & -> & ->) | ->].
      - exists fields. split; [reflexivity |].
        destruct (get_property_inv _ _ _ _ Hpo) as [(fields' & [= <-] & ->) | ->];
          [| discriminate Htruthy].
        split; [| reflexivity].
        destruct (assoc "username" fields) as [j |]; [| injection Hu as <-; contradiction].
        unfold or_empty in Hu. destruct (truthy (Some j));
          [congruence | injection Hu as <-; contradiction].
      - injection Hu as <-. contradiction. }
    destruct Hobject as (fields & -> & Husername & ->).
    destruct (assoc "password" fields) as [password |] eqn:Hpassword; [| discriminate Htruthy].
    assert (Hpw : truthy (Some password) = true).
    { unfold or_empty in Htruthy. destruct (truthy (Some password)); [reflexivity | exact Htruthy]. }
    rewrite (or_empty_truthy password Hpw).
    apply bind_reads; [reflexivity | exact (fun _ _ => I) | intros doc Hdoc].
    unfold kv_get in Hdoc. cbn [fst] in Hdoc. injection Hdoc as Hdoc.
    destruct (USERS w !! ("user:" +:+ trim u)) as [entry |] eqn:Hentry;
      cbn [fmap option_fmap option_map] in Hdoc; subst doc; [| apply Hbad; discriminate].
    destruct (account_expired rt (kv_document entry)) eqn:Hexpired; [apply Hbad; discriminate |].
    apply bind_reads; [apply hashPasswordPBKDF2_world | exact (fun _ _ => I) | intros derived Hrun].
    apply hashPasswordPBKDF2_inv in Hrun as (salt & pw & n & Hsalt & Htext & Hn & Hrange & Hcap & ->).
    destruct (hash_differs _ _) eqn:Hhash; [apply Hbad; discriminate |].
    unfold bind. rewrite createSession_unfold. cbn [fst]. intros _.
    exists u, password, pw, entry, salt, n.
    repeat split; try assumption; try lia.
    - exists fields. repeat split; assumption.
    - unfold hash_differs in Hhash.
      destruct (get_hash (kv_document entry)) as [h |]; [| discriminate Hhash].
      apply negb_false_iff, String.eqb_eq in Hhash. congruence. }
  intros Hrun H200. unfold handleLogin, try_catch in Hrun. subst Q.
  destruct (login_attempt rt req env w) as [[resp0 | e] w0].
  - injection Hrun as <- <-. exact (Hattempt H200).
  - injection Hrun as <- <-. discriminate H200.
Qed.

End LoginSound.

Section LoginTheorems.

Context (rt : Runtime) (env : Env).

Lemma fetch_login (req : Request) (w : World) :
  method req = "POST" -> pathname req = "/api/login" ->
  fetch rt req env w = handleLogin rt req env w.
Proof.
  intros Hpost Hpath. unfold fetch, try_catch. rewrite Hpost, Hpath.
  cbn [String.eqb Ascii.eqb Bool.eqb andb].
  destruct (handleLogin_outcome rt env req w) as (resp & w' & -> & _). reflexivity.
Qed.

Lemma login_body_unique (req : Request) (u1 u2 : string) (p1 p2 : json) :
  login_body req u1 p1 -> login_body req u2 p2 -> u1 = u2 /\ p1 = p2.
Proof.
  intros (f1 & Hb1 & Hu1 & Hp1 & _) (f2 & Hb2 & Hu2 & Hp2 & _).
  rewrite Hb1 in Hb2. injection Hb2 as <-. split; congruence.
Qed.

(** X13.  A 200 from [POST /api/login] is earned: the body names a
    user whose record is in the store and not expired, the record's
    [hash] is the base64 of PBKDF2-HMAC-SHA256 over the password text
    with the record's decoded [salt] and its [iterations], and the one
    change to the store is the new session key, holding the trimmed
    name, the record's roles and an expiry thirty days ahead. *)
Theorem login_success_is_sound (req : Request) (w w' : World) (resp : Response) :
  method req = "POST" ->
  pathname req = "/api/login" ->
  fetch rt req env w = (Return resp, w') ->
  status resp = 200 ->
  exists u password pw entry salt n,
    login_body req u password
    /\ ToString password = Some pw
    /\ USERS w !! ("user:" +:+ trim u) = Some entry
    /\ account_expired rt (kv_document entry) = false
    /\ Base64.decode (default "undefined" (get_salt (kv_document entry))) = Some salt
    /\ get_iterations (kv_document entry) = Some n
    /\ get_hash (kv_document entry)
       = Some (Base64.encode (Sha256.pbkdf2 (bytes_of_string pw) salt n))
    /\ USERS w'
       = <[SESSION_PREFIX +:+ b64Random rt 24 :=
             {| kv_document :=
                  SessionRecord
                    {| sess_username := trim u;
                       sess_exp := Date_now rt / 1000 + 2592000;
                       sess_roles := Some (default [] (get_roles (kv_document entry))) |};
                kv_expiration := Some (Date_now rt / 1000 + 2592000) |}]> (USERS w)
    /\ upstream_calls w' = upstream_calls w.
Proof.
  intros Hpost Hpath Hrun H200. rewrite (fetch_login req w Hpost Hpath) in Hrun.
  destruct (handleLogin_success_inv rt env req w w' resp Hrun H200)
    as (u & password & pw & entry & salt & n & Hbody & Htext & Hentry & Hexp & Hsalt & Hn
        & _ & _ & Hhash & _ & ->).
  exists u, password, pw, entry, salt, n.
  rewrite createSession_unfold. cbn [snd USERS upstream_calls].
  repeat split; assumption || reflexivity.
Qed.

(** X14.  The [hash] string the provisioning tool prints can never
    verify, whatever else the record holds: the worker compares it with
    the output of [btoa], and the tool's string contains [$], which is
    not a base64 character.  A record carrying that string, even one
    completed by hand with [salt] and [iterations], is refused for every
    password, and the store is left as it was. *)
Theorem tool_hash_never_verifies (req : Request) (w : World) (u : string) (pj : json)
    (entry : KVEntry) (username password role : string) (max_pages max_files : Z)
    (expires : string) (salt : list Z) :
  login_body req u pj ->
  USERS w !! ("user:" +:+ trim u) = Some entry ->
  get_hash (kv_document entry)
  = doc_hash (MakeUser.rec username password role max_pages max_files expires salt) ->
  exists resp,
    handleLogin rt req env w = (Return resp, w)
    /\ (status resp = 400 \/ status resp = 401 \/ status resp = 403).
Proof.
  intros Hbody Hentry Hhash.
  destruct (handleLogin_outcome rt env req w) as (resp & w' & Hrun & Hshape).
  destruct Hshape as [(b & st & -> & Hst & ->) | (u' & roles & -> & _)].
  { exists (bad b env st). split; [exact Hrun | exact Hst]. }
  exfalso.
  destruct (handleLogin_success_inv rt env req w w' _ Hrun eq_refl)
    as (u2 & p2 & pw & entry2 & salt2 & n & Hbody2 & _ & Hentry2 & _ & _ & _ & _ & _ & Hhash2 & _).
  destruct (login_body_unique req u u2 pj p2 Hbody Hbody2) as [<- <-].
  rewrite Hentry in Hentry2. injection Hentry2 as <-.
  rewrite Hhash2 in Hhash. cbn [MakeUser.rec doc_hash] in Hhash.
  apply (f_equal (fun h => match h with
                           | Some h => all_chars base64_char h
                           | None => true
                           end)) in Hhash.
  cbv beta iota in Hhash.
  rewrite encode_base64, (all_chars_app base64_char "pbkdf2$") in Hhash.
  change (all_chars base64_char "pbkdf2$") with false in Hhash.
  cbn [andb] in Hhash. discriminate Hhash.
Qed.

End LoginTheorems.

(** ** The extract gate and handler *)

Section ExtractMore.

Context (rt : Runtime) (env : Env).

(** X15.  Session mode is earned: when the guard lets a request in as
    a user, the request presented a non-empty token, the store holds a
    session record under [session:<token>] whose [exp] lies after the
    current second, and the user and roles are that record's; the guard
    prepares no cookie and changes nothing. *)
Theorem session_mode_is_sound (req : Request) (w w' : World) (u : string)
    (roles : list string) (hs : option (gmap string string)) :
  guardExtract rt req env w = (Return (Allowed (session u roles) hs), w') ->
  exists t entry s,
    getCookie rt req SESSION_COOKIE w = (Return (Some t), w)
    /\ t <> EmptyString
    /\ USERS w !! (SESSION_PREFIX +:+ t) = Some entry
    /\ kv_document entry = SessionRecord s
    /\ Date_now rt / 1000 < sess_exp s
    /\ u = sess_username s /\ roles = default [] (sess_roles s)
    /\ hs = None /\ w' = w.
Proof.
  rewrite guardExtract_unfold. unfold session_of.
  pose proof (getCookie_world rt req SESSION_COOKIE w) as Hw.
  destruct (getCookie rt req SESSION_COOKIE w) as [[token | e] w1]; cbn [snd] in Hw; subst w1;
    [| discriminate].
  rewrite getSession_unfold.
  assert (Htrial : match readTrialCookie rt req w with
                    | (Throw e, _) => (Throw e, w)
                    | (Return used, _) =>
                        if trialExceeded used then (Return (Denied (trial_exhausted env)), w)
                        else (Return (Allowed (trial (js_add used 1))
                                        (Some {[ "Set-Cookie" := trial_cookie (js_add used 1) ]})),
                              w)
                    end <> (Return (Allowed (session u roles) hs), w')).
  { destruct (readTrialCookie rt req w) as [[used | e] w1]; [| discriminate].
    destruct (trialExceeded used); discriminate. }
  destruct token as [[| c t] |]; [intros Hrun; destruct (Htrial Hrun) | |
                                  intros Hrun; destruct (Htrial Hrun)].
  destruct (USERS w !! (SESSION_PREFIX +:+ String c t)) as [entry |] eqn:Hentry;
    cbn [fmap option_fmap option_map live_session];
    [| intros Hrun; destruct (Htrial Hrun)].
  destruct (kv_document entry) as [d | s] eqn:Hdoc;
    [intros Hrun; destruct (Htrial Hrun) |].
  unfold now_seconds.
  destruct (Z.ltb_spec (Date_now rt / 1000) (sess_exp s));
    [| intros Hrun; destruct (Htrial Hrun)].
  intros [= <- <- <- <-].
  exists (String c t), entry, s. repeat split; try assumption; try reflexivity. discriminate.
Qed.

Lemma extractWithGPT_response (imgs : list string) (docText : DocText) (w1 w2 : World) :
  fst (extractWithGPT rt env imgs docText w1) = fst (extractWithGPT rt env imgs docText w2).
Proof.
  unfold extractWithGPT, bind, record_call.
  destruct docText as [text |]; cbn [ret raise throw fst snd]; [| reflexivity].
  destruct (fetch_responses rt _); reflexivity.
Qed.

Lemma after_guard_response (req : Request) (guard : Guard) (w1 w2 : World) :
  fst (after_guard rt env req guard w1) = fst (after_guard rt env req guard w2).
Proof.
  unfold after_guard.
  destruct (form_data req) as [form |]; [| reflexivity].
  destruct (_ && _); [reflexivity |].
  destruct (10 <? _); [reflexivity |].
  destruct guard as [mode hs | error]; [| reflexivity].
  match goal with
  | |- context [extractWithGPT rt env ?i ?d w1] =>
      pose proof (extractWithGPT_response i d w1 w2) as Hsame;
      destruct (extractWithGPT rt env i d w1) as [[j1 | e1] w1'];
      destruct (extractWithGPT rt env i d w2) as [[j2 | e2] w2']
  end; cbn [fst] in *; congruence.
Qed.

(** X16.  The extract handler reads the store only under the
    [session:] prefix: two stores that agree on those keys give the same
    response to every request.  Deleting, expiring or rewriting a
    credential record therefore ends none of the user's sessions. *)
Theorem extract_reads_only_session_keys (req : Request) (w1 w2 : World) :
  (forall t, USERS w1 !! (SESSION_PREFIX +:+ t) = USERS w2 !! (SESSION_PREFIX +:+ t)) ->
  fst (handleExtract rt req env w1) = fst (handleExtract rt req env w2).
Proof.
  intros Hsessions.
  rewrite !handleExtract_unfold, !guardExtract_unfold.
  assert (Hsess : session_of rt env req w1 = session_of rt env req w2).
  { unfold session_of. rewrite !getCookie_unfold.
    destruct (cookie_match _ _) as [m |]; [| reflexivity].
    destruct (URI.decode m) as [token |]; [| reflexivity].
    rewrite !getSession_unfold. destruct token as [| c t]; [reflexivity |].
    rewrite Hsessions. reflexivity. }
  rewrite Hsess.
  destruct (session_of rt env req w2) as [[s |] | e]; [apply after_guard_response | | reflexivity].
  rewrite !readTrialCookie_unfold, !getCookie_unfold.
  destruct (cookie_match _ _) as [m |].
  - destruct (URI.decode m) as [v |]; [| reflexivity].
    destruct (trialExceeded _); [reflexivity | apply after_guard_response].
  - destruct (trialExceeded _); [reflexivity | apply after_guard_response].
Qed.

Lemma bad_status (b : json) (st : Z) : status (bad b env st) = st.
Proof. reflexivity. Qed.

(** What [handleExtract] answers once the guard has decided. *)
Lemma after_guard_cases (req : Request) (mode : AuthResult)
    (hs : option (gmap string string)) (w : World) :
  match after_guard rt env req (Allowed mode hs) w with
  | (Throw _, _) => True
  | (Return resp, w') =>
      (resp = bad (error_body "trial_one_page_only") env 403
       /\ is_trial (Allowed mode hs) = true /\ w' = w)
      \/ (resp = bad (error_body "too_many_pages") env 400 /\ w' = w)
      \/ (exists j, resp = success env j (default ∅ hs))
  end.
Proof.
  unfold after_guard.
  destruct (form_data req) as [form |]; [| exact I].
  destruct (is_trial (Allowed mode hs)) eqn:Htrial; cbn [andb].
  - destruct (1 <? _); [left; auto |].
    destruct (10 <? _); [right; left; auto |].
    destruct (extractWithGPT _ _ _ _ _) as [[j | e] w']; [right; right; eauto | exact I].
  - destruct (10 <? _); [right; left; auto |].
    destruct (extractWithGPT _ _ _ _ _) as [[j | e] w']; [right; right; eauto | exact I].
Qed.


(** X18.  An empty form is not refused: when the guard lets the
    request in and the form carries no string under [images_dataurl[]]
    (files sent under that name are not counted) and no [doc_text], the
    upstream API is still called, with no image and an empty text, and
    its answer decides the response. *)
Theorem extract_empty_form_reaches_upstream (req : Request) (w : World)
    (mode : AuthResult) (hs : option (gmap string string)) (form : list (string * FormValue)) :
  guardExtract rt req env w = (Return (Allowed mode hs), w) ->
  form_data req = Some form ->
  form_images form = [] ->
  assoc "doc_text" form = None ->
  let call := {| call_api_key := OPENAI_API_KEY env; call_images := [];
                 call_text := EmptyString |} in
  handleExtract rt req env w
  = (match fetch_responses rt call with
     | Extracted j => Return (success env j (default ∅ hs))
     | UpstreamFailed e => Throw e
     end,
     {| USERS := USERS w; upstream_calls := upstream_calls w ++ [call] |}).
Proof.
  intros Hguard Hform Himages Htext call.
  rewrite handleExtract_unfold, Hguard. unfold after_guard.
  rewrite Hform, Himages, Htext. cbn [List.length Z.of_nat Z.ltb Z.compare andb].
  rewrite andb_false_r.
  unfold extractWithGPT, bind, record_call. cbn [ret fst snd]. fold call.
  destruct (fetch_responses rt call); reflexivity.
Qed.

End ExtractMore.

Section StatusCodes.

Context (rt : Runtime) (env : Env).

Lemma handleExtract_status (req : Request) (w w' : World) (resp : Response) :
  handleExtract rt req env w = (Return resp, w') ->
  status resp = 200 \/ status resp = 400 \/ status resp = 403 \/ status resp = 429.
Proof.
  rewrite handleExtract_unfold, guardExtract_unfold.
  assert (Hafter : forall mode hs,
            after_guard rt env req (Allowed mode hs) w = (Return resp, w') ->
            status resp = 200 \/ status resp = 400 \/ status resp = 403 \/ status resp = 429).
  { intros mode hs Hrun. pose proof (after_guard_cases rt env req mode hs w) as Hcases.
    rewrite Hrun in Hcases.
    destruct Hcases as [(-> & _) | [(-> & _) | (j & ->)]]; auto. }
  destruct (session_of rt env req w) as [[s |] | e]; [apply Hafter | | discriminate].
  destruct (readTrialCookie rt req w) as [[used | e] w1]; [| discriminate].
  destruct (trialExceeded used); [| apply Hafter].
  intros [= <- _]. auto.
Qed.

(** X19.  The status codes of the API, route by route: a login is
    answered 200, 400, 401 or 403 and never 500, since [handleLogin]
    catches every error itself; a logout 200 or 500; an extraction 200,
    400, 403, 429 or 500; anything else 204, 404 or 405. *)
Theorem fetch_status_by_route (req : Request) (w : World) :
  exists resp w',
    fetch rt req env w = (Return resp, w')
    /\ ((method req = "POST" /\ pathname req = "/api/login"
         /\ (status resp = 200 \/ status resp = 400 \/ status resp = 401 \/ status resp = 403))
        \/ (method req = "POST" /\ pathname req = "/api/logout"
            /\ (status resp = 200 \/ status resp = 500))
        \/ (method req = "POST" /\ pathname req = "/api/extract"
            /\ (status resp = 200 \/ status resp = 400 \/ status resp = 403
                \/ status resp = 429 \/ status resp = 500))
        \/ (routed req = false
            /\ (status resp = 204 \/ status resp = 404 \/ status resp = 405))).
Proof.
  destruct (fetch_routes rt env req w)
    as [(Hunrouted & st & b & -> & Hst) | [(Hunrouted & ->) | (Hpost & handler & Hroute & ->)]].
  - eexists _, _. split; [reflexivity |]. do 3 right. split; [exact Hunrouted |].
    cbn [status]. destruct Hst as [-> | ->]; auto.
  - eexists _, _. split; [reflexivity |]. do 3 right. split; [exact Hunrouted |]. auto.
  - destruct Hroute as [(Hpath & ->) | [(Hpath & ->) | (Hpath & ->)]].
    + destruct (handleLogin_outcome rt env req w) as (resp & w' & -> & Hshape).
      exists resp, w'. split; [reflexivity |]. left. repeat split; try assumption.
      destruct Hshape as [(b & st & -> & Hst & _) | (u & roles & -> & _)]; [| auto].
      rewrite bad_status. destruct Hst as [-> | [-> | ->]]; auto.
    + rewrite handleLogout_unfold.
      destruct (getCookie rt req SESSION_COOKIE w) as [[token | e] w1];
        (eexists _, _; split; [reflexivity |]; right; left; repeat split; try assumption; auto).
    + destruct (handleExtract rt req env w) as [[resp | e] w'] eqn:Hrun.
      * exists resp, w'. split; [reflexivity |]. do 2 right. left.
        repeat split; try assumption.
        destruct (handleExtract_status req w w' resp Hrun) as [H200 | [H400 | [H403 | H429]]];
          auto.
      * eexists _, _. split; [reflexivity |]. do 2 right. left.
        repeat split; try assumption. auto 6.
Qed.

End StatusCodes.

(** ** [atob] after [btoa] *)

Lemma all_bytes_spec (P : Z -> bool) :
  all_bytes P = true -> forall a, is_byte a -> P a = true.
Proof.
  unfold all_bytes, is_byte. intros Hall a Ha.
  rewrite forallb_forall in Hall.
  rewrite <- (Z2Nat.id a) by lia. apply Hall, in_seq. lia.
Qed.

Lemma all_byte_pairs_spec (P : Z -> Z -> bool) :
  all_bytes (fun a => all_bytes (P a)) = true ->
  forall a b, is_byte a -> is_byte b -> P a b = true.
Proof.
  intros Hall a b Ha Hb.
  exact (all_bytes_spec _ (all_bytes_spec _ Hall a Ha) b Hb).
Qed.

Lemma sextets_first_byte (a b : Z) :
  is_byte a -> is_byte b ->
  Z.lor (Z.shiftl (Z.land (Z.shiftr a 2) 63) 2)
    (Z.shiftr (Z.land (Z.lor (Z.shiftl (Z.land a 3) 4) (Z.shiftr b 4)) 63) 4) = a.
Proof.
  intros Ha Hb. apply Z.eqb_eq.
  apply (all_byte_pairs_spec
           (fun a b =>
              Z.lor (Z.shiftl (Z.land (Z.shiftr a 2) 63) 2)
                (Z.shiftr (Z.land (Z.lor (Z.shiftl (Z.land a 3) 4) (Z.shiftr b 4)) 63) 4)
              =? a)); [vm_compute; reflexivity | exact Ha | exact Hb].
Qed.

Lemma sextets_second_nibble (a b : Z) :
  is_byte a -> is_byte b ->
  Z.land (Z.land (Z.lor (Z.shiftl (Z.land a 3) 4) (Z.shiftr b 4)) 63) 15 = Z.shiftr b 4.
Proof.
  intros Ha Hb. apply Z.eqb_eq.
  apply (all_byte_pairs_spec
           (fun a b =>
              Z.land (Z.land (Z.lor (Z.shiftl (Z.land a 3) 4) (Z.shiftr b 4)) 63) 15
              =? Z.shiftr b 4)); [vm_compute; reflexivity | exact Ha | exact Hb].
Qed.

Lemma sextets_second_byte (b c : Z) :
  is_byte b -> is_byte c ->
  Z.lor (Z.shiftl (Z.shiftr b 4) 4)
    (Z.shiftr (Z.land (Z.lor (Z.shiftl (Z.land b 15) 2) (Z.shiftr c 6)) 63) 2) = b.
Proof.
  intros Hb Hc. apply Z.eqb_eq.
  apply (all_byte_pairs_spec
           (fun b c =>
              Z.lor (Z.shiftl (Z.shiftr b 4) 4)
                (Z.shiftr (Z.land (Z.lor (Z.shiftl (Z.land b 15) 2) (Z.shiftr c 6)) 63) 2)
              =? b)); [vm_compute; reflexivity | exact Hb | exact Hc].
Qed.

Lemma sextets_third_byte (b c : Z) :
  is_byte b -> is_byte c ->
  Z.lor (Z.shiftl (Z.land (Z.land (Z.lor (Z.shiftl (Z.land b 15) 2) (Z.shiftr c 6)) 63) 3) 6)
    (Z.land (Z.land c 63) 63) = c.
Proof.
  intros Hb Hc. apply Z.eqb_eq.
  apply (all_byte_pairs_spec
           (fun b c =>
              Z.lor (Z.shiftl
                       (Z.land (Z.land (Z.lor (Z.shiftl (Z.land b 15) 2) (Z.shiftr c 6)) 63) 3) 6)
                (Z.land (Z.land c 63) 63)
              =? c)); [vm_compute; reflexivity | exact Hb | exact Hc].
Qed.

Lemma sextets_last_of_one (a : Z) :
  is_byte a ->
  Z.lor (Z.shiftl (Z.land (Z.shiftr a 2) 63) 2)
    (Z.shiftr (Z.land (Z.shiftl (Z.land a 3) 4) 63) 4) = a.
Proof.
  intros Ha. apply Z.eqb_eq.
  apply (all_bytes_spec
           (fun a =>
              Z.lor (Z.shiftl (Z.land (Z.shiftr a 2) 63) 2)
                (Z.shiftr (Z.land (Z.shiftl (Z.land a 3) 4) 63) 4)
              =? a)); [vm_compute; reflexivity | exact Ha].
Qed.

Lemma sextets_last_of_two (b : Z) :
  is_byte b ->
  Z.lor (Z.shiftl (Z.shiftr b 4) 4)
    (Z.shiftr (Z.land (Z.shiftl (Z.land b 15) 2) 63) 2) = b.
Proof.
  intros Hb. apply Z.eqb_eq.
  apply (all_bytes_spec
           (fun b =>
              Z.lor (Z.shiftl (Z.shiftr b 4) 4)
                (Z.shiftr (Z.land (Z.shiftl (Z.land b 15) 2) 63) 2)
              =? b)); [vm_compute; reflexivity | exact Hb].
Qed.

(** The bytes come back from the sextets [btoa] wrote. *)
Lemma bytes_of_encode_sextets (l : list Z) :
  Forall is_byte l ->
  Base64.bytes_of_sextets (map (fun v => Z.land v 63) (encode_sextets l)) = l.
Proof.
  induction l as [| a | a b | a b c r IH] using list_triple_ind; intros Hl.
  - reflexivity.
  - apply Forall_cons_1 in Hl as [Ha _].
    cbn [encode_sextets map Base64.bytes_of_sextets].
    rewrite (sextets_last_of_one a Ha). reflexivity.
  - apply Forall_cons_1 in Hl as [Ha Hl]. apply Forall_cons_1 in Hl as [Hb _].
    cbn [encode_sextets map Base64.bytes_of_sextets].
    rewrite (sextets_first_byte a b Ha Hb), (sextets_second_nibble a b Ha Hb),
      (sextets_last_of_two b Hb). reflexivity.
  - apply Forall_cons_1 in Hl as [Ha Hl]. apply Forall_cons_1 in Hl as [Hb Hl].
    apply Forall_cons_1 in Hl as [Hc Hr].
    cbn [encode_sextets map Base64.bytes_of_sextets].
    rewrite (sextets_first_byte a b Ha Hb), (sextets_second_nibble a b Ha Hb),
      (sextets_second_byte b c Hb Hc), (sextets_third_byte b c Hb Hc), (IH Hr).
    reflexivity.
Qed.

Lemma encode_split (l : list Z) :
  Base64.encode l = sextet_string (encode_sextets l) +:+ padding l.
Proof.
  induction l as [| a | a b | a b c r IH] using list_triple_ind;
    cbn [Base64.encode encode_sextets sextet_string padding];
    rewrite ?append_String, ?append_Empty, ?IH; reflexivity.
Qed.

Lemma sextet_in_range (v : Z) : 0 <= Z.land v 63 < 64.
Proof. change 63 with (Z.ones 6). rewrite Z.land_ones by lia. apply Z.mod_pos_bound. lia. Qed.

Lemma char_sextet_of_alphabet (k : nat) :
  (k < 64)%nat ->
  Base64.char_sextet
    match String.get k Base64.alphabet with
    | Some c => c
    | None => "A"%char
    end = Some (Z.of_nat k).
Proof.
  do 64 (destruct k as [| k]; [intros _; vm_compute; reflexivity |]). lia.
Qed.

Lemma char_sextet_of_sextet_char (v : Z) :
  Base64.char_sextet (Base64.sextet_char v) = Some (Z.land v 63).
Proof.
  pose proof (sextet_in_range v) as Hv. unfold Base64.sextet_char.
  transitivity (Some (Z.of_nat (Z.to_nat (Z.land v 63)))).
  - apply char_sextet_of_alphabet. lia.
  - rewrite Z2Nat.id by lia. reflexivity.
Qed.

Lemma sextets_sextet_string (vs : list Z) :
  Base64.sextets (sextet_string vs) = Some (map (fun v => Z.land v 63) vs).
Proof.
  induction vs as [| v r IH]; [reflexivity |].
  cbn [sextet_string Base64.sextets map]. rewrite char_sextet_of_sextet_char, IH. reflexivity.
Qed.

Lemma string_rev_onto_app (s acc : string) :
  string_rev_onto s acc = string_rev s +:+ acc.
Proof.
  unfold string_rev. revert acc. induction s as [| c r IH]; intros acc; [reflexivity |].
  cbn [string_rev_onto]. rewrite IH, (IH (String c EmptyString)), string_append_assoc.
  reflexivity.
Qed.

Lemma string_rev_String (c : ascii) (r : string) :
  string_rev (String c r) = string_rev r +:+ String c EmptyString.
Proof. unfold string_rev at 1. cbn [string_rev_onto]. apply string_rev_onto_app. Qed.

Lemma string_rev_app (a b : string) : string_rev (a +:+ b) = string_rev b +:+ string_rev a.
Proof.
  induction a as [| c a IH]; [rewrite append_Empty, append_Empty_r; reflexivity |].
  rewrite append_String, !string_rev_String, IH, string_append_assoc. reflexivity.
Qed.

Lemma string_rev_involutive (s : string) : string_rev (string_rev s) = s.
Proof.
  induction s as [| c r IH]; [reflexivity |].
  rewrite string_rev_String, string_rev_app, IH. reflexivity.
Qed.

Lemma string_rev_sextet_string (vs : list Z) :
  string_rev (sextet_string vs) = sextet_string (rev vs).
Proof.
  induction vs as [| v r IH]; [reflexivity |].
  cbn [sextet_string rev]. rewrite string_rev_String, IH.
  generalize (rev r). intros l. induction l as [| x l IHl]; [reflexivity |].
  cbn [sextet_string app]. rewrite append_String, IHl. reflexivity.
Qed.

Lemma base64_char_not_whitespace (c : ascii) :
  base64_char c = true -> Base64.is_ascii_whitespace c = false.
Proof. destruct c as [[] [] [] [] [] [] [] []]; vm_compute; congruence. Qed.

Lemma strip_whitespace_base64 (s : string) :
  all_chars base64_char s = true -> Base64.strip_whitespace s = s.
Proof.
  induction s as [| c r IH]; [reflexivity |].
  cbn [all_chars Base64.strip_whitespace]. intros [Hc Hr]%andb_prop.
  rewrite (base64_char_not_whitespace c Hc), (IH Hr). reflexivity.
Qed.

(** The end of a run of sextet characters, read backwards. *)
Lemma sextet_string_end (vs : list Z) :
  vs <> [] ->
  exists c r, string_rev (sextet_string vs) = String c r /\ c <> "="%char.
Proof.
  intros Hvs. rewrite string_rev_sextet_string.
  destruct (rev vs) as [| v r] eqn:Hrev.
  - apply (f_equal (@rev Z)) in Hrev. rewrite rev_involutive in Hrev. contradiction.
  - eexists _, _. split; [reflexivity | apply sextet_char_not_equals].
Qed.

Lemma strip_padding_none (s : string) :
  string_rev s = EmptyString \/ (exists c r, string_rev s = String c r /\ c <> "="%char) ->
  Base64.strip_padding s = s.
Proof.
  intros Hend. unfold Base64.strip_padding.
  destruct (_ =? 0); [| reflexivity].
  destruct Hend as [-> | (c & r & -> & Hc)]; [reflexivity |].
  destruct c as [[] [] [] [] [] [] [] []]; try reflexivity. contradiction.
Qed.

Lemma strip_padding_one (x : string) :
  Z.of_nat (String.length (x +:+ "=")) mod 4 = 0 ->
  (exists c r, string_rev x = String c r /\ c <> "="%char) ->
  Base64.strip_padding (x +:+ "=") = x.
Proof.
  intros Hlen (c & r & Hend & Hc). unfold Base64.strip_padding.
  rewrite Hlen. cbn [Z.eqb].
  rewrite string_rev_app. change (string_rev "=") with "=".
  rewrite append_String, append_Empty, Hend.
  assert (Hx : string_rev (String c r) = x)
    by (rewrite <- Hend; apply string_rev_involutive).
  destruct c as [[] [] [] [] [] [] [] []]; try exact Hx. contradiction.
Qed.

Lemma strip_padding_two (x : string) :
  Z.of_nat (String.length (x +:+ "==")) mod 4 = 0 ->
  Base64.strip_padding (x +:+ "==") = x.
Proof.
  intros Hlen. unfold Base64.strip_padding.
  rewrite Hlen. cbn [Z.eqb].
  rewrite string_rev_app. change (string_rev "==") with "==".
  rewrite !append_String, append_Empty. apply string_rev_involutive.
Qed.

Lemma sextet_string_length (vs : list Z) :
  String.length (sextet_string vs) = List.length vs.
Proof. induction vs as [| v r IH]; [reflexivity |]. cbn [sextet_string String.length List.length]. now rewrite IH. Qed.

Lemma string_length_app (a b : string) :
  String.length (a +:+ b) = (String.length a + String.length b)%nat.
Proof. induction a as [| c a IH]; [reflexivity |]. rewrite append_String. cbn [String.length]. now rewrite IH. Qed.

(** Bytes in threes make sextets in fours; one or two bytes left over
    make two or three sextets and two or one padding characters. *)
Lemma encode_shape (l : list Z) :
  exists k,
    (List.length (encode_sextets l) = 4 * k /\ padding l = EmptyString)%nat
    \/ (List.length (encode_sextets l) = 4 * k + 2 /\ padding l = "==")%nat
    \/ (List.length (encode_sextets l) = 4 * k + 3 /\ padding l = "=")%nat.
Proof.
  induction l as [| a | a b | a b c r IH] using list_triple_ind.
  - exists O. left. split; reflexivity.
  - exists O. right; left. split; reflexivity.
  - exists O. right; right. split; reflexivity.
  - destruct IH as (k & IH). exists (S k). cbn [encode_sextets padding List.length].
    destruct IH as [[Hn Hp] | [[Hn Hp] | [Hn Hp]]]; rewrite Hn, Hp;
      [left | right; left | right; right]; split; (lia || reflexivity).
Qed.

Lemma mod4_of_nat (k r : nat) : (r < 4)%nat -> Z.of_nat (4 * k + r) mod 4 = Z.of_nat r.
Proof.
  intros Hr. rewrite Nat2Z.inj_add, Nat2Z.inj_mul, Z.add_comm, Z.mul_comm.
  rewrite Z_mod_plus_full. apply Z.mod_small. lia.
Qed.

Lemma strip_padding_encode (l : list Z) :
  Base64.strip_padding (Base64.encode l) = sextet_string (encode_sextets l).
Proof.
  rewrite encode_split.
  destruct (encode_shape l) as (k & [[Hn Hp] | [[Hn Hp] | [Hn Hp]]]); rewrite Hp.
  - rewrite append_Empty_r. apply strip_padding_none.
    destruct (encode_sextets l) as [| v vs] eqn:Hvs; [left; reflexivity | right].
    apply sextet_string_end. discriminate.
  - apply strip_padding_two.
    rewrite string_length_app, sextet_string_length, Hn.
    change (String.length "==") with 2%nat.
    replace (4 * k + 2 + 2)%nat with (4 * (k + 1) + 0)%nat by lia.
    apply (mod4_of_nat (k + 1) 0). lia.
  - apply strip_padding_one.
    + rewrite string_length_app, sextet_string_length, Hn.
      change (String.length "=") with 1%nat.
      replace (4 * k + 3 + 1)%nat with (4 * (k + 1) + 0)%nat by lia.
      apply (mod4_of_nat (k + 1) 0). lia.
    + apply sextet_string_end. intros Hvs. rewrite Hvs in Hn. cbn in Hn. lia.
Qed.

(** [atob(btoa(bytes))] gives the bytes back. *)
Lemma decode_encode (l : list Z) :
  Forall is_byte l -> Base64.decode (Base64.encode l) = Some l.
Proof.
  intros Hl. unfold Base64.decode.
  rewrite (strip_whitespace_base64 _ (encode_base64 l)), strip_padding_encode.
  rewrite sextet_string_length.
  assert (Hlen : (Z.of_nat (List.length (encode_sextets l)) mod 4 =? 1) = false).
  { destruct (encode_shape l) as (k & [[Hn _] | [[Hn _] | [Hn _]]]); rewrite Hn.
    - rewrite <- (Nat.add_0_r (4 * k)), mod4_of_nat by lia. reflexivity.
    - rewrite mod4_of_nat by lia. reflexivity.
    - rewrite mod4_of_nat by lia. reflexivity. }
  rewrite Hlen, sextets_sextet_string. cbn [fmap option_fmap option_map].
  rewrite (bytes_of_encode_sextets l Hl). reflexivity.
Qed.

Lemma getRandomValues_bytes (rt : Runtime) (n : nat) : Forall is_byte (getRandomValues rt n).
Proof.
  unfold getRandomValues. apply Forall_map, Forall_forall. intros i _.
  unfold is_byte. apply Z.mod_pos_bound. lia.
Qed.

Lemma drop_equals_sextets (vs : list Z) :
  drop_equals (string_rev (sextet_string vs)) = string_rev (sextet_string vs).
Proof.
  destruct vs as [| v r]; [reflexivity |].
  destruct (sextet_string_end (v :: r)) as (c & s & Hend & Hc); [discriminate |].
  rewrite Hend. apply drop_equals_other, Hc.
Qed.

(** The token is the run of sextet characters, the padding removed. *)
Lemma b64Random_sextets (rt : Runtime) (n : nat) :
  b64Random rt n = sextet_string (encode_sextets (getRandomValues rt n)).
Proof.
  unfold b64Random, strip_trailing_equals.
  rewrite encode_split, string_rev_app.
  destruct (encode_shape (getRandomValues rt n)) as (k & [[_ Hp] | [[_ Hp] | [_ Hp]]]);
    rewrite Hp.
  - change (string_rev EmptyString) with EmptyString.
    rewrite append_Empty, drop_equals_sextets. apply string_rev_involutive.
  - change (string_rev "==") with "==".
    rewrite !append_String, append_Empty. cbn [drop_equals].
    rewrite drop_equals_sextets. apply string_rev_involutive.
  - change (string_rev "=") with "=".
    rewrite !append_String, append_Empty. cbn [drop_equals].
    rewrite drop_equals_sextets. apply string_rev_involutive.
Qed.

Lemma round_length (st : list Z) (kw : Z * Z) :
  List.length st = 8%nat -> List.length (Sha256.round st kw) = 8%nat.
Proof.
  destruct st as [| a [| b [| c [| d [| e [| f [| g [| h [| i r]]]]]]]]];
    intros Hst; try discriminate Hst; reflexivity.
Qed.

Lemma rounds_length (kws : list (Z * Z)) (st : list Z) :
  List.length st = 8%nat -> List.length (fold_left Sha256.round kws st) = 8%nat.
Proof.
  revert st. induction kws as [| kw r IH]; intros st Hst; [exact Hst |].
  cbn [fold_left]. apply IH, round_length, Hst.
Qed.

Lemma compress_length (st block : list Z) :
  List.length st = 8%nat -> List.length (Sha256.compress st block) = 8%nat.
Proof.
  intros Hst. unfold Sha256.compress.
  rewrite length_map, length_combine, (rounds_length _ st Hst), Hst. reflexivity.
Qed.

Lemma blocks_length (fuel : nat) (st l : list Z) :
  List.length st = 8%nat -> List.length (Sha256.blocks fuel st l) = 8%nat.
Proof.
  revert st l. induction fuel as [| f IH]; intros st l Hst; [exact Hst |].
  cbn [Sha256.blocks]. destruct l as [| x l]; [exact Hst |].
  apply IH, compress_length, Hst.
Qed.

Lemma be_bytes_words_length (l : list Z) :
  List.length (flat_map (Sha256.be_bytes 4) l) = (4 * List.length l)%nat.
Proof.
  induction l as [| x l IH]; [reflexivity |].
  cbn [flat_map]. rewrite length_app, IH. cbn [Sha256.be_bytes List.length]. lia.
Qed.

(** A SHA-256 digest has thirty-two bytes, and so has the derived key. *)
Lemma sha256_length (msg : list Z) : List.length (Sha256.sha256 msg) = 32%nat.
Proof.
  unfold Sha256.sha256. rewrite be_bytes_words_length, blocks_length; reflexivity.
Qed.

Lemma pbkdf2_length (password salt : list Z) (c : Z) :
  List.length (Sha256.pbkdf2 password salt c) = 32%nat.
Proof.
  unfold Sha256.pbkdf2.
  refine (proj1 (N.iter_invariant (Z.to_N (c - 1)) _ _
                   (fun tu => List.length (fst tu) = 32%nat /\ List.length (snd tu) = 32%nat)
                   _ _ _)).
  - intros [t u] [Ht _]. cbn [fst snd] in *. split; [| apply sha256_length].
    unfold Sha256.xor_bytes. rewrite length_map, length_combine, Ht.
    unfold Sha256.hmac. rewrite sha256_length. reflexivity.
  - split; apply sha256_length.
Qed.

Lemma sextet_string_alphabet (vs : list Z) :
  all_chars alphabet_char (sextet_string vs) = true.
Proof.
  induction vs as [| v r IH]; [reflexivity |].
  cbn [sextet_string all_chars]. unfold alphabet_char at 1.
  rewrite char_sextet_of_sextet_char, IH. reflexivity.
Qed.

(** Thirty-two bytes encode to forty-three characters of the alphabet
    and one padding character. *)
Lemma encode_key (l : list Z) :
  List.length l = 32%nat ->
  String.length (Base64.encode l) = 44%nat
  /\ exists body,
       Base64.encode l = body +:+ "=" /\ all_chars alphabet_char body = true.
Proof.
  intros Hl. rewrite encode_split.
  do 32 (destruct l as [| ? l]; [discriminate Hl |]).
  destruct l; [| discriminate Hl].
  split; [reflexivity |].
  eexists. split; [reflexivity | apply sextet_string_alphabet].
Qed.

(** X20.  [hashPasswordPBKDF2] recovers the salt from its base64 and
    returns a key of fixed shape: for every string password, every salt
    of bytes and every iteration count from 1 to 2^32 - 1 that the
    runtime accepts, the call on [btoa(salt)] returns the base64 of the
    PBKDF2-HMAC-SHA256 key derived from the password's bytes, exactly
    those salt bytes and that count; the string has 44 characters, 43 of
    the base64 alphabet and one closing [=], so a stored [hash] of any
    other shape is never equal to it. *)
Theorem hashPasswordPBKDF2_on_encoded_salt (rt : Runtime) (password : string)
    (salt : list Z) (n : Z) (w : World) :
  Forall is_byte salt ->
  1 <= n <= 4294967295 ->
  iterations_supported rt n ->
  let key := Base64.encode (Sha256.pbkdf2 (bytes_of_string password) salt n) in
  hashPasswordPBKDF2 rt (JString password) (Some (Base64.encode salt)) (Some n) w
  = (Return key, w)
  /\ String.length key = 44%nat
  /\ (exists body, key = body +:+ "=" /\ all_chars alphabet_char body = true)
  /\ forall doc h,
       get_hash doc = Some h ->
       String.length h <> 44%nat ->
       hash_differs key doc = true.
Proof.
  intros Hsalt Hn Hcap key.
  destruct (encode_key (Sha256.pbkdf2 (bytes_of_string password) salt n)
              (pbkdf2_length _ _ _)) as [Hlen Hshape].
  split; [| split; [exact Hlen | split; [exact Hshape |]]].
  - apply (hashPasswordPBKDF2_runs rt password (Base64.encode salt) salt n w);
      [apply decode_encode, Hsalt | exact Hn | exact Hcap].
  - intros doc h Hh Hother. unfold hash_differs. rewrite Hh.
    apply negb_true_iff, String.eqb_neq. intros Hsame. apply Hother.
    rewrite <- Hsame. exact Hlen.
Qed.

(** X21.  A session token is the whole draw: [b64Random] writes only
    characters of the base64 alphabet, no padding, and two draws of the
    same length give the same token only if they are the same bytes. *)
Theorem session_token_is_the_draw (rt : Runtime) (n : nat) :
  all_chars alphabet_char (b64Random rt n) = true
  /\ forall rt' : Runtime,
       b64Random rt' n = b64Random rt n -> getRandomValues rt' n = getRandomValues rt n.
Proof.
  split.
  - rewrite b64Random_sextets.
    induction (encode_sextets (getRandomValues rt n)) as [| v r IH]; [reflexivity |].
    cbn [sextet_string all_chars]. unfold alphabet_char at 1.
    rewrite char_sextet_of_sextet_char, IH. reflexivity.
  - intros rt' Hsame. rewrite !b64Random_sextets in Hsame.
    apply (f_equal Base64.sextets) in Hsame. rewrite !sextets_sextet_string in Hsame.
    injection Hsame as Hsame.
    apply (f_equal Base64.bytes_of_sextets) in Hsame.
    rewrite !bytes_of_encode_sextets in Hsame by apply getRandomValues_bytes.
    exact Hsame.
Qed.

(** ** The client's requests at the worker *)

Lemma normalize_newlines_id (s : string) :
  all_chars no_line_break s = true -> Client.normalize_newlines s = s.
Proof.
  induction s as [| c r IH]; [reflexivity |].
  cbn [all_chars Client.normalize_newlines]. intros [Hc Hr]%andb_prop.
  unfold no_line_break in Hc. apply andb_prop in Hc as [Hcr Hlf].
  apply negb_true_iff in Hcr, Hlf. rewrite Hcr, Hlf, (IH Hr). reflexivity.
Qed.

Lemma form_images_String (key value : string) (entries : list (string * FormValue)) :
  form_images ((key, FormString value) :: entries)
  = if String.eqb key "images_dataurl[]" then value :: form_images entries
    else form_images entries.
Proof. unfold form_images. cbn [omap list_omap]. destruct (String.eqb _ _); reflexivity. Qed.

Lemma encoded_image (d : string) (entries : list (string * FormValue)) :
  Client.encoded (("images_dataurl[]", FormString d) :: entries)
  = ("images_dataurl[]", FormString (Client.normalize_newlines d)) :: Client.encoded entries.
Proof. reflexivity. Qed.

Lemma form_images_client (imgs : list string) (text : string) :
  form_images (Client.encoded (Client.form imgs text)) = map Client.normalize_newlines imgs.
Proof.
  unfold Client.form. induction imgs as [| d imgs IH].
  - cbn [map app]. destruct (_ && _); reflexivity.
  - cbn [map app]. rewrite encoded_image, form_images_String, IH. reflexivity.
Qed.

Lemma doc_text_client (imgs : list string) (text : string) :
  match assoc "doc_text" (Client.encoded (Client.form imgs text)) with
  | Some (FormString s) => DocString s
  | Some FormFile => DocFile
  | None => DocString EmptyString
  end = DocString (Client.normalize_newlines (trim text)).
Proof.
  unfold Client.form. induction imgs as [| d imgs IH].
  - cbn [map app].
    destruct (String.eqb_spec text "") as [-> | _]; [reflexivity |].
    destruct (String.eqb_spec (trim text) "") as [-> | _]; reflexivity.
  - cbn [map app]. rewrite encoded_image. exact IH.
Qed.

Lemma payload_pages (file : Client.Upload) :
  Z.of_nat (List.length (fst (Client.payload file))) <= 10.
Proof.
  destruct file as [numPages render | dataUrl | text]; cbn [Client.payload fst List.length];
    [| lia | lia].
  unfold Client.pdfToImages, Client.MAX_PAGES. rewrite length_map, length_seq. lia.
Qed.

Section ClientRequests.

Context (rt : Runtime) (env : Env).

(** X22.  What the worker reads from a request of the client is what
    the client put in: the images, in their order, and the trimmed text
    with its line breaks sent as CR LF (the empty text when the document
    text is blank); reading the form changes nothing. *)
Theorem client_form_is_read_back (cookie : option string) (imgs : list string)
    (text : string) (w : World) :
  Forall (fun d => all_chars no_line_break d = true) imgs ->
  parseFormData rt (Client.postToWorker cookie (imgs, text)) w
  = (Return (imgs, DocString (Client.normalize_newlines (trim text))), w).
Proof.
  intros Himgs. unfold parseFormData, bind, Client.postToWorker.
  cbn [form_data or_throw ret fst snd].
  rewrite form_images_client, doc_text_client.
  replace (map Client.normalize_newlines imgs) with imgs; [reflexivity |].
  induction Himgs as [| d r Hd _ IH]; [reflexivity |].
  cbn [map]. rewrite (normalize_newlines_id d Hd), <- IH. reflexivity.
Qed.

(** X23.  The client never runs into the page ceiling: a PDF is cut to
    its first ten pages before it is sent, an image is one page and a
    document none, so whatever file the user picks and whatever cookies
    the browser attaches, the worker answers 200, 403, 429 or 500, never
    the 400 [too_many_pages]. *)
Theorem client_upload_is_never_too_many_pages (cookie : option string)
    (file : Client.Upload) (w : World) :
  exists resp w',
    fetch rt (Client.postToWorker cookie (Client.payload file)) env w = (Return resp, w')
    /\ (status resp = 200 \/ status resp = 403 \/ status resp = 429 \/ status resp = 500).
Proof.
  set (req := Client.postToWorker cookie (Client.payload file)).
  assert (Hfew : forall mode hs,
            match after_guard rt env req (Allowed mode hs) w with
            | (Return resp, _) => status resp = 200 \/ status resp = 403
            | (Throw _, _) => True
            end).
  { intros mode hs. unfold after_guard. cbn [req Client.postToWorker form_data].
    rewrite form_images_client, length_map.
    destruct (_ && _); [now right |].
    destruct (Z.ltb_spec 10 (Z.of_nat (List.length (fst (Client.payload file)))));
      [pose proof (payload_pages file); lia |].
    destruct (extractWithGPT _ _ _ _ _) as [[j | e] w']; [now left | exact I]. }
  unfold fetch, try_catch. cbn [req Client.postToWorker method pathname].
  cbn [String.eqb Ascii.eqb Bool.eqb andb]. fold req.
  rewrite handleExtract_unfold, guardExtract_unfold.
  destruct (session_of rt env req w) as [[s |] | e].
  - specialize (Hfew (session (sess_username s) (default [] (sess_roles s))) None).
    destruct (after_guard _ _ _ _ _) as [[resp | e] w'];
      eexists _, _; (split; [reflexivity |]); [destruct Hfew; auto | auto].
  - destruct (readTrialCookie rt req w) as [[used | e] w1];
      [| eexists _, _; split; [reflexivity | auto]].
    destruct (trialExceeded used); [eexists _, _; split; [reflexivity | auto] |].
    match goal with
    | |- context [after_guard rt env req (Allowed ?m ?h) w] => specialize (Hfew m h)
    end.
    destruct (after_guard _ _ _ _ _) as [[resp | e] w'];
      eexists _, _; (split; [reflexivity |]); [destruct Hfew; auto | auto].
  - eexists _, _. split; [reflexivity | auto].
Qed.

End ClientRequests.

(** ** The store over a request, and over a login followed by a logout *)

Section StoreEffects.

Context (rt : Runtime) (env : Env).

(** X25.  The store changes in two ways only: a login that succeeds
    adds the key of the new session, written to expire thirty days
    ahead, and a logout deletes the key of the token its cookie names.
    Every other request, extraction included, leaves the store as it
    was. *)
Theorem store_changes_only_by_login_and_logout (req : Request) (w : World) :
  USERS (snd (fetch rt req env w)) = USERS w
  \/ (method req = "POST" /\ pathname req = "/api/login"
      /\ exists entry,
           USERS (snd (fetch rt req env w))
           = <[SESSION_PREFIX +:+ b64Random rt 24 := entry]> (USERS w)
           /\ kv_expiration entry = Some (Date_now rt / 1000 + 2592000))
  \/ (method req = "POST" /\ pathname req = "/api/logout"
      /\ exists t,
           getCookie rt req SESSION_COOKIE w = (Return (Some t), w)
           /\ USERS (snd (fetch rt req env w)) = delete (SESSION_PREFIX +:+ t) (USERS w)).
Proof.
  destruct (fetch_routes rt env req w)
    as [(_ & st & b & -> & _) | [(_ & ->) | (Hpost & handler & Hroute & ->)]];
    [now left | now left |].
  destruct Hroute as [(Hpath & ->) | [(Hpath & ->) | (Hpath & ->)]].
  - destruct (handleLogin_outcome rt env req w) as (resp & w' & -> & Hshape). cbn [snd].
    destruct Hshape as [(b & st & _ & _ & ->) | (u & roles & _ & ->)]; [now left |].
    right; left. repeat split; try assumption.
    rewrite createSession_unfold. cbn [snd USERS].
    eexists. split; reflexivity.
  - rewrite handleLogout_unfold.
    pose proof (getCookie_world rt req SESSION_COOKIE w) as Hw.
    destruct (getCookie rt req SESSION_COOKIE w) as [[token | e] w1]; cbn [snd] in *; subst w1;
      [| now left].
    destruct token as [[| c t] |]; [now left | | now left].
    right; right. repeat split; try assumption. exists (String c t). split; reflexivity.
  - left. destruct (handleExtract_outcome rt env req w) as (Hkv & _ & _).
    destruct (handleExtract rt req env w) as [[resp | e] w']; exact Hkv.
Qed.

(** X26.  Login and logout are inverse on the store: when the token
    drawn at login was not in use, a logout that presents the session
    cookie as it was set puts the world back exactly as it was before
    the login. *)
Theorem login_then_logout_restores_the_store (rt0 : Runtime) (req : Request) (w : World)
    (username : string) (roles : list string) :
  USERS w !! (SESSION_PREFIX +:+ b64Random rt0 24) = None ->
  cookie_header req = Some (cookie_pair SESSION_COOKIE (b64Random rt0 24)) ->
  handleLogout rt req env (snd (createSession rt0 env username roles w))
  = (Return (logged_out env), w).
Proof.
  intros Hfresh Hheader.
  rewrite handleLogout_unfold.
  rewrite (getCookie_session_cookie rt req _ (b64Random rt0 24) (b64Random_24_base64 rt0) Hheader).
  destruct (proj2 (b64Random_24 rt0)) as (c & r & Htoken).
  rewrite createSession_unfold. cbn [snd]. rewrite Htoken at 1. cbn [without_session].
  rewrite <- Htoken. cbn [USERS upstream_calls].
  rewrite (delete_insert_id _ _ _ Hfresh). destruct w; reflexivity.
Qed.

End StoreEffects.

(** ** The further properties on concrete requests *)

Lemma fetch_keeps_other_keys_witness :
  USERS (snd (fetch Demo.runtime (Demo.login_request "bob" "password") Demo.env Accounts.world))
    !! "user:bob"
  = USERS Accounts.world !! "user:bob".
Proof.
  apply (fetch_keeps_other_keys Demo.runtime Demo.env (Demo.login_request "bob" "password")
           Accounts.world "user:bob").
  reflexivity.
Defined.

Lemma fetch_unrouted_is_inert_witness :
  (exists resp,
     fetch Demo.runtime Fixtures.preflight Demo.env Accounts.world
     = (Return resp, Accounts.world)
     /\ status resp = 204 /\ body resp = NoBody)
  /\ (exists resp,
        fetch Demo.runtime (Demo.post "/" None None None) Demo.env Accounts.world
        = (Return resp, Accounts.world)
        /\ status resp = 405 /\ body resp = Text "Use POST /api/extract")
  /\ fetch Demo.runtime Fixtures.get_login Demo.env Accounts.world
     = (Return (bad (error_body "not_found") Demo.env 404), Accounts.world).
Proof.
  split; [| split].
  - destruct (fetch_unrouted_is_inert Demo.runtime Demo.env Fixtures.preflight Accounts.world
                eq_refl) as (resp & Hrun & Hoptions & _).
    exists resp. split; [exact Hrun | exact (Hoptions eq_refl)].
  - destruct (fetch_unrouted_is_inert Demo.runtime Demo.env (Demo.post "/" None None None)
                Accounts.world eq_refl) as (resp & Hrun & _ & Hroot & _).
    exists resp. split; [exact Hrun |]. apply Hroot; [discriminate | reflexivity].
  - destruct (fetch_unrouted_is_inert Demo.runtime Demo.env Fixtures.get_login Accounts.world
                eq_refl) as (resp & Hrun & _ & _ & Hother).
    rewrite Hrun. f_equal. f_equal. apply Hother; discriminate.
Defined.

Lemma cookies_read_back_in_either_order_witness :
  let req :=
    Demo.extract_request
      (Some (cookie_pair TRIAL_COOKIE "2" +:+ "; " +:+ Fixtures.bob_cookie)) 1 in
  getCookie Demo.runtime req SESSION_COOKIE Accounts.world
  = (Return (Some Accounts.bob_token), Accounts.world)
  /\ getCookie Demo.runtime req TRIAL_COOKIE Accounts.world
     = (Return (Some "2"), Accounts.world).
Proof.
  intros req.
  apply (cookies_read_back_in_either_order Demo.runtime req Accounts.world
           Accounts.bob_token "2").
  - reflexivity.
  - reflexivity.
  - right. reflexivity.
Defined.

Lemma logout_revokes_session_witness :
  let req := Demo.post "/api/logout" (Some Fixtures.bob_cookie) None None in
  exists w',
    handleLogout Demo.runtime req Demo.env Fixtures.bob_logged_in
    = (Return (logged_out Demo.env), w')
    /\ USERS w' = delete (SESSION_PREFIX +:+ Accounts.bob_token) (USERS Fixtures.bob_logged_in)
    /\ upstream_calls w' = upstream_calls Fixtures.bob_logged_in
    /\ headers (logged_out Demo.env) !! "Set-Cookie"
       = Some "sess=; Max-Age=0; Path=/; HttpOnly; SameSite=None; Secure"
    /\ forall (rt' : Runtime) (req' : Request),
         getCookie rt' req' SESSION_COOKIE w' = (Return (Some Accounts.bob_token), w') ->
         session_of rt' Demo.env req' w' = Return None.
Proof.
  intros req.
  apply (logout_revokes_session Demo.runtime Demo.env req Fixtures.bob_logged_in
           Accounts.bob_token).
  - discriminate.
  - vm_compute. reflexivity.
Defined.

Lemma malformed_session_cookie_is_500_witness :
  fetch Demo.runtime (Demo.post "/api/logout" (Some "sess=%") None None) Demo.env
    Fixtures.bob_logged_in
  = (Return (bad (JObject [("error", JString "server_error");
                           ("detail", JString "URI malformed")]) Demo.env 500),
     Fixtures.bob_logged_in).
Proof.
  apply (malformed_session_cookie_is_500 Demo.runtime Demo.env
           (Demo.post "/api/logout" (Some "sess=%") None None) Fixtures.bob_logged_in "%").
  - reflexivity.
  - left. reflexivity.
  - reflexivity.
  - reflexivity.
Defined.

Lemma login_body_of_login_request (u p : string) :
  trim u <> EmptyString -> p <> EmptyString ->
  login_body (Demo.login_request u p) u (JString p).
Proof.
  intros Hu Hp. exists [("username", JString u); ("password", JString p)].
  repeat split; [exact Hu |]. destruct p; [congruence | reflexivity].
Qed.

Lemma login_expired_account_is_403_witness :
  handleLogin Demo.runtime (Demo.login_request "carol" "password") Demo.env
    Fixtures.expired_world
  = (Return (bad (error_body "account_expired") Demo.env 403), Fixtures.expired_world).
Proof.
  apply (login_expired_account_is_403 Demo.runtime Demo.env
           (Demo.login_request "carol" "password") Fixtures.expired_world "carol"
           (JString "password") Fixtures.carol_entry "2020-01-01" 1577836800000).
  - apply login_body_of_login_request; [vm_compute |]; discriminate.
  - apply lookup_insert_eq.
  - reflexivity.
  - vm_compute. reflexivity.
  - discriminate.
  - vm_compute. reflexivity.
Defined.

Lemma login_blank_credentials_is_400_witness :
  handleLogin Demo.runtime (Demo.login_request "   " "password") Demo.env Accounts.world
  = (Return (bad (error_body "username and password are required") Demo.env 400),
     Accounts.world).
Proof.
  apply (login_blank_credentials_is_400 Demo.runtime Demo.env
           (Demo.login_request "   " "password") Accounts.world
           [("username", JString "   "); ("password", JString "password")]).
  - reflexivity.
  - right. exists "   ". split; [reflexivity |]. left. vm_compute. reflexivity.
Defined.

Lemma login_depends_on_trimmed_name_and_password_text_witness :
  handleLogin Demo.runtime (Demo.login_request "  bob " "12345") Demo.env Accounts.world
  = handleLogin Demo.runtime (Fixtures.numeric_login "bob") Demo.env Accounts.world.
Proof.
  apply (login_depends_on_trimmed_name_and_password_text Demo.runtime Demo.env
           (Demo.login_request "  bob " "12345") (Fixtures.numeric_login "bob") Accounts.world
           "  bob " "bob" (JString "12345") (JNumber 12345)).
  - apply login_body_of_login_request; [vm_compute |]; discriminate.
  - exists [("username", JString "bob"); ("password", JNumber 12345)].
    repeat split. vm_compute. discriminate.
  - vm_compute. reflexivity.
  - vm_compute. reflexivity.
Defined.

Lemma login_success_is_sound_witness :
  let req := Demo.login_request "bob" "password" in
  let w' := snd (fetch Demo.runtime req Demo.env Accounts.world) in
  exists u password pw entry salt n,
    login_body req u password
    /\ ToString password = Some pw
    /\ USERS Accounts.world !! ("user:" +:+ trim u) = Some entry
    /\ account_expired Demo.runtime (kv_document entry) = false
    /\ Base64.decode (default "undefined" (get_salt (kv_document entry))) = Some salt
    /\ get_iterations (kv_document entry) = Some n
    /\ get_hash (kv_document entry)
       = Some (Base64.encode (Sha256.pbkdf2 (bytes_of_string pw) salt n))
    /\ USERS w'
       = <[SESSION_PREFIX +:+ b64Random Demo.runtime 24 :=
             {| kv_document :=
                  SessionRecord
                    {| sess_username := trim u;
                       sess_exp := Date_now Demo.runtime / 1000 + 2592000;
                       sess_roles := Some (default [] (get_roles (kv_document entry))) |};
                kv_expiration := Some (Date_now Demo.runtime / 1000 + 2592000) |}]>
           (USERS Accounts.world)
    /\ upstream_calls w' = upstream_calls Accounts.world.
Proof.
  intros req w'.
  apply (login_success_is_sound Demo.runtime Demo.env req Accounts.world w'
           (logged_in Demo.env "bob" Accounts.bob_token)).
  - reflexivity.
  - reflexivity.
  - vm_compute. reflexivity.
  - reflexivity.
Defined.

Lemma tool_hash_never_verifies_witness :
  exists resp,
    handleLogin Demo.runtime (Demo.login_request "alice" "s3cret") Demo.env
      Fixtures.completed_world
    = (Return resp, Fixtures.completed_world)
    /\ (status resp = 400 \/ status resp = 401 \/ status resp = 403).
Proof.
  apply (tool_hash_never_verifies Demo.runtime Demo.env (Demo.login_request "alice" "s3cret")
           Fixtures.completed_world "alice" (JString "s3cret") Fixtures.alice_entry
           "alice" "s3cret" "user" 10 100 "2099-12-31" Fixtures.salt).
  - apply login_body_of_login_request; [vm_compute |]; discriminate.
  - apply lookup_insert_eq.
  - reflexivity.
Defined.

Lemma session_mode_is_sound_witness :
  let req := Demo.extract_request (Some Fixtures.bob_cookie) 1 in
  exists t entry s,
    getCookie Demo.runtime req SESSION_COOKIE Fixtures.bob_logged_in
    = (Return (Some t), Fixtures.bob_logged_in)
    /\ t <> EmptyString
    /\ USERS Fixtures.bob_logged_in !! (SESSION_PREFIX +:+ t) = Some entry
    /\ kv_document entry = SessionRecord s
    /\ Date_now Demo.runtime / 1000 < sess_exp s
    /\ "bob" = sess_username s /\ [] = default [] (sess_roles s)
    /\ @None (gmap string string) = None /\ Fixtures.bob_logged_in = Fixtures.bob_logged_in.
Proof.
  intros req.
  apply (session_mode_is_sound Demo.runtime Demo.env req Fixtures.bob_logged_in
           Fixtures.bob_logged_in "bob" [] None).
  vm_compute. reflexivity.
Defined.

Lemma session_key_is_not_user_key (t u : string) : SESSION_PREFIX +:+ t <> "user:" +:+ u.
Proof. discriminate. Qed.

Lemma extract_reads_only_session_keys_witness :
  fst (handleExtract Demo.runtime (Demo.extract_request (Some Fixtures.bob_cookie) 1) Demo.env
         Accounts.world)
  = fst (handleExtract Demo.runtime (Demo.extract_request (Some Fixtures.bob_cookie) 1) Demo.env
           Demo.empty_world).
Proof.
  apply (extract_reads_only_session_keys Demo.runtime Demo.env
           (Demo.extract_request (Some Fixtures.bob_cookie) 1) Accounts.world Demo.empty_world).
  intros t. unfold Accounts.world, MakeUser.store, Demo.empty_world. cbn [USERS].
  apply lookup_insert_ne. apply not_eq_sym, session_key_is_not_user_key.
Defined.


Lemma extract_empty_form_reaches_upstream_witness :
  handleExtract Demo.runtime Fixtures.empty_extract Demo.env Demo.empty_world
  = (Return (success Demo.env Demo.extraction
               {[ "Set-Cookie" := trial_cookie 1 ]}),
     {| USERS := ∅;
        upstream_calls :=
          [{| call_api_key := "sk-test"; call_images := []; call_text := EmptyString |}] |}).
Proof.
  assert (Hguard : guardExtract Demo.runtime Fixtures.empty_extract Demo.env Demo.empty_world
                   = (Return (Allowed (trial 1) (Some {[ "Set-Cookie" := trial_cookie 1 ]})),
                      Demo.empty_world))
    by (vm_compute; reflexivity).
  exact (extract_empty_form_reaches_upstream Demo.runtime Demo.env Fixtures.empty_extract
           Demo.empty_world (trial 1) (Some {[ "Set-Cookie" := trial_cookie 1 ]}) []
           Hguard eq_refl eq_refl eq_refl).
Defined.

Lemma hashPasswordPBKDF2_on_encoded_salt_witness :
  hashPasswordPBKDF2 Demo.runtime (JString "password") (Some "c2FsdA==") (Some 1)
    Demo.empty_world
  = (Return "Eg+2z/z4syxD5yJSVsT4N6hlSMkszDVICAWYfLcL4Xs=", Demo.empty_world)
  /\ hash_differs
       (Base64.encode (Sha256.pbkdf2 (bytes_of_string "password") [115; 97; 108; 116] 1))
       (UserRecord Accounts.alice) = true.
Proof.
  assert (Hsalt : Forall is_byte [115; 97; 108; 116])
    by (repeat constructor; unfold is_byte; lia).
  assert (Hn : 1 <= 1 <= 4294967295) by lia.
  assert (Hcap : iterations_supported Demo.runtime 1) by (vm_compute; discriminate).
  destruct (hashPasswordPBKDF2_on_encoded_salt Demo.runtime "password" [115; 97; 108; 116] 1
              Demo.empty_world Hsalt Hn Hcap) as (Hrun & _ & _ & Hother).
  split.
  - etransitivity; [exact Hrun | vm_compute; reflexivity].
  - apply (Hother (UserRecord Accounts.alice) _ eq_refl).
    cbn [Accounts.alice MakeUser.rec doc_hash]. intros Hlen.
    rewrite !string_length_app in Hlen.
    change (String.length "pbkdf2$") with 7%nat in Hlen.
    destruct (encode_key (MakeUser.derived "s3cret" Fixtures.salt) (pbkdf2_length _ _ _))
      as [Hkey _].
    change (Base64.encode (MakeUser.derived "s3cret"
              [1; 2; 3; 4; 5; 6; 7; 8; 9; 10; 11; 12; 13; 14; 15; 16]))
      with (Base64.encode (MakeUser.derived "s3cret" Fixtures.salt)) in Hlen.
    rewrite Hkey in Hlen. lia.
Defined.

Lemma client_form_is_read_back_witness :
  parseFormData Demo.runtime
    (Client.postToWorker None (["data:image/jpeg;base64,AAAA"], "  Invoice 42  ")) Demo.empty_world
  = (Return (["data:image/jpeg;base64,AAAA"],
             DocString (Client.normalize_newlines (trim "  Invoice 42  "))),
     Demo.empty_world).
Proof.
  apply (client_form_is_read_back Demo.runtime None ["data:image/jpeg;base64,AAAA"]
           "  Invoice 42  " Demo.empty_world).
  repeat constructor.
Defined.

Lemma echoed_session_cookie_is_authorized_witness :
  guardExtract Demo.runtime (Demo.extract_request (Some Fixtures.bob_cookie) 1) Demo.env
    (snd (createSession Demo.runtime Demo.env "bob" [] Accounts.world))
  = (Return (Allowed (session "bob" []) None),
     snd (createSession Demo.runtime Demo.env "bob" [] Accounts.world)).
Proof.
  apply (echoed_session_cookie_is_authorized Demo.runtime Demo.runtime Demo.env Accounts.world
           (Demo.extract_request (Some Fixtures.bob_cookie) 1) "bob" []).
  - vm_compute. reflexivity.
  - vm_compute. reflexivity.
Defined.

Lemma login_then_logout_restores_the_store_witness :
  handleLogout Demo.runtime_thirty_days_later
    (Demo.post "/api/logout" (Some Fixtures.bob_cookie) None None) Demo.env
    Fixtures.bob_logged_in
  = (Return (logged_out Demo.env), Accounts.world).
Proof.
  apply (login_then_logout_restores_the_store Demo.runtime_thirty_days_later Demo.env
           Demo.runtime (Demo.post "/api/logout" (Some Fixtures.bob_cookie) None None)
           Accounts.world "bob" []).
  - vm_compute. reflexivity.
  - vm_compute. reflexivity.
Defined.
